(** * ai-chat: request handlers and guest view, embedded and verified

    A shallow embedding of the server routes and of the guest chat view of
    the [ai-chat] web package:

    - [lib/auth.ts]               ([getEnv], [getAuth])
    - [lib/ai/provider.ts]        ([getApiKey], [getModel], [getOpenRouter])
    - [routes/api/chat-messages]  ([serve], the sync proxy)
    - [routes/api/chat/ai]        ([POST], the completion streamer)
    - [routes/api/chat/guest]     ([POST], the guest completion path)
    - [components/chat/ChatPage]  ([GuestChat], [AuthenticatedChat],
                                   the [localStorage] helpers)

    Handlers are written in a state-and-exception monad over a [World] that
    holds the database tables, the module-level auth cache and the trace of
    effects a handler performs (session lookups, SQL statements, calls to
    the replication endpoint and to the LLM gateway, chunks written to a
    response body).  A handler is given twice: [POST] on a body of the type
    it declares, and [receive] on the request as it arrives, which adds the
    body [null] and, for the completion route, the thread ids the integer
    column refuses.  The guest view is a state machine over its [useState]
    cells and the [localStorage] it shares with other tabs.  Text is a byte
    string.  Console output is not part of the model.

    Outside the sources, and taken as parameters ([Platform]) or modelled
    where said so: the auth library's session look-up, the AI SDK's
    [streamText], [lib/electric-proxy.ts], [db/connection.ts] and the two
    remote services. *)

From Stdlib Require Import ZArith Ascii String Bool Lia.
From stdpp Require Import base option list strings gmap pretty.
From Stdlib Require Import Sorted.

Local Open Scope string_scope.

(** ** JavaScript values and built-ins used by the sources *)

Module Js.

(** A JavaScript number as the sources use it: thread ids, counters and
    lengths are integers, and [NaN] is what a failed coercion yields.
    Integers are exact here; JavaScript's doubles agree up to 2^53 in
    magnitude, which is where the statements about counters are made
    ([representable]).  Numbers with a fraction are not values of this
    type. *)
Inductive number : Type :=
| NaN
| Num (z : Z).

(** [ToBoolean] on numbers: [NaN] and [0] are falsy. *)
Definition ToBoolean (n : number) : bool :=
  match n with
  | NaN => false
  | Num z => negb (z =? 0)%Z
  end.

(** [a >= b]; every comparison with [NaN] is false. *)
Definition ge (a b : number) : bool :=
  match a, b with
  | Num x, Num y => (y <=? x)%Z
  | _, _ => false
  end.

(** [a + b]. *)
Definition add (a b : number) : number :=
  match a, b with
  | Num x, Num y => Num (x + y)
  | _, _ => NaN
  end.

(** [Number.prototype.toString()] (all digits; JavaScript changes to the
    exponent form from 1e21 on, beyond the [representable] integers). *)
Definition toString (n : number) : string :=
  match n with
  | NaN => "NaN"
  | Num z => pretty z
  end.

(** [ToBoolean] on strings: only the empty string is falsy. *)
Definition truthy (s : string) : bool := negb (String.eqb s "").

(** [a || b] on an optional string: [undefined] and [""] fall through. *)
Definition or_else (a : option string) (b : string) : string :=
  match a with
  | Some s => if truthy s then s else b
  | None => b
  end.

(** [a ?? b]: only [undefined] falls through. *)
Definition nullish {A : Type} (a b : option A) : option A :=
  match a with
  | Some x => Some x
  | None => b
  end.

(** An optional string that is present and non-empty ([if (x)]). *)
Definition present (a : option string) : option string :=
  match a with
  | Some s => if truthy s then Some s else None
  | None => None
  end.

Definition dquote : ascii := "034"%char.
Definition backslash : ascii := "092"%char.

(** [`"${s}"`]. *)
Definition quoted (s : string) : string :=
  String dquote (s ++ String dquote EmptyString).

(** White space of the ASCII range (TAB, LF, VT, FF, CR, SP).  The
    Unicode space separators are multi-byte in a byte string and are left
    in place. *)
Definition isWhiteSpace (c : ascii) : bool :=
  let n := nat_of_ascii c in
  ((9 <=? n) && (n <=? 13) || (n =? 32))%nat.

Fixpoint trimStart (s : string) : string :=
  match s with
  | String c s' => if isWhiteSpace c then trimStart s' else s
  | EmptyString => EmptyString
  end.

Fixpoint trimEnd (s : string) : string :=
  match s with
  | String c s' =>
      match trimEnd s' with
      | EmptyString => if isWhiteSpace c then EmptyString else String c EmptyString
      | t => String c t
      end
  | EmptyString => EmptyString
  end.

(** [String.prototype.trim()]. *)
Definition trim (s : string) : string := trimEnd (trimStart s).

Definition isDigit (c : ascii) : bool :=
  let n := nat_of_ascii c in ((48 <=? n) && (n <=? 57))%nat.

Definition digitValue (c : ascii) : Z := Z.of_nat (nat_of_ascii c) - 48.

(** The value of the longest prefix of decimal digits, [None] when the
    string does not start with a digit. *)
Fixpoint digitsPrefix (acc : option Z) (s : string) : option Z :=
  match s with
  | String c s' =>
      if isDigit c
      then digitsPrefix (Some (10 * default 0%Z acc + digitValue c)%Z) s'
      else acc
  | EmptyString => acc
  end.

(** [parseInt(s, 10)]: leading white space is skipped (of the ASCII
    range, see [isWhiteSpace]), one sign is read, then the longest run of
    digits; no digit gives [NaN].  The run is read exactly; JavaScript
    rounds it to a double, the same value up to 2^53 ([representable]). *)
Definition parseInt (s : string) : number :=
  let t := trimStart s in
  let '(sign, t) :=
    match t with
    | String "-" r => ((-1)%Z, r)
    | String "+" r => (1%Z, r)
    | _ => (1%Z, t)
    end in
  match digitsPrefix None t with
  | Some n => Num (sign * n)
  | None => NaN
  end.

Definition hexDigit (n : nat) : ascii :=
  ascii_of_nat (if (n <? 10)%nat then 48 + n else 87 + n).

(** One code unit of [QuoteJSONString]. *)
Definition quoteChar (c : ascii) : string :=
  let n := nat_of_ascii c in
  let esc (x : ascii) := String backslash (String x EmptyString) in
  if (n =? 34)%nat then esc dquote
  else if (n =? 92)%nat then esc backslash
  else if (n =? 8)%nat then esc "b"%char
  else if (n =? 9)%nat then esc "t"%char
  else if (n =? 10)%nat then esc "n"%char
  else if (n =? 12)%nat then esc "f"%char
  else if (n =? 13)%nat then esc "r"%char
  else if (n <? 32)%nat
       then String backslash
              (String "u" (String "0" (String "0"
                (String (hexDigit (n / 16)) (String (hexDigit (n mod 16)) EmptyString)))))
  else String c EmptyString.

Fixpoint quoteChars (s : string) : string :=
  match s with
  | String c s' => quoteChar c ++ quoteChars s'
  | EmptyString => EmptyString
  end.

(** [JSON.stringify(s)] for a string [s]. *)
Definition JSON_stringify (s : string) : string := quoted (quoteChars s).

(** [JSON.stringify({ error: msg })]. *)
Definition JSON_error (msg : string) : string :=
  "{" ++ quoted "error" ++ ":" ++ JSON_stringify msg ++ "}".

(** [xs.join(sep)] on an array of numbers. *)
Definition join (sep : string) (xs : list Z) : string :=
  String.concat sep (map (fun z => toString (Num z)) xs).

(** The signed decimal integers of [StringToNumber]: white space is
    trimmed on both sides, the empty string is [0], an optionally signed
    run of digits is its value.  It is the instance the worked examples
    run on; strings with a fraction, an exponent, a radix prefix or
    [Infinity] are outside this fragment (read as [NaN] here), and no
    theorem depends on it: handlers take the coercion as a parameter. *)
Definition decimalToNumber (s : string) : number :=
  let t := trim s in
  let '(sign, d) :=
    match t with
    | String "-" r => ((-1)%Z, r)
    | String "+" r => (1%Z, r)
    | _ => (1%Z, t)
    end in
  if String.eqb t "" then Num 0
  else if forallb isDigit (list_ascii_of_string d) && negb (String.eqb d "")
       then match digitsPrefix None d with
            | Some n => Num (sign * n)
            | None => NaN
            end
       else NaN.

End Js.

(** ** URLs and their query parameters *)

Module Url.

(** [URLSearchParams] is an ordered list of name-value pairs in which a
    name may occur more than once. *)
Definition Params : Type := list (string * string).

Record URL : Type := mkURL {
  origin : string;
  pathname : string;
  searchParams : Params
}.

Definition has (name : string) (ps : Params) : bool :=
  existsb (fun p => String.eqb (fst p) name) ps.

Definition remove (name : string) (ps : Params) : Params :=
  List.filter (fun p => negb (String.eqb (fst p) name)) ps.

Fixpoint setFirst (name value : string) (ps : Params) : Params :=
  match ps with
  | [] => []
  | (k, v) :: r =>
      if String.eqb k name
      then (k, value) :: remove name r
      else (k, v) :: setFirst name value r
  end.

(** [searchParams.set(name, value)]: the first pair named [name] takes
    the value and the other pairs of that name are removed; when there
    is none the pair is appended. *)
Definition set (name value : string) (ps : Params) : Params :=
  if has name ps then setFirst name value ps else (ps ++ [(name, value)])%list.

(** [searchParams.getAll(name)]. *)
Definition getAll (name : string) (ps : Params) : list string :=
  map snd (List.filter (fun p => String.eqb (fst p) name) ps).

(** [url.searchParams.set(name, value)] on a URL object. *)
Definition setParam (name value : string) (u : URL) : URL :=
  {| origin := origin u;
     pathname := pathname u;
     searchParams := set name value (searchParams u) |}.

End Url.

(** ** Configuration: [lib/auth.ts] and [lib/ai/provider.ts] *)

Module Env.

(** The variables the sources read, from the Cloudflare binding
    ([ctx.cloudflare.env]) or from [process.env]. *)
Record Vars : Type := mkVars {
  DATABASE_URL : option string;
  BETTER_AUTH_SECRET : option string;
  APP_BASE_URL : option string;
  RESEND_API_KEY : option string;
  RESEND_FROM_EMAIL : option string;
  OPENROUTER_API_KEY : option string;
  OPENROUTER_MODEL : option string;
  NODE_ENV : option string
}.

Definition empty : Vars := mkVars None None None None None None None None.

(** Where a handler runs: [cloudflare] is [ctx?.cloudflare?.env] ([None]
    when [getServerContext] throws or the chain is undefined). *)
Record Runtime : Type := mkRuntime {
  cloudflare : option Vars;
  process_env : Vars
}.

(** [type AuthEnv]. *)
Record AuthEnv : Type := mkAuthEnv {
  env_DATABASE_URL : string;
  env_BETTER_AUTH_SECRET : string;
  env_APP_BASE_URL : option string;
  env_RESEND_API_KEY : option string;
  env_RESEND_FROM_EMAIL : option string
}.

(** A variable after both look-ups of [getEnv]: the Cloudflare value when
    the binding exists, else ([??]) the [process.env] value. *)
Definition resolve (field : Vars -> option string) (rt : Runtime) : option string :=
  Js.nullish (cloudflare rt ≫= field) (field (process_env rt)).

(** [getEnv()]: [inl] is the thrown [Error]'s message. *)
Definition getEnv (rt : Runtime) : string + AuthEnv :=
  match Js.present (resolve DATABASE_URL rt) with
  | None => inl "DATABASE_URL is not configured"
  | Some db_url =>
      match Js.present (resolve BETTER_AUTH_SECRET rt) with
      | None => inl "BETTER_AUTH_SECRET is not configured"
      | Some secret =>
          inr {| env_DATABASE_URL := db_url;
                 env_BETTER_AUTH_SECRET := secret;
                 env_APP_BASE_URL := resolve APP_BASE_URL rt;
                 env_RESEND_API_KEY := resolve RESEND_API_KEY rt;
                 env_RESEND_FROM_EMAIL := resolve RESEND_FROM_EMAIL rt |}
      end
  end.

(** What [betterAuth({...})] is built from in [getAuth]. *)
Record AuthHandle : Type := mkAuthHandle {
  database : string;
  trustedOrigins : list string;
  isDev : bool;
  resend : option string;
  fromEmail : string
}.

Definition betterAuth (rt : Runtime) (env : AuthEnv) : AuthHandle :=
  {| database := env_DATABASE_URL env;
     trustedOrigins := [default "http://localhost:3000" (env_APP_BASE_URL env)];
     isDev := negb (bool_decide (NODE_ENV (process_env rt) = Some "production"));
     resend := Js.present (env_RESEND_API_KEY env);
     fromEmail := default "noreply@example.com" (env_RESEND_FROM_EMAIL env) |}.

(** [getApiKey()]: the Cloudflare key when truthy, else [process.env]'s. *)
Definition getApiKey (rt : Runtime) : option string :=
  match Js.present (cloudflare rt ≫= OPENROUTER_API_KEY) with
  | Some k => Some k
  | None => OPENROUTER_API_KEY (process_env rt)
  end.

(** [getModel()]. *)
Definition getModel (rt : Runtime) : string :=
  match Js.present (cloudflare rt ≫= OPENROUTER_MODEL) with
  | Some m => m
  | None => default "google/gemini-2.0-flash-001" (OPENROUTER_MODEL (process_env rt))
  end.

(** [getOpenRouter()]: [None] is [null]; the provider is its API key. *)
Definition getOpenRouter (rt : Runtime) : option string :=
  Js.present (getApiKey rt).

Definition getDefaultModel (rt : Runtime) : string := getModel rt.

End Env.

(** ** Database rows *)

(** A row of [chat_threads]. *)
Module Thread.
Record t : Type := mk {
  id : Z;
  title : string;
  user_id : string;
  created_at : Z
}.
End Thread.

(** A row of [chat_messages]. *)
Module Message.
Record t : Type := mk {
  id : Z;
  thread_id : Z;
  role : string;
  content : string;
  created_at : Z
}.
End Message.

(** The two tables, the identity sequence of [chat_messages.id] and the
    value of [now()]. *)
Record Db : Type := mkDb {
  chat_threads : list Thread.t;
  chat_messages : list Message.t;
  chat_messages_seq : Z;
  clock : Z
}.

(** What the [CREATE TABLE] statements guarantee of every table content:
    thread ids come from an identity sequence (they start at 1) and
    [thread_id] references a thread. *)
Definition db_wf (d : Db) : Prop :=
  Forall (fun t => (1 <= Thread.id t)%Z) (chat_threads d) /\
  Forall (fun m => Message.thread_id m ∈ map Thread.id (chat_threads d)) (chat_messages d).

(** ** Requests and responses *)

Inductive Role : Type := user | assistant.

(** [{ role, content }] of a request body. *)
Module Msg.
Record t : Type := mk { role : Role; content : string }.
End Msg.

(** The parsed JSON body of the chat routes as the handlers declare it
    (all fields optional). *)
Record Body : Type := mkBody {
  threadId : option (Js.number + string);
  messages : option (list Msg.t);
  model : option string
}.

Definition Headers : Type := list (string * string).

(** A [Request]: [json] is [None] when [request.json()] rejects; [url] is
    the request URL in parsed form. *)
Record Request : Type := mkRequest {
  headers : Headers;
  url : Url.URL;
  json : option Body
}.

(** What [await request.json()] resolves to, as far as the handlers' cast
    of the body goes ([as { threadId?, messages?, model? }]): the promise
    rejects (the [catch] then gives [{}]), the value is an object with
    fields of the declared types, or it is [null], the one JSON value on
    which reading a field throws. *)
Inductive Parsed : Type :=
| Rejected
| JsonNull
| Declared (body : Body).

(** A request as it arrives. *)
Record Incoming : Type := mkIncoming {
  incoming_headers : Headers;
  incoming_url : Url.URL;
  parsed : Parsed
}.

(** The request with its body as declared ([null] has none). *)
Definition declared (i : Incoming) : Request :=
  {| headers := incoming_headers i;
     url := incoming_url i;
     json := match parsed i with
             | Declared body => Some body
             | Rejected | JsonNull => None
             end |}.

(** Reading [body.field] on [null]. *)
Definition typeError (field : string) : string :=
  "TypeError: Cannot read properties of null (reading '" ++ field ++ "')".

(** A session record of the auth collaborator, [session?.user?.id]. *)
Record Session : Type := mkSession { session_user : option string }.

(** How an upstream text stream ends. *)
Inductive StreamEnd : Type :=
| Completes
| Throws (error : string).

(** A run of the LLM gateway: the text fragments it yields, then its end. *)
Record Upstream : Type := mkUpstream {
  fragments : list string;
  ending : StreamEnd
}.

(** ** Effects *)

Inductive Event : Type :=
| EvGetSession (h : Headers)
| EvQuery (table : string)
| EvExecute (sql : string)
| EvInsert (row : Message.t)
| EvElectric (u : Url.URL)
| EvLlm (model system : string) (msgs : list Msg.t)
| EvEnqueue (chunk : string)
| EvClose.

(** A statement that changes the database. *)
Definition is_write (e : Event) : bool :=
  match e with
  | EvExecute _ | EvInsert _ => true
  | _ => false
  end.

(** A call that leaves the process: replication endpoint or LLM gateway. *)
Definition is_network (e : Event) : bool :=
  match e with
  | EvElectric _ | EvLlm _ _ _ => true
  | _ => false
  end.

(** What a handler can read and change: the tables, the two module-level
    variables of [lib/auth.ts] ([cachedAuth], [cachedDbUrl]) and the
    effects performed so far, oldest first. *)
Record World : Type := mkWorld {
  db : Db;
  cachedAuth : option Env.AuthHandle;
  cachedDbUrl : string;
  trace : list Event
}.

Inductive Outcome (A : Type) : Type :=
| Returned (a : A)
| Thrown (error : string).
Arguments Returned {A} a.
Arguments Thrown {A} error.

(** Handler computations: state passing with exceptions. *)
Definition M (A : Type) : Type := World -> Outcome A * World.

Definition ret {A : Type} (a : A) : M A := fun w => (Returned a, w).

Definition bind {A B : Type} (m : M A) (k : A -> M B) : M B :=
  fun w =>
    match m w with
    | (Returned a, w') => k a w'
    | (Thrown e, w') => (Thrown e, w')
    end.

Definition throw {A : Type} (e : string) : M A := fun w => (Thrown e, w).

(** [try { m } catch { h }]. *)
Definition try_catch {A : Type} (m : M A) (h : string -> M A) : M A :=
  fun w =>
    match m w with
    | (Returned a, w') => (Returned a, w')
    | (Thrown e, w') => h e w'
    end.

(** The world with one more event on its trace. *)
Definition record (e : Event) (w : World) : World :=
  {| db := db w; cachedAuth := cachedAuth w;
     cachedDbUrl := cachedDbUrl w; trace := (trace w ++ [e])%list |}.

Definition emit (e : Event) : M unit := fun w => (Returned tt, record e w).

(** Modelled from the spec: [getDb] of [db/connection.ts] is not among the
    sources; it returns the cached handle of the one database, here the
    tables of the world. *)
Definition getDb : M Db := fun w => (Returned (db w), w).

Definition putDb (d : Db) : M unit :=
  fun w => (Returned tt, {| db := d; cachedAuth := cachedAuth w;
                            cachedDbUrl := cachedDbUrl w; trace := trace w |}).

Notation "x <- m ;; k" := (bind m (fun x => k))
  (at level 100, m at next level, right associativity).
Notation "m ;;; k" := (bind m (fun _ => k))
  (at level 100, right associativity).

(** ** Responses and streamed bodies *)

(** The result of the AI SDK's [streamText]: the upstream run it relays
    and the [onFinish] callback it was given. *)
Record StreamTextResult : Type := mkStreamTextResult {
  source : Upstream;
  onFinish : option (string -> M unit)
}.

Inductive ResponseBody : Type :=
| Text (s : string)
| Stream (chunks : list string)
| TextStream (r : StreamTextResult).

Record Response : Type := mkResponse {
  status : Z;
  response_headers : Headers;
  body : ResponseBody
}.

(** [new Response(JSON.stringify({ error }), { status, headers })]. *)
Definition errorResponse (code : Z) (error : string) : Response :=
  {| status := code;
     response_headers := [("content-type", "application/json")];
     body := Text (Js.JSON_error error) |}.

(** [result.toTextStreamResponse()]. *)
Definition toTextStreamResponse (r : StreamTextResult) : Response :=
  {| status := 200;
     response_headers := [("content-type", "text/plain; charset=utf-8")];
     body := TextStream r |}.

(** Writes the fragments to the client one by one and returns the text
    accumulated so far. *)
Fixpoint relay (text : string) (fs : list string) : M string :=
  match fs with
  | [] => ret text
  | f :: fs' => emit (EvEnqueue f) ;;; relay (text ++ f) fs'
  end.

(** The transport reading a response body to its end.  For a [TextStream]
    this is the contract of the AI SDK the routes are written against:
    every fragment is passed on as it arrives; when the upstream completes
    [onFinish] runs once with the whole text; when the upstream throws
    the error reaches the reader and [onFinish] does not run. *)
Definition deliver (b : ResponseBody) : M unit :=
  match b with
  | Text s => emit (EvEnqueue s) ;;; emit EvClose
  | Stream chunks => relay "" chunks ;;; emit EvClose
  | TextStream r =>
      text <- relay "" (fragments (source r)) ;;
      match ending (source r) with
      | Completes =>
          match onFinish r with
          | Some callback => callback text
          | None => ret tt
          end ;;;
          emit EvClose
      | Throws e => throw e
      end
  end.

(** ** Database access (drizzle) *)

(** [eq(column, value)] on an integer column. *)
Definition eq_int (column : Z) (value : Js.number) : bool :=
  match value with
  | Js.Num z => (column =? z)%Z
  | Js.NaN => false
  end.

(** [db.query.chat_threads.findMany({ where })]. *)
Definition findMany (where_ : Thread.t -> bool) : M (list Thread.t) :=
  emit (EvQuery "chat_threads") ;;;
  d <- getDb ;;
  ret (List.filter where_ (chat_threads d)).

(** [db.query.chat_threads.findFirst({ where })], for a [where] that
    compares columns with values of their types (see [findThread]). *)
Definition findFirst (where_ : Thread.t -> bool) : M (option Thread.t) :=
  emit (EvQuery "chat_threads") ;;;
  d <- getDb ;;
  ret (List.find where_ (chat_threads d)).

(** The values of PostgreSQL's [integer], the type of the columns [id]
    and [thread_id]. *)
Definition int4b (z : Z) : bool := ((- 2 ^ 31 <=? z) && (z <? 2 ^ 31))%Z.

(** The ownership query, [findFirst] with [eq(fields.id, threadId)], as the
    database answers it for every number: a parameter that is not a value
    of the column's type is refused, and the handler does not catch the
    rejection. *)
Definition findThread (threadId : Js.number) : M (option Thread.t) :=
  match threadId with
  | Js.Num z =>
      if int4b z
      then findFirst (fun fields => eq_int (Thread.id fields) threadId)
      else emit (EvQuery "chat_threads") ;;; throw "value out of range for type integer"
  | Js.NaN =>
      emit (EvQuery "chat_threads") ;;; throw "invalid input syntax for type integer"
  end.

(** [db.execute(sql)] for the [CREATE TABLE IF NOT EXISTS] statements: the
    tables exist, the statement changes no row. *)
Definition execute (sql : string) : M unit := emit (EvExecute sql).

(** [db.insert(chat_messages).values({ thread_id, role, content })]: [id]
    and [created_at] are generated; the integer column refuses [NaN] and
    the foreign key refuses an unknown thread. *)
Definition insert (thread_id : Js.number) (role content : string) : M unit :=
  d <- getDb ;;
  match thread_id with
  | Js.NaN => throw "invalid input syntax for type integer"
  | Js.Num z =>
      if existsb (fun t => (Thread.id t =? z)%Z) (chat_threads d)
      then
        let row := Message.mk (chat_messages_seq d + 1) z role content (clock d) in
        putDb {| chat_threads := chat_threads d;
                 chat_messages := (chat_messages d ++ [row])%list;
                 chat_messages_seq := chat_messages_seq d + 1;
                 clock := clock d |} ;;;
        emit (EvInsert row)
      else throw "violates foreign key constraint"
  end.

(** ** The routes *)

(** What the routes take from outside the repository's sources under
    study: the auth library's session look-up, the JavaScript runtime's
    [StringToNumber], [lib/electric-proxy.ts] and the two remote services. *)
Class Platform : Type := {
  getSession : Headers -> option Session;
  StringToNumber : string -> Js.number;
  prepareElectricUrl : Url.URL -> Url.URL;
  electricShape : Url.URL -> Z * Headers * list string;
  llm : string -> string -> list Msg.t -> Upstream
}.

Section Shared.

Context {platform : Platform}.
Variable rt : Env.Runtime.

(** [getAuth()] of [lib/auth.ts]: throws what [getEnv] throws; builds the
    handle when there is none or the database address changed. *)
Definition getAuth : M Env.AuthHandle :=
  match Env.getEnv rt with
  | inl e => throw e
  | inr env =>
      fun w =>
        match cachedAuth w with
        | Some handle =>
            if String.eqb (cachedDbUrl w) (Env.env_DATABASE_URL env)
            then (Returned handle, w)
            else
              let handle' := Env.betterAuth rt env in
              (Returned handle',
               {| db := db w; cachedAuth := Some handle';
                  cachedDbUrl := Env.env_DATABASE_URL env; trace := trace w |})
        | None =>
            let handle' := Env.betterAuth rt env in
            (Returned handle',
             {| db := db w; cachedAuth := Some handle';
                cachedDbUrl := Env.env_DATABASE_URL env; trace := trace w |})
        end
  end.

(** [await getAuth().api.getSession({ headers: request.headers })]. *)
Definition api_getSession (request : Request) : M (option Session) :=
  getAuth ;;;
  emit (EvGetSession (headers request)) ;;;
  ret (getSession (headers request)).

(** [session?.user?.id] when truthy. *)
Definition session_user_id (session : option Session) : option string :=
  Js.present (session ≫= session_user).

(** Modelled from the spec: [proxyElectricRequest] of
    [lib/electric-proxy.ts] is not among the sources; it sends the
    prepared request to the external replication endpoint and relays the
    answer. *)
Definition proxyElectricRequest (originUrl : Url.URL) : M Response :=
  emit (EvElectric originUrl) ;;;
  let '(code, hs, chunks) := electricShape originUrl in
  ret {| status := code; response_headers := hs; body := Stream chunks |}.

(** [streamText({ model: openrouter.chat(model), system, messages, onFinish })]:
    the request goes out to the gateway. *)
Definition streamText (model system : string) (msgs : list Msg.t)
    (callback : option (string -> M unit)) : M StreamTextResult :=
  emit (EvLlm model system msgs) ;;;
  ret {| source := llm model system msgs; onFinish := callback |}.

(** [messages.filter((m) => m.role === "user").pop()]. *)
Definition lastUserMessage (msgs : list Msg.t) : option Msg.t :=
  last (List.filter (fun m => match Msg.role m with user => true | assistant => false end) msgs).

(** The demo reply; [${lastUserMessage?.content}] prints [undefined] when
    there is no user message. *)
Definition demoReply (msgs : list Msg.t) : string :=
  "Demo reply: I received "
  ++ Js.quoted (from_option Msg.content "undefined" (lastUserMessage msgs))
  ++ ". Configure OPENROUTER_API_KEY for real responses.".

Definition remap (msgs : list Msg.t) : list Msg.t :=
  map (fun m => Msg.mk (Msg.role m) (Msg.content m)) msgs.

Definition emptyBody : Body := mkBody None None None.

(** [await request.json().catch(() => ({}))]. *)
Definition requestBody (request : Request) : Body :=
  default emptyBody (json request).

(** [Number(body.threadId)]. *)
Definition Number (v : option (Js.number + string)) : Js.number :=
  match v with
  | None => Js.NaN
  | Some (inl n) => n
  | Some (inr s) => StringToNumber s
  end.

End Shared.

(** *** [routes/api/chat-messages.ts]: the sync proxy for chat messages *)

Module ChatMessages.
Section Route.

Context {platform : Platform}.
Variable rt : Env.Runtime.

Definition create_chat_threads : string :=
  "CREATE TABLE IF NOT EXISTS chat_threads (
        id integer PRIMARY KEY GENERATED ALWAYS AS IDENTITY,
        title text NOT NULL,
        user_id text NOT NULL,
        created_at timestamptz NOT NULL DEFAULT now()
      );".

Definition create_chat_messages : string :=
  "CREATE TABLE IF NOT EXISTS chat_messages (
        id integer PRIMARY KEY GENERATED ALWAYS AS IDENTITY,
        thread_id integer NOT NULL REFERENCES chat_threads(id) ON DELETE CASCADE,
        role varchar(32) NOT NULL,
        content text NOT NULL,
        created_at timestamptz NOT NULL DEFAULT now()
      );".

(** The value given to the [where] parameter. *)
Definition whereClause (threadIds : list Z) : string :=
  if (0 <? length threadIds)%nat
  then Js.quoted "thread_id" ++ " IN (" ++ Js.join "," threadIds ++ ")"
  else Js.quoted "thread_id" ++ " = -1".

Definition serve (request : Request) : M Response :=
  session <- api_getSession rt request ;;
  match session_user_id session with
  | None => ret (errorResponse 401 "Unauthorized")
  | Some uid =>
      try_catch
        (execute create_chat_threads ;;; execute create_chat_messages)
        (fun _ => ret tt) ;;;
      userThreads <- findMany (fun fields => String.eqb (Thread.user_id fields) uid) ;;
      let threadIds := map Thread.id userThreads in
      let originUrl := prepareElectricUrl (url request) in
      let originUrl := Url.setParam "table" "chat_messages" originUrl in
      let originUrl := Url.setParam "where" (whereClause threadIds) originUrl in
      proxyElectricRequest originUrl
  end.

End Route.
End ChatMessages.

(** *** [routes/api/chat/ai.ts]: the completion streamer *)

Module ChatAi.
Section Route.

Context {platform : Platform}.
Variable rt : Env.Runtime.

(** The handler on a body of the declared type (or on [{}] when the body
    is not JSON) and a thread id that the id column can hold; [receive]
    below is the handler on every request. *)
Definition POST (request : Request) : M Response :=
  session <- api_getSession rt request ;;
  match session_user_id session with
  | None => ret (errorResponse 401 "Unauthorized")
  | Some uid =>
      let body := requestBody request in
      let threadId := Number (threadId body) in
      let messages := default [] (messages body) in
      let model := Js.or_else (model body) (Env.getDefaultModel rt) in
      if negb (Js.ToBoolean threadId) || (length messages =? 0)%nat
      then ret (errorResponse 400 "Missing threadId or messages")
      else
        thread <- findFirst (fun fields => eq_int (Thread.id fields) threadId) ;;
        match thread with
        | None => ret (errorResponse 403 "Forbidden")
        | Some thread =>
            if negb (String.eqb (Thread.user_id thread) uid)
            then ret (errorResponse 403 "Forbidden")
            else
              match Env.getOpenRouter rt with
              | None =>
                  let reply := demoReply messages in
                  insert threadId "assistant" reply ;;;
                  ret {| status := 200;
                         response_headers :=
                           [("content-type", "text/plain; charset=utf-8");
                            ("x-vercel-ai-data-stream", "v1")];
                         body := Stream ["0:" ++ Js.JSON_stringify reply ++ String "010"%char ""] |}
              | Some openrouter =>
                  result <- streamText model "You are a helpful assistant."
                              (remap messages)
                              (Some (fun text => insert threadId "assistant" text)) ;;
                  ret (toTextStreamResponse result)
              end
        end
  end.

(** The handler on every request as it arrives.  [POST] above is the
    handler on a body of the declared type and a thread id of the column's
    type; outside of these, reading [body.threadId] throws on [null] (after
    the session check) and the ownership query is refused ([findThread]). *)
Definition receive (i : Incoming) : M Response :=
  let request := declared i in
  session <- api_getSession rt request ;;
  match session_user_id session with
  | None => ret (errorResponse 401 "Unauthorized")
  | Some uid =>
      match parsed i with
      | JsonNull => throw (typeError "threadId")
      | Rejected | Declared _ =>
          let body := requestBody request in
          let threadId := Number (threadId body) in
          let messages := default [] (messages body) in
          let model := Js.or_else (model body) (Env.getDefaultModel rt) in
          if negb (Js.ToBoolean threadId) || (length messages =? 0)%nat
          then ret (errorResponse 400 "Missing threadId or messages")
          else
            thread <- findThread threadId ;;
            match thread with
            | None => ret (errorResponse 403 "Forbidden")
            | Some thread =>
                if negb (String.eqb (Thread.user_id thread) uid)
                then ret (errorResponse 403 "Forbidden")
                else
                  match Env.getOpenRouter rt with
                  | None =>
                      let reply := demoReply messages in
                      insert threadId "assistant" reply ;;;
                      ret {| status := 200;
                             response_headers :=
                               [("content-type", "text/plain; charset=utf-8");
                                ("x-vercel-ai-data-stream", "v1")];
                             body := Stream ["0:" ++ Js.JSON_stringify reply
                                             ++ String "010"%char ""] |}
                  | Some openrouter =>
                      result <- streamText model "You are a helpful assistant."
                                  (remap messages)
                                  (Some (fun text => insert threadId "assistant" text)) ;;
                      ret (toTextStreamResponse result)
                  end
            end
      end
  end.

End Route.
End ChatAi.

(** *** [routes/api/chat/guest.ts]: the guest completion path *)

Module ChatGuest.
Section Route.

Context {platform : Platform}.
Variable rt : Env.Runtime.

(** The handler on a body of the declared type (or on [{}] when the body
    is not JSON); [receive] below is the handler on every request. *)
Definition POST (request : Request) : M Response :=
  let body := requestBody request in
  let messages := default [] (messages body) in
  let model := Js.or_else (model body) (Env.getDefaultModel rt) in
  if (length messages =? 0)%nat
  then ret (errorResponse 400 "Missing messages")
  else
    match Env.getOpenRouter rt with
    | None =>
        let reply := demoReply messages in
        ret {| status := 200;
               response_headers := [("content-type", "text/plain; charset=utf-8")];
               body := Stream [reply] |}
    | Some openrouter =>
        result <- streamText model "You are a helpful assistant." (remap messages) None ;;
        ret (toTextStreamResponse result)
    end.

(** The handler on every request as it arrives: [POST] above on a body of
    the declared type (or on [{}] when the body is not JSON); on [null],
    reading [body.messages] throws. *)
Definition receive (i : Incoming) : M Response :=
  match parsed i with
  | JsonNull => throw (typeError "messages")
  | Rejected | Declared _ => POST (declared i)
  end.

End Route.
End ChatGuest.

(** ** [components/chat/ChatPage.tsx]: the guest view *)

Module ChatPage.

Definition FREE_REQUEST_KEY : string := "gen_chat_free_requests".
Definition FREE_REQUEST_LIMIT : Js.number := Js.Num 1.
Definition MODEL_STORAGE_KEY : string := "gen_chat_model".
Definition DARK_MODE_KEY : string := "gen_chat_dark_mode".

Definition AVAILABLE_MODELS : list string :=
  ["google/gemini-2.0-flash-001"; "anthropic/claude-sonnet-4"; "openai/gpt-4o"].

(** [localStorage]: string keys to string values, shared by everything
    that runs in the page.  The route is client-only ([ssr: false]), so
    [window] is defined. *)
Abbreviation Storage := (gmap string string).

Definition getStoredDarkMode (prefersDark : bool) (ls : Storage) : bool :=
  match ls !! DARK_MODE_KEY with
  | Some stored => String.eqb stored "true"
  | None => prefersDark
  end.

Definition setStoredDarkMode (dark : bool) (ls : Storage) : Storage :=
  <[DARK_MODE_KEY := if dark then "true" else "false"]> ls.

Definition getStoredModel (ls : Storage) : string :=
  match Js.present (ls !! MODEL_STORAGE_KEY) with
  | Some stored =>
      if existsb (fun m => String.eqb m stored) AVAILABLE_MODELS
      then stored
      else "google/gemini-2.0-flash-001"
  | None => "google/gemini-2.0-flash-001"
  end.

Definition setStoredModel (model : string) (ls : Storage) : Storage :=
  <[MODEL_STORAGE_KEY := model]> ls.

Definition getFreeRequestCount (ls : Storage) : Js.number :=
  Js.parseInt (Js.or_else (ls !! FREE_REQUEST_KEY) "0").

(** Returns the new count and the storage it was written to. *)
Definition incrementFreeRequestCount (ls : Storage) : Js.number * Storage :=
  let count := Js.add (getFreeRequestCount ls) (Js.Num 1) in
  (count, <[FREE_REQUEST_KEY := Js.toString count]> ls).

Record GuestMessage : Type := mkGuestMessage {
  id : Z;
  role : Role;
  content : string
}.

(** The [useState] cells of [GuestChat]. *)
Record GuestChat : Type := mkGuestChat {
  input : string;
  isLoading : bool;
  streamingContent : string;
  guestMessages : list GuestMessage;
  freeRequestsUsed : Js.number;
  showAuthPrompt : bool
}.

(** [fetch("/api/chat/guest", { method: "POST", body })]. *)
Record Fetch : Type := mkFetch {
  fetch_path : string;
  fetch_messages : list Msg.t;
  fetch_model : string
}.

(** The page: the view's state, [ChatPage]'s own two cells, the storage,
    the [accumulated] text of the [handleSend] that is reading a stream
    ([None] when none is), and the requests issued so far. *)
Record Page : Type := mkPage {
  view : GuestChat;
  selectedModel : string;
  darkMode : bool;
  localStorage : Storage;
  accumulated : option string;
  requests : list Fetch
}.

(** The guest view once mounted: initial cells, then the mount effects. *)
Definition mount (prefersDark : bool) (ls : Storage) : Page :=
  {| view := {| input := ""; isLoading := false; streamingContent := "";
                guestMessages := []; freeRequestsUsed := getFreeRequestCount ls;
                showAuthPrompt := false |};
     selectedModel := getStoredModel ls;
     darkMode := getStoredDarkMode prefersDark ls;
     localStorage := ls;
     accumulated := None;
     requests := [] |}.

Definition with_view (p : Page) (v : GuestChat) : Page :=
  {| view := v; selectedModel := selectedModel p; darkMode := darkMode p;
     localStorage := localStorage p; accumulated := accumulated p;
     requests := requests p |}.

(** [handleSend] up to its first [await]: [now] is [Date.now()]. *)
Definition handleSend (now : Z) (p : Page) : Page :=
  let v := view p in
  if negb (Js.truthy (Js.trim (input v))) || isLoading v then p
  else
    let userMessage := Js.trim (input v) in
    if Js.ge (freeRequestsUsed v) FREE_REQUEST_LIMIT
    then
      with_view p
        {| input := ""; isLoading := false; streamingContent := "";
           guestMessages := guestMessages v; freeRequestsUsed := freeRequestsUsed v;
           showAuthPrompt := true |}
    else
      let newUserMsg := mkGuestMessage now user userMessage in
      let messages :=
        (map (fun m => Msg.mk (role m) (content m)) (guestMessages v)
           ++ [Msg.mk user userMessage])%list in
      {| view := {| input := ""; isLoading := true; streamingContent := "";
                    guestMessages := (guestMessages v ++ [newUserMsg])%list;
                    freeRequestsUsed := freeRequestsUsed v;
                    showAuthPrompt := showAuthPrompt v |};
         selectedModel := selectedModel p;
         darkMode := darkMode p;
         localStorage := localStorage p;
         accumulated := Some "";
         requests := (requests p ++ [mkFetch "/api/chat/guest" messages (selectedModel p)])%list |}.

(** [reader.read()] yields a value. *)
Definition onChunk (chunk : string) (p : Page) : Page :=
  match accumulated p with
  | None => p
  | Some acc =>
      let v := view p in
      {| view := {| input := input v; isLoading := isLoading v;
                    streamingContent := acc ++ chunk;
                    guestMessages := guestMessages v;
                    freeRequestsUsed := freeRequestsUsed v;
                    showAuthPrompt := showAuthPrompt v |};
         selectedModel := selectedModel p;
         darkMode := darkMode p;
         localStorage := localStorage p;
         accumulated := Some (acc ++ chunk);
         requests := requests p |}
  end.

(** [reader.read()] yields [done]: the rest of the [try] block, then
    [finally]. *)
Definition onDone (now : Z) (p : Page) : Page :=
  match accumulated p with
  | None => p
  | Some acc =>
      let v := view p in
      let newAssistantMsg := mkGuestMessage (now + 1) assistant acc in
      let '(newCount, ls) := incrementFreeRequestCount (localStorage p) in
      {| view := {| input := input v; isLoading := false; streamingContent := "";
                    guestMessages := (guestMessages v ++ [newAssistantMsg])%list;
                    freeRequestsUsed := newCount;
                    showAuthPrompt :=
                      if Js.ge newCount FREE_REQUEST_LIMIT then true else showAuthPrompt v |};
         selectedModel := selectedModel p;
         darkMode := darkMode p;
         localStorage := ls;
         accumulated := None;
         requests := requests p |}
  end.

(** The [catch] block, then [finally]: the fetch rejected, the response
    was not ok or had no body, or reading the stream failed. *)
Definition onError (p : Page) : Page :=
  match accumulated p with
  | None => p
  | Some _ =>
      let v := view p in
      {| view := {| input := input v; isLoading := false; streamingContent := "";
                    guestMessages := guestMessages v;
                    freeRequestsUsed := freeRequestsUsed v;
                    showAuthPrompt := showAuthPrompt v |};
         selectedModel := selectedModel p;
         darkMode := darkMode p;
         localStorage := localStorage p;
         accumulated := None;
         requests := requests p |}
  end.

Definition setInput (text : string) (p : Page) : Page :=
  let v := view p in
  with_view p
    {| input := text; isLoading := isLoading v; streamingContent := streamingContent v;
       guestMessages := guestMessages v; freeRequestsUsed := freeRequestsUsed v;
       showAuthPrompt := showAuthPrompt v |}.

(** The prompt's "Maybe later" button. *)
Definition dismissPrompt (p : Page) : Page :=
  let v := view p in
  with_view p
    {| input := input v; isLoading := isLoading v; streamingContent := streamingContent v;
       guestMessages := guestMessages v; freeRequestsUsed := freeRequestsUsed v;
       showAuthPrompt := false |}.

Definition handleModelChange (model : string) (p : Page) : Page :=
  {| view := view p; selectedModel := model; darkMode := darkMode p;
     localStorage := setStoredModel model (localStorage p);
     accumulated := accumulated p; requests := requests p |}.

Definition toggleDarkMode (p : Page) : Page :=
  let newValue := negb (darkMode p) in
  {| view := view p; selectedModel := selectedModel p; darkMode := newValue;
     localStorage := setStoredDarkMode newValue (localStorage p);
     accumulated := accumulated p; requests := requests p |}.

(** [localStorage] is shared by the tabs of the origin.  What another tab
    showing this page writes to it: the count after a reply of its own
    ([incrementFreeRequestCount]), a model or the dark mode.  The view does
    not listen to storage events: its cells keep what they hold. *)
Inductive TabWrite : Type :=
| TabReply
| TabModel (model : string)
| TabDarkMode (dark : bool).

Definition otherTab (write : TabWrite) (p : Page) : Page :=
  {| view := view p; selectedModel := selectedModel p; darkMode := darkMode p;
     localStorage :=
       match write with
       | TabReply => snd (incrementFreeRequestCount (localStorage p))
       | TabModel model => setStoredModel model (localStorage p)
       | TabDarkMode dark => setStoredDarkMode dark (localStorage p)
       end;
     accumulated := accumulated p; requests := requests p |}.

(** What can happen to a mounted guest view. *)
Inductive Action : Type :=
| SetInput (text : string)
| Submit (now : Z)
| Chunk (text : string)
| Done (now : Z)
| Failed
| DismissPrompt
| ModelChange (model : string)
| ToggleDarkMode
| OtherTab (write : TabWrite).

Definition step (p : Page) (a : Action) : Page :=
  match a with
  | SetInput text => setInput text p
  | Submit now => handleSend now p
  | Chunk text => onChunk text p
  | Done now => onDone now p
  | Failed => onError p
  | DismissPrompt => dismissPrompt p
  | ModelChange model => handleModelChange model p
  | ToggleDarkMode => toggleDarkMode p
  | OtherTab write => otherTab write p
  end.

Definition run (p : Page) (actions : list Action) : Page :=
  fold_left step actions p.

End ChatPage.

(** ** Row filters as the replication service reads them *)

(** The two shapes of [where] clause the proxy sends, with their SQL
    reading on a row of [chat_messages]. *)
Inductive RowFilter : Type :=
| ThreadIdIn (ids : list Z)
| ThreadIdEq (v : Z).

Definition render (f : RowFilter) : string :=
  match f with
  | ThreadIdIn ids => Js.quoted "thread_id" ++ " IN (" ++ Js.join "," ids ++ ")"
  | ThreadIdEq v => Js.quoted "thread_id" ++ " = " ++ Js.toString (Js.Num v)
  end.

Definition matches (f : RowFilter) (row : Message.t) : bool :=
  match f with
  | ThreadIdIn ids => existsb (fun i => (Message.thread_id row =? i)%Z) ids
  | ThreadIdEq v => (Message.thread_id row =? v)%Z
  end.

(** The filter [serve] builds from the caller's thread ids. *)
Definition ownershipFilter (threadIds : list Z) : RowFilter :=
  if (0 <? length threadIds)%nat then ThreadIdIn threadIds else ThreadIdEq (-1).

(** [listOwnedThreadIds]: the ids [serve] reads with [findMany] and
    [map]. *)
Definition ownedThreadIds (uid : string) (d : Db) : list Z :=
  map Thread.id (List.filter (fun t => String.eqb (Thread.user_id t) uid) (chat_threads d)).

(** ** More of [lib/auth.ts]: the one-time code *)

Module Otp.

(** The argument of [resend.emails.send]. *)
Record Mail : Type := mkMail {
  from : string;
  to : string;
  subject : string;
  html : string
}.

(** How [sendVerificationOTP] ends: the code was printed with
    [console.log] (the four lines), the mail was sent, or the mail
    service reported an error and the function threw. *)
Inductive Delivery : Type :=
| Logged (lines : list string)
| Sent (mail : Mail)
| Threw (mail : Mail) (error : string).

(** ["=".repeat(n)]. *)
Fixpoint repeatEq (n : nat) : string :=
  match n with
  | O => ""
  | S n' => "=" ++ repeatEq n'
  end.

Definition lf : string := String "010"%char "".

(** The lock emoji of the log line, in UTF-8. *)
Definition lock : string :=
  String "240"%char (String "159"%char (String "148"%char (String "144"%char ""))).

(** The [html] template of the verification mail. *)
Definition otpHtml (otp : string) : string :=
  let q := String Js.dquote "" in
  "
                <div style="
    ++ q ++ "font-family: sans-serif; max-width: 400px; margin: 0 auto; padding: 20px;"
    ++ q ++ ">
                  <h2 style="
    ++ q ++ "color: #1e293b; margin-bottom: 16px;"
    ++ q ++ ">Verification Code</h2>
                  <p style="
    ++ q ++ "color: #64748b; margin-bottom: 24px;"
    ++ q ++ ">Enter this code to sign in:</p>
                  <div style="
    ++ q ++ "background: #f1f5f9; border-radius: 8px; padding: 16px; text-align: center;"
    ++ q ++ ">
                    <span style="
    ++ q ++ "font-size: 32px; font-weight: bold; letter-spacing: 4px; color: #0f172a;"
    ++ q ++ ">"
    ++ otp ++
  "</span>
                  </div>
                  <p style="
    ++ q ++ "color: #94a3b8; font-size: 14px; margin-top: 24px;"
    ++ q ++ ">This code expires in 5 minutes.</p>
                </div>
              ".

(** [sendVerificationOTP({ email, otp })] of the handle [getAuth] builds;
    [sendFails] says whether [resend.emails.send] answers with an error. *)
Definition sendVerificationOTP (handle : Env.AuthHandle) (sendFails : Mail -> bool)
    (email otp : string) : Delivery :=
  match Env.isDev handle, Env.resend handle with
  | false, Some _ =>
      let mail := {| from := Env.fromEmail handle;
                     to := email;
                     subject := "Your verification code";
                     html := otpHtml otp |} in
      if sendFails mail then Threw mail "Failed to send verification email" else Sent mail
  | _, _ =>
      Logged [lf ++ repeatEq 50;
              lock ++ " OTP CODE for " ++ email;
              "   Code: " ++ otp;
              repeatEq 50 ++ lf]
  end.

End Otp.

(** ** More of [components/chat/ChatPage.tsx]: the authenticated view *)

Module AuthChat.

(** Insertion before the first element that does not compare below. *)
Fixpoint insertBy {A : Type} (compare : A -> A -> Z) (x : A) (l : list A) : list A :=
  match l with
  | [] => [x]
  | y :: l' =>
      if (compare x y <=? 0)%Z then x :: l else y :: insertBy compare x l'
  end.

(** [[...l].sort(compare)]: [Array.prototype.sort] is stable, and on a
    comparator that orders consistently every stable sort returns this
    list. *)
Definition sort {A : Type} (compare : A -> A -> Z) (l : list A) : list A :=
  fold_right (insertBy compare) [] l.

(** [sortedThreads]: [(a, b) => b.id - a.id]. *)
Definition sortedThreads (threads : list Thread.t) : list Thread.t :=
  sort (fun a b => (Thread.id b - Thread.id a)%Z) threads.

(** The effect that picks a thread when none is active. *)
Definition autoSelect (activeThreadId : option Z) (threads : list Thread.t) : option Z :=
  match activeThreadId, sortedThreads threads with
  | None, first :: _ => Some (Thread.id first)
  | _, _ => activeThreadId
  end.

(** The [useState] cells of [AuthenticatedChat] that [handleSend] uses. *)
Record View : Type := mkView {
  activeThreadId : option Z;
  input : string;
  isLoading : bool;
  streamingContent : string
}.

(** [{ role, content }] as it is put on the wire. *)
Definition Wire : Type := (string * string)%type.

(** The requests [handleSend] can issue. *)
Inductive Call : Type :=
| CreateThread (title : string)
| AddMessage (threadId : Z) (role content : string)
| Complete (threadId : Z) (messages : list Wire) (model : string).

(** What the server answers to one [handleSend]: the id of the thread
    created ([None]: the call failed), whether the message was added, and
    for the completion the chunks read and whether the stream then ended
    ([None]: the response was not ok or had no body; [false]: a read
    rejected after the chunks). *)
Record Replies : Type := mkReplies {
  created : option Z;
  added : bool;
  completion : option (list string * bool)
}.

(** The successive values given to [setStreamingContent] while reading. *)
Fixpoint frames (accumulated : string) (chunks : list string) : list string :=
  match chunks with
  | [] => []
  | chunk :: rest => (accumulated ++ chunk) :: frames (accumulated ++ chunk) rest
  end.

(** [!threadId] on [number | null]. *)
Definition noThread (threadId : option Z) : bool :=
  match threadId with
  | Some z => (z =? 0)%Z
  | None => true
  end.

(** [userMessage.slice(0, 40) || "New chat"] (code units; bytes here, the
    same on ASCII text). *)
Definition threadTitle (userMessage : string) : string :=
  Js.or_else (Some (String.substring 0 40 userMessage)) "New chat".

(** The view when [handleSend] has run its [catch] or reached the end of
    its [try], and then [finally]. *)
Definition settled (active : option Z) : View :=
  {| activeThreadId := active; input := ""; isLoading := false; streamingContent := "" |}.

(** The rest of [handleSend] once the thread id is known. *)
Definition sendIn (dbMessages : list Message.t) (selectedModel : string) (replies : Replies)
    (threadId : Z) (userMessage : string) : list Call * list string :=
  let save := AddMessage threadId "user" userMessage in
  if added replies
  then
    let messages :=
      (map (fun m => (Message.role m, Message.content m)) dbMessages
         ++ [("user", userMessage)])%list in
    let ask := Complete threadId messages selectedModel in
    match completion replies with
    | Some (chunks, _) => ([save; ask], frames "" chunks)
    | None => ([save; ask], [])
    end
  else ([save], []).

(** [handleSend] run to its end against the server's answers: the calls
    issued in order, the partial texts shown in order, and the view left
    behind. *)
Definition handleSend (dbMessages : list Message.t) (selectedModel : string)
    (replies : Replies) (v : View) : list Call * list string * View :=
  if negb (Js.truthy (Js.trim (input v))) || isLoading v then ([], [], v)
  else
    let userMessage := Js.trim (input v) in
    if noThread (activeThreadId v)
    then
      match created replies with
      | None => ([CreateThread (threadTitle userMessage)], [], settled (activeThreadId v))
      | Some id =>
          let '(calls, shown) := sendIn dbMessages selectedModel replies id userMessage in
          (CreateThread (threadTitle userMessage) :: calls, shown, settled (Some id))
      end
    else
      let '(calls, shown) :=
        sendIn dbMessages selectedModel replies (default 0%Z (activeThreadId v)) userMessage in
      (calls, shown, settled (activeThreadId v)).

End AuthChat.

(** ** Vocabulary of the statements *)

(** The events a computation added, from world [w] to world [w']. *)
Definition added (w w' : World) (evs : list Event) : Prop :=
  trace w' = (trace w ++ evs)%list.

(** The world with a run of events added to its trace. *)
Definition log (evs : list Event) (w : World) : World :=
  {| db := db w; cachedAuth := cachedAuth w;
     cachedDbUrl := cachedDbUrl w; trace := (trace w ++ evs)%list |}.

(** The URL an authenticated call to the sync proxy forwards. *)
Definition forwardedUrl {platform : Platform} (request : Request) (uid : string) (d : Db) : Url.URL :=
  Url.setParam "where" (ChatMessages.whereClause (ownedThreadIds uid d))
    (Url.setParam "table" "chat_messages" (prepareElectricUrl (url request))).

(** An authorized completion request: the session validator names [uid],
    the fields pass the check with thread id [z], and the thread named is
    owned by [uid]. *)
Definition authorized {platform : Platform} (rt : Env.Runtime)
    (request : Request) (w w1 : World) (uid : string) (z : Z) : Prop :=
  (exists session,
      api_getSession rt request w = (Returned session, w1) /\
      session_user_id session = Some uid) /\
  Number (threadId (requestBody request)) = Js.Num z /\
  z <> 0%Z /\
  default [] (messages (requestBody request)) <> [] /\
  exists t,
    List.find (fun fields => eq_int (Thread.id fields) (Js.Num z)) (chat_threads (db w)) = Some t /\
    Thread.user_id t = uid.

(** A thread id that is a value of the integer column. *)
Definition int4 (z : Z) : Prop := (- 2 ^ 31 <= z < 2 ^ 31)%Z.

(** What the column type guarantees of every table content: the thread
    ids stored are values of [integer]. *)
Definition ids_typed (d : Db) : Prop :=
  Forall (fun t => int4 (Thread.id t)) (chat_threads d).

(** A variable that neither the Cloudflare binding nor [process.env]
    defines. *)
Definition absent (field : Env.Vars -> option string) (rt : Env.Runtime) : Prop :=
  Env.cloudflare rt ≫= field = None /\ field (Env.process_env rt) = None.

(** The counter in [localStorage] has reached the limit. *)
Definition limitReached (p : ChatPage.Page) : Prop :=
  Js.ge (ChatPage.getFreeRequestCount (ChatPage.localStorage p)) ChatPage.FREE_REQUEST_LIMIT = true.

(** The count the view holds in its [freeRequestsUsed] cell has reached
    the limit: this is what [handleSend] tests. *)
Definition countReached (p : ChatPage.Page) : Prop :=
  Js.ge (ChatPage.freeRequestsUsed (ChatPage.view p)) ChatPage.FREE_REQUEST_LIMIT = true.

(** An integer that a double holds exactly and [toString] prints in full
    ([NaN] prints and reads back as itself). *)
Definition representable (n : Js.number) : Prop :=
  match n with
  | Js.NaN => True
  | Js.Num z => (Z.abs z <= 2 ^ 53)%Z
  end.

(** A count that can be incremented exactly. *)
Definition exactCount (n : Js.number) : Prop :=
  representable n /\ representable (Js.add n (Js.Num 1)).

(** The replies other tabs count in the shared storage during a visit. *)
Definition tabReplies (actions : list ChatPage.Action) : nat :=
  length (List.filter
            (fun a => match a with ChatPage.OtherTab ChatPage.TabReply => true | _ => false end)
            actions).

(** No other tab writes to the storage during the visit. *)
Definition singleTab (actions : list ChatPage.Action) : Prop :=
  forall write, ~ In (ChatPage.OtherTab write) actions.

(** What holds of every page a mounted guest view can reach: the view is
    loading exactly while a [handleSend] reads a stream, and a stream is
    only read by a submit that found the view's count below the limit. *)
Record consistent (p : ChatPage.Page) : Prop := mkConsistent {
  loading :
    ChatPage.isLoading (ChatPage.view p)
    = match ChatPage.accumulated p with Some _ => true | None => false end;
  reading :
    ChatPage.accumulated p <> None ->
    Js.ge (ChatPage.freeRequestsUsed (ChatPage.view p)) ChatPage.FREE_REQUEST_LIMIT = false
}.

(** An insert into [chat_messages]. *)
Definition is_insert (e : Event) : bool :=
  match e with
  | EvInsert _ => true
  | _ => false
  end.


(** A variable as [getEnv] resolves it, written out: the binding's value
    when the binding defines the variable, else [process.env]'s. *)
Definition lookupVar (field : Env.Vars -> option string) (rt : Env.Runtime) : option string :=
  match Env.cloudflare rt with
  | Some binding =>
      match field binding with
      | Some value => Some value
      | None => field (Env.process_env rt)
      end
  | None => field (Env.process_env rt)
  end.


(** The caller of a request owns a thread with this id. *)
Definition ownsThread {platform : Platform} (request : Request) (d : Db) (id : Z) : Prop :=
  exists uid t,
    session_user_id (getSession (headers request)) = Some uid /\
    In t (chat_threads d) /\ Thread.id t = id /\ Thread.user_id t = uid.

(** The replies committed to the guest's message list. *)
Definition replyCount (p : ChatPage.Page) : nat :=
  length (List.filter
            (fun m => match ChatPage.role m with assistant => true | user => false end)
            (ChatPage.guestMessages (ChatPage.view p))).

(** Every model chosen in the selector is one it offers. *)
Definition offeredModelsOnly (actions : list ChatPage.Action) : Prop :=
  forall model, In (ChatPage.ModelChange model) actions -> In model ChatPage.AVAILABLE_MODELS.

(** The chunks of a stream arriving one after the other. *)
Definition onChunks (chunks : list string) (p : ChatPage.Page) : ChatPage.Page :=
  fold_left (fun q chunk => ChatPage.onChunk chunk q) chunks p.

(** A page on which a submit is taken up: the input is not blank and no
    request is being read. *)
Definition ready (p : ChatPage.Page) : Prop :=
  Js.truthy (Js.trim (ChatPage.input (ChatPage.view p))) = true /\
  ChatPage.isLoading (ChatPage.view p) = false /\
  ChatPage.accumulated p = None.

(** What a reload would read back agrees with the page, and the stored
    count can be incremented exactly. *)
Record restorable (prefersDark : bool) (p : ChatPage.Page) : Prop := mkRestorable {
  model_stored :
    ChatPage.selectedModel p = ChatPage.getStoredModel (ChatPage.localStorage p);
  dark_stored :
    ChatPage.darkMode p = ChatPage.getStoredDarkMode prefersDark (ChatPage.localStorage p);
  count_stored :
    ChatPage.freeRequestsUsed (ChatPage.view p)
    = ChatPage.getFreeRequestCount (ChatPage.localStorage p);
  count_exact :
    exactCount (ChatPage.getFreeRequestCount (ChatPage.localStorage p))
}.

(** On a storage whose counter read [c0] at mount: the stored counter has
    grown by the replies this view committed and by the [k] replies other
    tabs counted; the view has committed no reply and still holds [c0], or
    it has committed one, on a fresh counter, and holds a count at the
    limit. *)
Record counted (c0 : Z) (k : nat) (p : ChatPage.Page) : Prop := mkCounted {
  count_replies :
    ChatPage.getFreeRequestCount (ChatPage.localStorage p)
    = Js.Num (c0 + Z.of_nat (replyCount p) + Z.of_nat k);
  replies_bound :
    (replyCount p = 0%nat /\
     ChatPage.freeRequestsUsed (ChatPage.view p) = Js.Num c0) \/
    (replyCount p = 1%nat /\ c0 = 0%Z /\ countReached p)
}.

(** The counter does not read as a number, and the prompt is hidden. *)
Record unlimited (p : ChatPage.Page) : Prop := mkUnlimited {
  stored_nan : ChatPage.getFreeRequestCount (ChatPage.localStorage p) = Js.NaN;
  shown_nan : ChatPage.freeRequestsUsed (ChatPage.view p) = Js.NaN;
  no_prompt : ChatPage.showAuthPrompt (ChatPage.view p) = false
}.

(** ** A concrete deployment for the worked examples *)

Module Fixture.

(** Modelled from the spec: [prepareElectricUrl] of
    [lib/electric-proxy.ts] is not among the sources; the request is
    re-targeted at the external replication endpoint and the parameters
    the client supplied are kept. *)
Definition retarget (requestUrl : Url.URL) : Url.URL :=
  {| Url.origin := "https://electric.example";
     Url.pathname := "/v1/shape";
     Url.searchParams := Url.searchParams requestUrl |}.

Definition cookie (h : Headers) : option string :=
  snd <$> List.find (fun p => String.eqb (fst p) "cookie") h.

(** Two users hold a session; every other request is anonymous. *)
Definition sessions (h : Headers) : option Session :=
  match cookie h with
  | Some "session=alice" => Some (mkSession (Some "alice"))
  | Some "session=carol" => Some (mkSession (Some "carol"))
  | _ => None
  end.

(** The collaborators, given the run the LLM gateway answers with. *)
Definition platform (up : Upstream) : Platform :=
  Build_Platform sessions Js.decimalToNumber retarget
    (fun _ => (200%Z, [], ["{}"])) (fun _ _ _ => up).

Definition secrets : Env.Vars :=
  Env.mkVars (Some "postgres://db") (Some "s3cret") None None None None None None.

(** Secrets set, no LLM key: demo mode. *)
Definition rt_demo : Env.Runtime := Env.mkRuntime None secrets.

(** Secrets and an LLM key in the Cloudflare binding: real mode. *)
Definition rt_real : Env.Runtime :=
  Env.mkRuntime
    (Some (Env.mkVars (Some "postgres://db") (Some "s3cret") None None None
             (Some "sk-or-1") None None))
    Env.empty.

(** No secret anywhere. *)
Definition rt_unconfigured : Env.Runtime := Env.mkRuntime None Env.empty.

(** Thread 5 is bob's, thread 7 is alice's; carol has none. *)
Definition db0 : Db :=
  {| chat_threads := [Thread.mk 5 "plans" "bob" 100; Thread.mk 7 "notes" "alice" 110];
     chat_messages := [Message.mk 1 5 "user" "hi" 101; Message.mk 2 7 "user" "hello" 111];
     chat_messages_seq := 2;
     clock := 200 |}.

Definition w0 : World :=
  {| db := db0; cachedAuth := None; cachedDbUrl := ""; trace := [] |}.

Definition shapeUrl (ps : Url.Params) : Url.URL :=
  Url.mkURL "https://app.example" "/api/chat-messages" ps.

Definition request (who : string) (ps : Url.Params) (b : option Body) : Request :=
  {| headers := [("cookie", "session=" ++ who)]; url := shapeUrl ps; json := b |}.

(** The same request as it arrives, with what its body parses to. *)
Definition incoming (who : string) (ps : Url.Params) (p : Parsed) : Incoming :=
  {| incoming_headers := [("cookie", "session=" ++ who)];
     incoming_url := shapeUrl ps;
     parsed := p |}.

Definition hello : list Msg.t := [Msg.mk user "hello"].

(** A deployment whose LLM gateway answers with nothing. *)
Definition quiet : Platform := platform (mkUpstream [] Completes).

(** A request without a session. *)
Definition anonymous : Request := request "mallory" [] None.

(** The gateway yields two fragments and completes. *)
Definition streaming : Platform := platform (mkUpstream ["Hi"; " there"] Completes).

(** The gateway yields one fragment and throws. *)
Definition failing : Platform := platform (mkUpstream ["Hi"] (Throws "reset")).

(** Alice submits [hello] to her thread 7. *)
Definition alice_asks : Request :=
  request "alice" [] (Some (mkBody (Some (inr "7")) (Some hello) None)).

End Fixture.

(** * Properties *)

(** ** The built-ins on small inputs *)

Example parseInt_prefix : Js.parseInt "  12abc" = Js.Num 12.
Proof. reflexivity. Qed.

Example parseInt_signed : Js.parseInt "-7" = Js.Num (-7) /\ Js.parseInt "+7" = Js.Num 7.
Proof. split; reflexivity. Qed.

Example parseInt_no_digit : Js.parseInt "abc" = Js.NaN /\ Js.parseInt "" = Js.NaN.
Proof. split; reflexivity. Qed.

Example trim_both_ends : Js.trim "  a b  " = "a b" /\ Js.trim "   " = "".
Proof. split; reflexivity. Qed.

Example join_numbers : Js.join "," [3; 7; 12]%Z = "3,7,12" /\ Js.join "," [] = "".
Proof. split; reflexivity. Qed.

Example decimalToNumber_forms :
  Js.decimalToNumber " -42 " = Js.Num (-42) /\
  Js.decimalToNumber "" = Js.Num 0 /\
  Js.decimalToNumber "abc" = Js.NaN.
Proof. repeat split; reflexivity. Qed.

Example JSON_stringify_escapes :
  Js.JSON_stringify ("a" ++ String Js.dquote "b" ++ String "010"%char "")
  = String Js.dquote
      ("a" ++ String Js.backslash (String Js.dquote "b")
           ++ String Js.backslash "n" ++ String Js.dquote "").
Proof. reflexivity. Qed.

Example set_replaces_and_dedups :
  Url.set "where" "w" [("a", "1"); ("where", "x"); ("b", "2"); ("where", "y")]
  = [("a", "1"); ("where", "w"); ("b", "2")] /\
  Url.set "where" "w" [("a", "1")] = [("a", "1"); ("where", "w")].
Proof. split; reflexivity. Qed.

Example whereClause_forms :
  ChatMessages.whereClause [3; 7]%Z = Js.quoted "thread_id" ++ " IN (3,7)" /\
  ChatMessages.whereClause [] = Js.quoted "thread_id" ++ " = -1".
Proof. split; reflexivity. Qed.

Example counter_after_first_message :
  ChatPage.incrementFreeRequestCount ∅
  = (Js.Num 1, {[ChatPage.FREE_REQUEST_KEY := "1"]}).
Proof. reflexivity. Qed.

(** ** The monad *)

Lemma bind_returned {A B : Type} (m : M A) (k : A -> M B) (w w' : World) (a : A) :
  m w = (Returned a, w') -> bind m k w = k a w'.
Proof. intros Hm. unfold bind. now rewrite Hm. Qed.

Lemma bind_thrown {A B : Type} (m : M A) (k : A -> M B) (w w' : World) (e : string) :
  m w = (Thrown e, w') -> bind m k w = (Thrown e, w').
Proof. intros Hm. unfold bind. now rewrite Hm. Qed.


(** ** Session validation *)

Section SessionFacts.

Context {platform : Platform}.
Variable rt : Env.Runtime.

(** [getAuth] throws exactly what [getEnv] throws, and leaves the world
    as it found it. *)
Lemma getAuth_throws (e : string) (w : World) :
  Env.getEnv rt = inl e -> getAuth rt w = (Thrown e, w).
Proof. intros He. unfold getAuth. now rewrite He. Qed.

(** With a configuration, [getAuth] returns a handle and touches only the
    cache. *)
Lemma getAuth_returns (env : Env.AuthEnv) (w : World) :
  Env.getEnv rt = inr env ->
  exists handle w',
    getAuth rt w = (Returned handle, w') /\ db w' = db w /\ trace w' = trace w.
Proof.
  intros He. unfold getAuth. rewrite He.
  destruct (cachedAuth w) as [h|]; [destruct (String.eqb _ _)|]; eauto.
Qed.

(** A look-up that answers did so from a resolved configuration; its only
    effect on the trace is the look-up itself. *)
Lemma api_getSession_inv (request : Request) (w w1 : World) (session : option Session) :
  api_getSession rt request w = (Returned session, w1) ->
  session = getSession (headers request) /\
  db w1 = db w /\
  added w w1 [EvGetSession (headers request)] /\
  exists env, Env.getEnv rt = inr env.
Proof.
  unfold api_getSession. intros Hs.
  destruct (Env.getEnv rt) as [e|env] eqn:He.
  - rewrite (bind_thrown _ _ _ _ _ (getAuth_throws e w He)) in Hs. discriminate.
  - destruct (getAuth_returns env w He) as (h & w' & Hg & Hdb & Htr).
    rewrite (bind_returned _ _ _ _ _ Hg) in Hs. cbn in Hs.
    injection Hs as <- <-. cbn. unfold added. cbn. rewrite Hdb, Htr. eauto.
Qed.

Lemma api_getSession_throws (request : Request) (w : World) (e : string) :
  Env.getEnv rt = inl e -> api_getSession rt request w = (Thrown e, w).
Proof.
  intros He. unfold api_getSession.
  now rewrite (bind_thrown _ _ _ _ _ (getAuth_throws e w He)).
Qed.

Lemma api_getSession_total (request : Request) (w : World) (env : Env.AuthEnv) :
  Env.getEnv rt = inr env ->
  exists w1, api_getSession rt request w = (Returned (getSession (headers request)), w1).
Proof.
  intros He. destruct (getAuth_returns env w He) as (h & w' & Hg & _).
  unfold api_getSession. rewrite (bind_returned _ _ _ _ _ Hg). cbn. eauto.
Qed.

End SessionFacts.

(** ** Unauthenticated requests *)

(** C3.  A request for which the session validator answers with no user
    gets status 401 from the sync proxy and from POST /api/chat/ai; the
    tables are unchanged and the session look-up is the only effect: no
    statement reaches the database and neither the replication endpoint nor
    the LLM gateway is contacted. *)
Theorem unauthenticated_401 {platform : Platform} (rt : Env.Runtime)
    (request : Request) (w w1 : World) (session : option Session) :
  api_getSession rt request w = (Returned session, w1) ->
  session_user_id session = None ->
  exists r : Response,
    status r = 401%Z /\
    ChatMessages.serve rt request w = (Returned r, w1) /\
    ChatAi.POST rt request w = (Returned r, w1) /\
    db w1 = db w /\
    added w w1 [EvGetSession (headers request)] /\
    (forall evs, added w w1 evs ->
       List.filter (fun e => is_write e || is_network e) evs = []).
Proof.
  intros Hs Hnone.
  destruct (api_getSession_inv rt request w w1 session Hs) as (_ & Hdb & Hadd & _).
  exists (errorResponse 401 "Unauthorized"). repeat split; trivial.
  - unfold ChatMessages.serve. rewrite (bind_returned _ _ _ _ _ Hs). now rewrite Hnone.
  - unfold ChatAi.POST. rewrite (bind_returned _ _ _ _ _ Hs). now rewrite Hnone.
  - intros evs Hevs. unfold added in *. rewrite Hadd in Hevs.
    apply app_inv_head in Hevs. now subst evs.
Qed.

(** C3 at an anonymous request in the example deployment. *)
Lemma unauthenticated_401_witness :
  session_user_id (Fixture.sessions (headers Fixture.anonymous)) = None /\
  exists r : Response,
    status r = 401%Z /\
    fst (ChatMessages.serve (platform := Fixture.quiet) Fixture.rt_demo Fixture.anonymous Fixture.w0)
      = Returned r /\
    fst (ChatAi.POST (platform := Fixture.quiet) Fixture.rt_demo Fixture.anonymous Fixture.w0)
      = Returned r.
Proof.
  split; [reflexivity|].
  destruct (unauthenticated_401 (platform := Fixture.quiet) Fixture.rt_demo
              Fixture.anonymous Fixture.w0 _ None eq_refl eq_refl)
    as (r & Hst & Hserve & Hpost & _).
  exists r. rewrite Hserve, Hpost. repeat split. exact Hst.
Defined.

(** ** Database access *)

Lemma findFirst_run (where_ : Thread.t -> bool) (w : World) :
  findFirst where_ w
  = (Returned (List.find where_ (chat_threads (db w))), record (EvQuery "chat_threads") w).
Proof. reflexivity. Qed.

(** ** Validation and ownership on POST /api/chat/ai *)

Section ChatAiFacts.

Context {platform : Platform}.
Variable rt : Env.Runtime.

(** The forms of [threadId] the field check refuses: absent, [0], and a
    string that [StringToNumber] reads as [NaN] or as [0]. *)
Lemma Number_falsy (v : option (Js.number + string)) :
  Js.ToBoolean (Number v) = false <->
  v = None \/ v = Some (inl Js.NaN) \/ v = Some (inl (Js.Num 0)) \/
  exists s, v = Some (inr s) /\ (StringToNumber s = Js.NaN \/ StringToNumber s = Js.Num 0).
Proof.
  split.
  - destruct v as [[n|s]|]; cbn; [| |tauto].
    + destruct n as [|z]; cbn; [tauto|].
      intros Hz. apply negb_false_iff, Z.eqb_eq in Hz. subst. tauto.
    + intros Hs. right. right. right. exists s. split; [reflexivity|].
      destruct (StringToNumber s) as [|z]; cbn in Hs; [tauto|].
      apply negb_false_iff, Z.eqb_eq in Hs. subst. tauto.
  - intros [->|[->|[->|(s & -> & [Hs|Hs])]]]; cbn; try rewrite Hs; reflexivity.
Qed.

(** What an authenticated call reduces to: the body of the route after
    the session check. *)
Lemma POST_400 (request : Request) (w w1 : World) (session : option Session)
    (uid : string) :
  api_getSession rt request w = (Returned session, w1) ->
  session_user_id session = Some uid ->
  negb (Js.ToBoolean (Number (threadId (requestBody request))))
    || (length (default [] (messages (requestBody request))) =? 0)%nat = true ->
  ChatAi.POST rt request w
  = (Returned (errorResponse 400 "Missing threadId or messages"), w1).
Proof.
  intros Hs Hu Hbad. unfold ChatAi.POST.
  rewrite (bind_returned _ _ _ _ _ Hs), Hu. cbv zeta. now rewrite Hbad.
Qed.

End ChatAiFacts.

(** C10, as amended.  For every request to POST /api/chat/ai made with a
    valid session, when [Number(body.threadId)] is falsy (the field is
    absent, is [0], or is a string read as [NaN] or [0]) the response is
    400 and nothing but the session look-up has happened. *)
Theorem falsy_threadId_400 {platform : Platform} (rt : Env.Runtime)
    (request : Request) (w w1 : World) (session : option Session) (uid : string) :
  api_getSession rt request w = (Returned session, w1) ->
  session_user_id session = Some uid ->
  Js.ToBoolean (Number (threadId (requestBody request))) = false ->
  exists r : Response,
    ChatAi.POST rt request w = (Returned r, w1) /\
    status r = 400%Z /\
    db w1 = db w /\
    added w w1 [EvGetSession (headers request)].
Proof.
  intros Hs Hu Hfalsy.
  destruct (api_getSession_inv rt request w w1 session Hs) as (_ & Hdb & Hadd & _).
  exists (errorResponse 400 "Missing threadId or messages"). repeat split; trivial.
  apply (POST_400 rt request w w1 session uid Hs Hu). now rewrite Hfalsy.
Qed.

(** C10 on alice's request with [threadId: "abc"]. *)
Lemma falsy_threadId_400_witness :
  Js.ToBoolean
    (Number (platform := Fixture.quiet)
       (threadId (requestBody
          (Fixture.request "alice" [] (Some (mkBody (Some (inr "abc")) (Some Fixture.hello) None))))))
    = false /\
  exists r : Response,
    fst (ChatAi.POST (platform := Fixture.quiet) Fixture.rt_demo
           (Fixture.request "alice" [] (Some (mkBody (Some (inr "abc")) (Some Fixture.hello) None)))
           Fixture.w0) = Returned r /\
    status r = 400%Z.
Proof.
  split; [reflexivity|].
  destruct (falsy_threadId_400 (platform := Fixture.quiet) Fixture.rt_demo
              (Fixture.request "alice" [] (Some (mkBody (Some (inr "abc")) (Some Fixture.hello) None)))
              Fixture.w0 _ _ "alice" eq_refl eq_refl eq_refl)
    as (r & Hpost & Hst & _).
  exists r. rewrite Hpost. split; [reflexivity | exact Hst].
Defined.

(** C10 as stated fails without a session: the same falsy [threadId] on an
    anonymous request is answered 401, not 400. *)
Lemma falsy_threadId_anonymous_401 :
  Js.ToBoolean
    (Number (platform := Fixture.quiet) (threadId (requestBody Fixture.anonymous))) = false /\
  exists (r : Response) (w' : World),
    ChatAi.POST (platform := Fixture.quiet) Fixture.rt_demo Fixture.anonymous Fixture.w0
      = (Returned r, w') /\
    status r = 401%Z /\ status r <> 400%Z.
Proof.
  split; [reflexivity|]. eexists _, _. split; [reflexivity|]. split; [reflexivity|discriminate].
Qed.

(** On a body of the declared type, a request that passes the field
    check and names a thread the caller does not own is answered 403. *)
Lemma POST_foreign_403 {platform : Platform} (rt : Env.Runtime)
    (request : Request) (w w1 : World) (session : option Session) (uid : string) (z : Z) :
  api_getSession rt request w = (Returned session, w1) ->
  session_user_id session = Some uid ->
  Number (threadId (requestBody request)) = Js.Num z ->
  z <> 0%Z ->
  default [] (messages (requestBody request)) <> [] ->
  (forall t, In t (chat_threads (db w)) -> Thread.id t = z -> Thread.user_id t <> uid) ->
  exists (r : Response) (w2 : World),
    ChatAi.POST rt request w = (Returned r, w2) /\
    status r = 403%Z /\
    db w2 = db w /\
    added w1 w2 [EvQuery "chat_threads"].
Proof.
  intros Hs Hu Hnum Hz Hmsgs Hforeign.
  destruct (api_getSession_inv rt request w w1 session Hs) as (_ & Hdb & _ & _).
  exists (errorResponse 403 "Forbidden"), (record (EvQuery "chat_threads") w1).
  repeat split; trivial.
  unfold ChatAi.POST. rewrite (bind_returned _ _ _ _ _ Hs), Hu. cbv zeta.
  rewrite Hnum. cbn [Js.ToBoolean].
  replace (z =? 0)%Z with false by (symmetry; now apply Z.eqb_neq).
  destruct (default [] (messages (requestBody request))) as [|m ms] eqn:Hm; [easy|].
  cbn [negb orb length Nat.eqb].
  rewrite (bind_returned _ _ _ _ _ (findFirst_run _ w1)). cbn [db record]. rewrite Hdb.
  destruct (List.find _ (chat_threads (db w))) as [t|] eqn:Hfind; [|reflexivity].
  apply find_some in Hfind as [Hin Hid]. cbn in Hid. apply Z.eqb_eq in Hid.
  specialize (Hforeign t Hin Hid).
  replace (String.eqb (Thread.user_id t) uid) with false
    by (symmetry; now apply String.eqb_neq).
  reflexivity.
Qed.

(** ** Requests as they arrive *)

Lemma int4b_int4 (z : Z) : int4b z = true <-> int4 z.
Proof. unfold int4b, int4. rewrite andb_true_iff, Z.leb_le, Z.ltb_lt. tauto. Qed.


(** On a body that is not [null] and a thread id of the column's type,
    the handler is [POST] on the declared body. *)
Lemma receive_POST {platform : Platform} (rt : Env.Runtime) (i : Incoming) (w : World) :
  parsed i <> JsonNull ->
  (forall z, Number (threadId (requestBody (declared i))) = Js.Num z -> int4 z) ->
  ChatAi.receive rt i w = ChatAi.POST rt (declared i) w.
Proof.
  intros Hnull Hfits. unfold ChatAi.receive, ChatAi.POST. cbv zeta.
  remember (declared i) as request eqn:Hrequest. clear Hrequest.
  destruct (api_getSession rt request w) as [[session|e] w1] eqn:Hs;
    [|now rewrite !(bind_thrown _ _ _ _ _ Hs)].
  rewrite !(bind_returned _ _ _ _ _ Hs).
  destruct (session_user_id session) as [uid|]; [|reflexivity].
  assert (Hrest : forall rest : M Response,
            match parsed i with
            | JsonNull => throw (typeError "threadId")
            | _ => rest
            end = rest) by (intros rest; now destruct (parsed i)).
  rewrite Hrest. clear Hrest.
  destruct (Number (threadId (requestBody request))) as [|z] eqn:Hn; [reflexivity|].
  destruct (negb _ || _); [reflexivity|].
  unfold findThread. now rewrite (proj2 (int4b_int4 z) (Hfits z eq_refl)).
Qed.

Lemma declared_body (i : Incoming) (body : Body) :
  parsed i = Declared body -> requestBody (declared i) = body.
Proof. intros Hp. unfold requestBody, declared. cbn [json]. now rewrite Hp. Qed.

(** C2, as amended.  For a request by an authenticated user whose body
    has the declared type and passes the field check ([threadId] coerces to
    a non-zero number, [messages] is not empty), with a thread id that is a
    value of the id column's integer type: when no thread with that id is
    owned by the caller the response is 403; the tables are unchanged and
    the only further effect is the ownership query. *)
Theorem foreign_thread_403 {platform : Platform} (rt : Env.Runtime)
    (i : Incoming) (body : Body) (w w1 : World) (session : option Session)
    (uid : string) (z : Z) :
  parsed i = Declared body ->
  api_getSession rt (declared i) w = (Returned session, w1) ->
  session_user_id session = Some uid ->
  Number (threadId body) = Js.Num z ->
  z <> 0%Z ->
  int4 z ->
  default [] (messages body) <> [] ->
  (forall t, In t (chat_threads (db w)) -> Thread.id t = z -> Thread.user_id t <> uid) ->
  exists (r : Response) (w2 : World),
    ChatAi.receive rt i w = (Returned r, w2) /\
    status r = 403%Z /\
    db w2 = db w /\
    added w1 w2 [EvQuery "chat_threads"].
Proof.
  intros Hp Hs Hu Hnum Hz Hfits Hmsgs Hforeign.
  pose proof (declared_body i body Hp) as Hbody.
  rewrite receive_POST.
  - apply (POST_foreign_403 rt (declared i) w w1 session uid z); trivial;
      now rewrite Hbody.
  - rewrite Hp. discriminate.
  - intros z' Hz'. rewrite Hbody, Hnum in Hz'. now injection Hz' as <-.
Qed.

(** C2 where alice names bob's thread 5. *)
Lemma foreign_thread_403_witness :
  exists (r : Response) (w2 : World),
    ChatAi.receive (platform := Fixture.quiet) Fixture.rt_demo
      (Fixture.incoming "alice" []
         (Declared (mkBody (Some (inl (Js.Num 5))) (Some Fixture.hello) None)))
      Fixture.w0 = (Returned r, w2) /\
    status r = 403%Z /\
    db w2 = db Fixture.w0.
Proof.
  destruct (foreign_thread_403 (platform := Fixture.quiet) Fixture.rt_demo
              (Fixture.incoming "alice" []
                 (Declared (mkBody (Some (inl (Js.Num 5))) (Some Fixture.hello) None)))
              _ Fixture.w0 _ _ "alice" 5 eq_refl eq_refl eq_refl eq_refl)
    as (r & w2 & Hpost & Hst & Hdb & _).
  - discriminate.
  - unfold int4. lia.
  - discriminate.
  - intros t [<-|[<-|[]]]; cbn; intros; discriminate.
  - exists r, w2. auto.
Defined.

(** C2 as stated fails on a request that does not pass the field check:
    alice names bob's thread 5 with an empty [messages] list and is
    answered 400, not 403. *)
Lemma foreign_thread_empty_messages_400 :
  session_user_id (Fixture.sessions [("cookie", "session=alice")]) = Some "alice" /\
  (forall t, In t (chat_threads Fixture.db0) -> Thread.id t = 5%Z -> Thread.user_id t <> "alice") /\
  exists (r : Response) (w' : World),
    ChatAi.receive (platform := Fixture.quiet) Fixture.rt_demo
      (Fixture.incoming "alice" [] (Declared (mkBody (Some (inl (Js.Num 5))) (Some []) None)))
      Fixture.w0 = (Returned r, w') /\
    status r = 400%Z /\ status r <> 403%Z.
Proof.
  split; [reflexivity|]. split.
  - intros t [<-|[<-|[]]]; cbn; intros; discriminate.
  - eexists _, _. split; [reflexivity|]. split; [reflexivity|discriminate].
Qed.

(** The id column refuses what it cannot hold: alice names thread
    4294967303 and the ownership query fails; the handler throws. *)
Example foreign_thread_out_of_range :
  ChatAi.receive (platform := Fixture.quiet) Fixture.rt_demo
    (Fixture.incoming "alice" []
       (Declared (mkBody (Some (inl (Js.Num 4294967303))) (Some Fixture.hello) None)))
    Fixture.w0
  = (Thrown "value out of range for type integer",
     record (EvQuery "chat_threads")
       (snd (api_getSession (platform := Fixture.quiet) Fixture.rt_demo
               (Fixture.request "alice" [] None) Fixture.w0))).
Proof. reflexivity. Qed.

(** ** [URLSearchParams.set] *)

Section UrlFacts.

Import Url.

Lemma getAll_remove (name : string) (ps : Params) : getAll name (remove name ps) = [].
Proof.
  unfold getAll, remove. induction ps as [|[k v] ps IH]; [reflexivity|].
  cbn. destruct (String.eqb k name) eqn:Hk; cbn; [exact IH|]. now rewrite Hk.
Qed.

Lemma getAll_remove_ne (name other : string) (ps : Params) :
  other <> name -> getAll other (remove name ps) = getAll other ps.
Proof.
  intros Hne. unfold getAll, remove. induction ps as [|[k v] ps IH]; [reflexivity|].
  cbn. destruct (String.eqb k name) eqn:Hk; cbn.
  - apply String.eqb_eq in Hk. subst k.
    replace (String.eqb name other) with false; [exact IH|].
    symmetry. apply String.eqb_neq. congruence.
  - destruct (String.eqb k other); cbn; now rewrite IH.
Qed.

Lemma remove_idem (name : string) (ps : Params) :
  remove name (remove name ps) = remove name ps.
Proof.
  unfold remove. induction ps as [|[k v] ps IH]; [reflexivity|].
  cbn. destruct (String.eqb k name) eqn:Hk; cbn; [exact IH|]. now rewrite Hk, IH.
Qed.

Lemma remove_comm (a b : string) (ps : Params) :
  remove a (remove b ps) = remove b (remove a ps).
Proof.
  unfold remove. induction ps as [|[k v] ps IH]; [reflexivity|].
  cbn. destruct (String.eqb k b) eqn:Hb, (String.eqb k a) eqn:Ha; cbn;
    rewrite ?Ha, ?Hb; cbn; now rewrite IH.
Qed.

Lemma has_false_getAll (name : string) (ps : Params) :
  has name ps = false -> getAll name ps = [] /\ remove name ps = ps.
Proof.
  unfold has, getAll, remove. induction ps as [|[k v] ps IH]; [easy|].
  cbn. destruct (String.eqb k name); cbn; [discriminate|].
  intros H. destruct (IH H) as [-> ->]. easy.
Qed.

(** After [set], the name has exactly the value given. *)
Lemma getAll_set (name value : string) (ps : Params) :
  getAll name (set name value ps) = [value].
Proof.
  unfold set. destruct (has name ps) eqn:Hhas.
  - revert Hhas. unfold has. induction ps as [|[k v] ps IH]; [discriminate|].
    cbn. destruct (String.eqb k name) eqn:Hk; cbn.
    + intros _. unfold getAll. cbn. rewrite Hk. cbn. f_equal. apply getAll_remove.
    + intros Hhas. unfold getAll in *. cbn. rewrite Hk. now apply IH.
  - destruct (has_false_getAll name ps Hhas) as [Hnone _].
    unfold getAll in *. rewrite List.filter_app, map_app, Hnone. cbn.
    now rewrite String.eqb_refl.
Qed.

(** [set] keeps every pair of another name, in order. *)
Lemma remove_set (name value : string) (ps : Params) :
  remove name (set name value ps) = remove name ps.
Proof.
  unfold set. destruct (has name ps) eqn:Hhas.
  - clear Hhas. induction ps as [|[k v] ps IH]; [reflexivity|].
    cbn. destruct (String.eqb k name) eqn:Hk.
    + unfold remove at 1. cbn. rewrite Hk. cbn. apply remove_idem.
    + unfold remove in *. cbn. rewrite Hk. cbn. now rewrite IH.
  - unfold remove. rewrite List.filter_app. cbn. rewrite String.eqb_refl. cbn.
    apply app_nil_r.
Qed.

Lemma getAll_set_ne (name other value : string) (ps : Params) :
  other <> name -> getAll other (set name value ps) = getAll other ps.
Proof.
  intros Hne.
  rewrite <- (getAll_remove_ne name other (set name value ps) Hne), remove_set.
  now apply getAll_remove_ne.
Qed.

End UrlFacts.

(** ** The sync proxy for chat messages *)

Lemma whereClause_render (threadIds : list Z) :
  ChatMessages.whereClause threadIds = render (ownershipFilter threadIds).
Proof.
  unfold ChatMessages.whereClause, ownershipFilter.
  now destruct (0 <? length threadIds)%nat.
Qed.

Lemma serve_authenticated {platform : Platform} (rt : Env.Runtime)
    (request : Request) (w w1 : World) (session : option Session) (uid : string) :
  api_getSession rt request w = (Returned session, w1) ->
  session_user_id session = Some uid ->
  exists (r : Response) (w2 : World),
    ChatMessages.serve rt request w = (Returned r, w2) /\
    db w2 = db w /\
    added w1 w2 [EvExecute ChatMessages.create_chat_threads;
                 EvExecute ChatMessages.create_chat_messages;
                 EvQuery "chat_threads";
                 EvElectric (forwardedUrl request uid (db w))].
Proof.
  intros Hs Hu.
  destruct (api_getSession_inv rt request w w1 session Hs) as (_ & Hdb & _ & _).
  unfold ChatMessages.serve. rewrite (bind_returned _ _ _ _ _ Hs), Hu.
  unfold forwardedUrl, ownedThreadIds. rewrite <- Hdb.
  unfold bind, try_catch, execute, findMany, proxyElectricRequest, bind, emit, getDb, ret.
  cbn [db record].
  destruct (electricShape _) as [[code hs] chunks].
  eexists _, _. split; [reflexivity|]. split; [reflexivity|].
  unfold added. cbn [trace record]. now rewrite <- !app_assoc.
Qed.

(** The impossible condition matches no row whose thread id was generated
    by the identity column. *)
Lemma impossible_condition (d : Db) :
  db_wf d -> List.filter (matches (ThreadIdEq (-1))) (chat_messages d) = [].
Proof.
  intros [Hthreads Hfk].
  induction (chat_messages d) as [|m ms IH]; [reflexivity|].
  inversion Hfk as [|? ? Hm Hms]; subst. cbn.
  destruct (Message.thread_id m =? -1)%Z eqn:Heq; [|now apply IH].
  exfalso. apply Z.eqb_eq in Heq.
  apply list_elem_of_In, in_map_iff in Hm as (t & Hid & Hin).
  rewrite Forall_forall in Hthreads. apply list_elem_of_In in Hin.
  specialize (Hthreads t Hin). lia.
Qed.

(** Whatever the caller owns, a row the ownership filter selects belongs
    to one of the caller's threads. *)
Lemma ownership_filter_owned (uid : string) (d : Db) (row : Message.t) :
  db_wf d ->
  In row (chat_messages d) ->
  matches (ownershipFilter (ownedThreadIds uid d)) row = true ->
  exists t, In t (chat_threads d) /\
            Thread.id t = Message.thread_id row /\ Thread.user_id t = uid.
Proof.
  intros Hwf Hrow Hmatch. unfold ownershipFilter in Hmatch.
  destruct (0 <? length (ownedThreadIds uid d))%nat.
  - cbn in Hmatch. apply existsb_exists in Hmatch as (i & Hi & Heq).
    apply Z.eqb_eq in Heq. unfold ownedThreadIds in Hi.
    apply in_map_iff in Hi as (t & Hid & Ht).
    apply filter_In in Ht as [Hin Huser]. apply String.eqb_eq in Huser.
    exists t. split; [exact Hin|]. split; congruence.
  - pose proof (impossible_condition d Hwf) as Hnone.
    assert (Hin : In row (List.filter (matches (ThreadIdEq (-1))) (chat_messages d)))
      by (apply filter_In; split; assumption).
    rewrite Hnone in Hin. destruct Hin.
Qed.

(** The one write of the routes keeps the table constraints. *)
Lemma insert_keeps_constraints (n : Js.number) (role content : string) (w w' : World) :
  db_wf (db w) ->
  insert n role content w = (Returned tt, w') ->
  db_wf (db w').
Proof.
  intros [Hthreads Hfk]. unfold insert, bind, getDb.
  destruct n as [|z]; [discriminate|].
  destruct (existsb _ _) eqn:Hex; [|discriminate].
  cbn. intros [= <-]. cbn. split; [exact Hthreads|].
  apply Forall_app. split; [exact Hfk|]. constructor; [|constructor].
  cbn. apply existsb_exists in Hex as (t & Hin & Hid). apply Z.eqb_eq in Hid.
  apply list_elem_of_In, in_map_iff. exists t. auto.
Qed.

(** C1.  For an authenticated user who owns no thread, the sync proxy for
    chat messages forwards exactly one request; its [where] parameter has
    the single value ["thread_id" = -1], a filter that matches no row of
    [chat_messages] under the table constraints; so the forwarded request
    is never without an ownership filter. *)
Theorem no_threads_filter_matches_nothing {platform : Platform} (rt : Env.Runtime)
    (request : Request) (w w1 : World) (session : option Session) (uid : string) :
  api_getSession rt request w = (Returned session, w1) ->
  session_user_id session = Some uid ->
  ownedThreadIds uid (db w) = [] ->
  db_wf (db w) ->
  exists (r : Response) (w2 : World) (originUrl : Url.URL),
    ChatMessages.serve rt request w = (Returned r, w2) /\
    added w1 w2 [EvExecute ChatMessages.create_chat_threads;
                 EvExecute ChatMessages.create_chat_messages;
                 EvQuery "chat_threads";
                 EvElectric originUrl] /\
    Url.getAll "where" (Url.searchParams originUrl) = [render (ThreadIdEq (-1))] /\
    render (ThreadIdEq (-1)) = Js.quoted "thread_id" ++ " = -1" /\
    List.filter (matches (ThreadIdEq (-1))) (chat_messages (db w2)) = [].
Proof.
  intros Hs Hu Hnone Hwf.
  destruct (serve_authenticated rt request w w1 session uid Hs Hu) as (r & w2 & Hserve & Hdb & Hadd).
  exists r, w2, (forwardedUrl request uid (db w)). repeat split; trivial.
  - unfold forwardedUrl. cbn [Url.setParam Url.searchParams].
    rewrite getAll_set, whereClause_render, Hnone. reflexivity.
  - rewrite Hdb. now apply impossible_condition.
Qed.

(** C1 for carol, who owns no thread. *)
Lemma no_threads_filter_matches_nothing_witness :
  ownedThreadIds "carol" (db Fixture.w0) = [] /\
  exists (r : Response) (w2 : World) (originUrl : Url.URL),
    ChatMessages.serve (platform := Fixture.quiet) Fixture.rt_demo
      (Fixture.request "carol" [("offset", "-1")] None) Fixture.w0 = (Returned r, w2) /\
    Url.getAll "where" (Url.searchParams originUrl) = [render (ThreadIdEq (-1))] /\
    List.filter (matches (ThreadIdEq (-1))) (chat_messages (db w2)) = [].
Proof.
  split; [reflexivity|].
  assert (Hwf : db_wf (db Fixture.w0)).
  { split; cbn; repeat constructor; cbn; try lia; apply list_elem_of_In; cbn; auto. }
  destruct (no_threads_filter_matches_nothing (platform := Fixture.quiet) Fixture.rt_demo
              (Fixture.request "carol" [("offset", "-1")] None) Fixture.w0 _ _ "carol"
              eq_refl eq_refl eq_refl Hwf)
    as (r & w2 & originUrl & Hserve & _ & Hwhere & _ & Hrows).
  exists r, w2, originUrl. auto.
Defined.

(** C6, as amended.  For an authenticated request the sync proxy for chat
    messages forwards one request, to the prepared URL with [table] set to
    [chat_messages] and [where] set to the ownership filter: each of the
    two names ends with that single value, whatever the prepared URL
    carried under it (a [where] of the client's is replaced, not kept),
    and every parameter of another name is forwarded unchanged and in
    order. *)
Theorem proxy_sets_table_and_where {platform : Platform} (rt : Env.Runtime)
    (request : Request) (w w1 : World) (session : option Session) (uid : string) :
  api_getSession rt request w = (Returned session, w1) ->
  session_user_id session = Some uid ->
  exists (r : Response) (w2 : World) (originUrl : Url.URL),
    ChatMessages.serve rt request w = (Returned r, w2) /\
    added w1 w2 [EvExecute ChatMessages.create_chat_threads;
                 EvExecute ChatMessages.create_chat_messages;
                 EvQuery "chat_threads";
                 EvElectric originUrl] /\
    Url.origin originUrl = Url.origin (prepareElectricUrl (url request)) /\
    Url.pathname originUrl = Url.pathname (prepareElectricUrl (url request)) /\
    Url.getAll "table" (Url.searchParams originUrl) = ["chat_messages"] /\
    Url.getAll "where" (Url.searchParams originUrl)
      = [render (ownershipFilter (ownedThreadIds uid (db w)))] /\
    Url.remove "where" (Url.remove "table" (Url.searchParams originUrl))
      = Url.remove "where" (Url.remove "table"
                              (Url.searchParams (prepareElectricUrl (url request)))) /\
    (forall name, name <> "table" -> name <> "where" ->
       Url.getAll name (Url.searchParams originUrl)
       = Url.getAll name (Url.searchParams (prepareElectricUrl (url request)))).
Proof.
  intros Hs Hu.
  destruct (serve_authenticated rt request w w1 session uid Hs Hu) as (r & w2 & Hserve & _ & Hadd).
  exists r, w2, (forwardedUrl request uid (db w)).
  unfold forwardedUrl. cbn [Url.setParam Url.searchParams Url.origin Url.pathname].
  repeat split; trivial.
  - rewrite getAll_set_ne by discriminate. apply getAll_set.
  - rewrite getAll_set. now rewrite whereClause_render.
  - rewrite (remove_comm "where" "table"), remove_set.
    rewrite (remove_comm "table" "where"), remove_set. reflexivity.
  - intros name Ht Hw. rewrite getAll_set_ne by assumption. now apply getAll_set_ne.
Qed.

(** C6 on alice's subscription request. *)
Lemma proxy_sets_table_and_where_witness :
  exists (r : Response) (w2 : World) (originUrl : Url.URL),
    ChatMessages.serve (platform := Fixture.quiet) Fixture.rt_demo
      (Fixture.request "alice" [("offset", "-1"); ("live", "true")] None) Fixture.w0
      = (Returned r, w2) /\
    Url.getAll "where" (Url.searchParams originUrl) = [render (ThreadIdIn [7%Z])] /\
    Url.getAll "offset" (Url.searchParams originUrl) = ["-1"].
Proof.
  destruct (proxy_sets_table_and_where (platform := Fixture.quiet) Fixture.rt_demo
              (Fixture.request "alice" [("offset", "-1"); ("live", "true")] None)
              Fixture.w0 _ _ "alice" eq_refl eq_refl)
    as (r & w2 & originUrl & Hserve & _ & _ & _ & _ & Hwhere & _ & Hother).
  exists r, w2, originUrl. split; [exact Hserve|]. split; [exact Hwhere|].
  rewrite Hother by discriminate. reflexivity.
Defined.

(** C6 as stated fails on a client-supplied [where]: alice's request
    carries [where=1=1], which the prepared URL keeps, and the one request
    forwarded has the ownership filter as its only [where] value. *)
Lemma client_where_replaced :
  In "1=1"
    (Url.getAll "where"
       (Url.searchParams
          (Fixture.retarget (url (Fixture.request "alice" [("offset", "-1"); ("where", "1=1")] None))))) /\
  exists (r : Response) (w2 : World),
    ChatMessages.serve (platform := Fixture.quiet) Fixture.rt_demo
      (Fixture.request "alice" [("offset", "-1"); ("where", "1=1")] None) Fixture.w0
      = (Returned r, w2) /\
    (exists u, In (EvElectric u) (trace w2)) /\
    (forall u, In (EvElectric u) (trace w2) ->
       Url.getAll "where" (Url.searchParams u) = [render (ThreadIdIn [7%Z])] /\
       ~ In "1=1" (Url.getAll "where" (Url.searchParams u))).
Proof.
  split; [cbn; auto|].
  eexists _, _. split; [vm_compute; reflexivity|]. split.
  - eexists. cbn. do 4 right. left. reflexivity.
  - intros u Hin. cbn in Hin.
    destruct Hin as [H|[H|[H|[H|[H|[]]]]]]; try discriminate.
    injection H as <-. split; [reflexivity|].
    cbn. intros [H|[]]. discriminate.
Qed.

(** ** Streaming *)

Lemma append_assoc (a b c : string) : (a ++ b) ++ c = a ++ (b ++ c).
Proof.
  induction a as [|x a IH]; [reflexivity|].
  change (String x ((a ++ b) ++ c) = String x (a ++ (b ++ c))). now rewrite IH.
Qed.

Lemma append_empty (a : string) : a ++ "" = a.
Proof.
  induction a as [|x a IH]; [reflexivity|].
  change (String x (a ++ "") = String x a). now rewrite IH.
Qed.

Lemma log_nil (w : World) : log [] w = w.
Proof. destruct w. unfold log. cbn. now rewrite app_nil_r. Qed.

Lemma log_record (e : Event) (evs : list Event) (w : World) :
  log evs (record e w) = log (e :: evs) w.
Proof. unfold log, record. cbn. now rewrite <- app_assoc. Qed.

(** [relay] writes every fragment, in order, changes nothing else and
    returns the text it started from followed by all of them. *)
Lemma relay_run (fs : list string) (text : string) (w : World) :
  relay text fs w
  = (Returned (text ++ fold_right String.append "" fs), log (map EvEnqueue fs) w).
Proof.
  revert text w. induction fs as [|f fs IH]; intros text w; cbn [relay].
  - cbn [map fold_right]. unfold ret. now rewrite log_nil, append_empty.
  - unfold bind at 1. cbn [emit]. rewrite IH. cbn [map fold_right].
    now rewrite log_record, append_assoc.
Qed.

(** An insert into an existing thread appends exactly one row. *)
Lemma insert_run (z : Z) (role content : string) (w : World) :
  existsb (fun t => (Thread.id t =? z)%Z) (chat_threads (db w)) = true ->
  exists (row : Message.t) (w' : World),
    insert (Js.Num z) role content w = (Returned tt, w') /\
    row = Message.mk (chat_messages_seq (db w) + 1) z role content (clock (db w)) /\
    chat_threads (db w') = chat_threads (db w) /\
    chat_messages (db w') = (chat_messages (db w) ++ [row])%list /\
    added w w' [EvInsert row].
Proof.
  intros Hex. unfold insert, bind, getDb. cbn [fst snd]. rewrite Hex.
  eexists _, _. split; [reflexivity|]. repeat split.
Qed.

Lemma find_existsb (z : Z) (threads : list Thread.t) (t : Thread.t) :
  List.find (fun fields => eq_int (Thread.id fields) (Js.Num z)) threads = Some t ->
  existsb (fun t => (Thread.id t =? z)%Z) threads = true.
Proof.
  intros Hfind. apply find_some in Hfind as [Hin Hid].
  apply existsb_exists. exists t. auto.
Qed.

(** ** Completions on POST /api/chat/ai *)

Section Completion.

Context {platform : Platform}.
Variable rt : Env.Runtime.

(** An authorized call reaches the choice between demo and real mode,
    with the ownership query as its only effect so far. *)
Lemma POST_authorized (request : Request) (w w1 : World) (uid : string) (z : Z) :
  authorized rt request w w1 uid z ->
  db w1 = db w /\
  existsb (fun t => (Thread.id t =? z)%Z) (chat_threads (db w)) = true /\
  ChatAi.POST rt request w
  = match Env.getOpenRouter rt with
    | None =>
        (insert (Js.Num z) "assistant" (demoReply (default [] (messages (requestBody request)))) ;;;
         ret {| status := 200;
                response_headers :=
                  [("content-type", "text/plain; charset=utf-8");
                   ("x-vercel-ai-data-stream", "v1")];
                body := Stream ["0:"
                                ++ Js.JSON_stringify
                                     (demoReply (default [] (messages (requestBody request))))
                                ++ String "010"%char ""] |})
          (record (EvQuery "chat_threads") w1)
    | Some _ =>
        (result <- streamText
                     (Js.or_else (model (requestBody request)) (Env.getDefaultModel rt))
                     "You are a helpful assistant."
                     (remap (default [] (messages (requestBody request))))
                     (Some (fun text => insert (Js.Num z) "assistant" text)) ;;
         ret (toTextStreamResponse result))
          (record (EvQuery "chat_threads") w1)
    end.
Proof.
  intros ((session & Hs & Hu) & Hnum & Hz & Hmsgs & t & Hfind & Howner).
  destruct (api_getSession_inv rt request w w1 session Hs) as (_ & Hdb & _ & _).
  split; [exact Hdb|]. split; [now apply (find_existsb z _ t)|].
  unfold ChatAi.POST. rewrite (bind_returned _ _ _ _ _ Hs), Hu. cbv zeta.
  rewrite Hnum. cbn [Js.ToBoolean].
  replace (z =? 0)%Z with false by (symmetry; now apply Z.eqb_neq).
  destruct (default [] (messages (requestBody request))) as [|m ms] eqn:Hm; [easy|].
  cbn [negb orb length Nat.eqb].
  rewrite (bind_returned _ _ _ _ _ (findFirst_run _ w1)). cbn [db record].
  rewrite Hdb, Hfind, Howner, String.eqb_refl. cbn [negb].
  now destruct (Env.getOpenRouter rt).
Qed.

End Completion.

(** C4.  In real mode an authorized call returns a 200 streaming response
    with nothing persisted yet.  Reading the body to its end when the
    upstream yields its fragments and completes adds exactly one row to
    [chat_messages]: an assistant message of the thread whose content is
    the concatenation of all fragments, inserted after the last fragment
    was relayed.  When the upstream throws after its fragments the error
    reaches the reader and no row is added. *)
Theorem real_mode_persists_once {platform : Platform} (rt : Env.Runtime)
    (request : Request) (w w1 : World) (uid key : string) (z : Z) :
  authorized rt request w w1 uid z ->
  Env.getOpenRouter rt = Some key ->
  exists (r : Response) (w2 : World) (model : string) (msgs : list Msg.t),
    ChatAi.POST rt request w = (Returned r, w2) /\
    status r = 200%Z /\
    db w2 = db w /\
    added w1 w2 [EvQuery "chat_threads"; EvLlm model "You are a helpful assistant." msgs] /\
    match ending (llm model "You are a helpful assistant." msgs) with
    | Completes =>
        exists (row : Message.t) (w3 : World),
          deliver (body r) w2 = (Returned tt, w3) /\
          chat_messages (db w3) = (chat_messages (db w) ++ [row])%list /\
          Message.thread_id row = z /\
          Message.role row = "assistant" /\
          Message.content row
            = fold_right String.append ""
                (fragments (llm model "You are a helpful assistant." msgs)) /\
          added w2 w3
            (map EvEnqueue (fragments (llm model "You are a helpful assistant." msgs))
               ++ [EvInsert row; EvClose])%list
    | Throws e =>
        exists w3 : World,
          deliver (body r) w2 = (Thrown e, w3) /\
          db w3 = db w /\
          added w2 w3 (map EvEnqueue (fragments (llm model "You are a helpful assistant." msgs)))
    end.
Proof.
  intros Hauth Hkey.
  destruct (POST_authorized rt request w w1 uid z Hauth) as (Hdb & Hex & Hpost).
  rewrite Hkey in Hpost.
  set (model := Js.or_else (model (requestBody request)) (Env.getDefaultModel rt)) in *.
  set (msgs := remap (default [] (messages (requestBody request)))) in *.
  set (sys := "You are a helpful assistant.") in *.
  set (w2 := record (EvLlm model sys msgs) (record (EvQuery "chat_threads") w1)).
  exists (toTextStreamResponse
            {| source := llm model sys msgs;
               onFinish := Some (fun text => insert (Js.Num z) "assistant" text) |}),
    w2, model, msgs.
  split; [exact Hpost|]. split; [reflexivity|]. split; [exact Hdb|].
  split; [unfold added, w2; cbn; now rewrite <- app_assoc|].
  cbn [body toTextStreamResponse deliver source onFinish].
  rewrite (bind_returned _ _ _ _ _ (relay_run _ "" w2)).
  change ("" ++ fold_right String.append "" (fragments (llm model sys msgs)))
    with (fold_right String.append "" (fragments (llm model sys msgs))).
  destruct (ending (llm model sys msgs)) as [|e].
  - destruct (insert_run z "assistant"
                (fold_right String.append "" (fragments (llm model sys msgs)))
                (log (map EvEnqueue (fragments (llm model sys msgs))) w2))
      as (row & w' & Hins & Hrow & _ & Hmsgs & Hadd).
    { cbn [db log w2 record]. now rewrite Hdb. }
    exists row, (record EvClose w'). rewrite (bind_returned _ _ _ _ _ Hins).
    split; [reflexivity|]. cbn [db record]. rewrite Hmsgs. cbn [db log w2 record]. rewrite Hdb.
    split; [reflexivity|]. split; [now rewrite Hrow|]. split; [now rewrite Hrow|].
    split; [now rewrite Hrow|].
    unfold added in *. cbn [trace record]. rewrite Hadd. cbn [trace log].
    now rewrite <- !app_assoc.
  - exists (log (map EvEnqueue (fragments (llm model sys msgs))) w2).
    split; [reflexivity|]. split; [exact Hdb | reflexivity].
Qed.

Lemma lastUserMessage_none (msgs : list Msg.t) :
  (forall m, In m msgs -> Msg.role m = assistant) -> lastUserMessage msgs = None.
Proof.
  intros Hall. unfold lastUserMessage.
  replace (List.filter _ msgs) with (@nil Msg.t); [reflexivity|].
  symmetry. induction msgs as [|m msgs IH]; [reflexivity|].
  cbn. rewrite (Hall m) by (left; reflexivity). apply IH.
  intros m' Hin. apply Hall. now right.
Qed.

(** The user message that [filter] and [pop] pick is the one after which
    only assistant messages follow. *)
Lemma lastUserMessage_pick (before after : list Msg.t) (m : Msg.t) :
  Msg.role m = user ->
  (forall a, In a after -> Msg.role a = assistant) ->
  lastUserMessage (before ++ m :: after) = Some m.
Proof.
  intros Hm Hafter. unfold lastUserMessage.
  rewrite List.filter_app. cbn [List.filter]. rewrite Hm.
  replace (List.filter _ after) with (@nil Msg.t).
  - now rewrite last_snoc.
  - symmetry. induction after as [|a after IH]; [reflexivity|].
    cbn. rewrite (Hafter a) by (left; reflexivity). apply IH.
    intros a' Hin. apply Hafter. now right.
Qed.

(** In demo mode an authorized call on a body of the declared type
    inserts the canned reply and returns it as one chunk. *)
Lemma POST_demo_reply {platform : Platform} (rt : Env.Runtime)
    (request : Request) (w w1 : World) (uid : string) (z : Z) :
  authorized rt request w w1 uid z ->
  Env.getOpenRouter rt = None ->
  exists (r : Response) (w2 : World) (row : Message.t) (chunk : string),
    ChatAi.POST rt request w = (Returned r, w2) /\
    status r = 200%Z /\
    chat_messages (db w2) = (chat_messages (db w) ++ [row])%list /\
    Message.thread_id row = z /\
    Message.role row = "assistant" /\
    Message.content row = demoReply (default [] (messages (requestBody request))) /\
    (forall m, lastUserMessage (default [] (messages (requestBody request))) = Some m ->
       Message.content row
       = "Demo reply: I received " ++ Js.quoted (Msg.content m)
         ++ ". Configure OPENROUTER_API_KEY for real responses.") /\
    added w1 w2 [EvQuery "chat_threads"; EvInsert row] /\
    body r = Stream [chunk] /\
    chunk = "0:" ++ Js.JSON_stringify (Message.content row) ++ String "010"%char "" /\
    deliver (body r) w2 = (Returned tt, log [EvEnqueue chunk; EvClose] w2).
Proof.
  intros Hauth Hkey.
  destruct (POST_authorized rt request w w1 uid z Hauth) as (Hdb & Hex & Hpost).
  rewrite Hkey in Hpost.
  set (reply := demoReply (default [] (messages (requestBody request)))) in *.
  destruct (insert_run z "assistant" reply (record (EvQuery "chat_threads") w1))
    as (row & w2 & Hins & Hrow & _ & Hmsgs & Hadd).
  { cbn [db record]. now rewrite Hdb. }
  rewrite (bind_returned _ _ _ _ _ Hins) in Hpost.
  eexists _, w2, row, ("0:" ++ Js.JSON_stringify reply ++ String "010"%char "").
  split; [exact Hpost|]. split; [reflexivity|].
  cbn [db record] in Hmsgs. rewrite Hdb in Hmsgs. split; [exact Hmsgs|].
  assert (Hcontent : Message.content row = reply) by now rewrite Hrow.
  split; [now rewrite Hrow|]. split; [now rewrite Hrow|]. split; [exact Hcontent|].
  split.
  { intros m Hm. rewrite Hcontent. unfold reply, demoReply. now rewrite Hm. }
  split.
  { unfold added in *. rewrite Hadd. cbn [trace record]. now rewrite <- app_assoc. }
  split; [reflexivity|]. split; [now rewrite Hcontent|].
  cbn [body deliver relay]. unfold bind, emit, ret. unfold record, log. cbn.
  now rewrite <- app_assoc.
Qed.

(** C5.  In demo mode (no LLM key) an authorized call contacts no remote
    service (its effects are the ownership query and one insert); it
    inserts one assistant message whose content is the canned reply, which
    quotes the content of the last message of role user, that is the user
    message after which only assistant messages follow, and the word
    [undefined] when no message has that role; and it returns a body of
    exactly one chunk, after which the stream closes.  The thread ids
    stored are values of the column's type. *)
Theorem demo_mode_reply {platform : Platform} (rt : Env.Runtime)
    (i : Incoming) (w w1 : World) (uid : string) (z : Z) :
  authorized rt (declared i) w w1 uid z ->
  ids_typed (db w) ->
  Env.getOpenRouter rt = None ->
  exists (r : Response) (w2 : World) (row : Message.t) (chunk : string),
    ChatAi.receive rt i w = (Returned r, w2) /\
    status r = 200%Z /\
    chat_messages (db w2) = (chat_messages (db w) ++ [row])%list /\
    Message.thread_id row = z /\
    Message.role row = "assistant" /\
    (forall before m after,
       default [] (messages (requestBody (declared i))) = (before ++ m :: after)%list ->
       Msg.role m = user ->
       (forall a, In a after -> Msg.role a = assistant) ->
       Message.content row
       = "Demo reply: I received " ++ Js.quoted (Msg.content m)
         ++ ". Configure OPENROUTER_API_KEY for real responses.") /\
    ((forall a, In a (default [] (messages (requestBody (declared i)))) ->
                Msg.role a = assistant) ->
       Message.content row
       = "Demo reply: I received " ++ Js.quoted "undefined"
         ++ ". Configure OPENROUTER_API_KEY for real responses.") /\
    added w1 w2 [EvQuery "chat_threads"; EvInsert row] /\
    body r = Stream [chunk] /\
    chunk = "0:" ++ Js.JSON_stringify (Message.content row) ++ String "010"%char "" /\
    deliver (body r) w2 = (Returned tt, log [EvEnqueue chunk; EvClose] w2).
Proof.
  intros Hauth Htyped Hkey.
  destruct (POST_demo_reply rt (declared i) w w1 uid z Hauth Hkey)
    as (r & w2 & row & chunk & Hpost & Hst & Hrows & Hthread & Hrole & Hcontent & _
        & Hadd & Hstream & Hchunk & Hdeliver).
  exists r, w2, row, chunk.
  split.
  { destruct Hauth as (_ & Hnum & _ & _ & t & Hfind & _).
    apply find_some in Hfind as [Hin Hid]. cbn in Hid. apply Z.eqb_eq in Hid.
    assert (Hfits : int4 z).
    { unfold ids_typed in Htyped. rewrite List.Forall_forall in Htyped.
      rewrite <- Hid. now apply Htyped. }
    rewrite receive_POST; [exact Hpost | |].
    - intros Hnull. unfold requestBody, declared in Hnum. cbn [json] in Hnum.
      rewrite Hnull in Hnum. discriminate Hnum.
    - intros z' Hz'. rewrite Hnum in Hz'. now injection Hz' as <-. }
  repeat (split; [assumption|]).
  split.
  { intros before m after Hmsgs Hm Hafter. rewrite Hcontent, Hmsgs. unfold demoReply.
    now rewrite (lastUserMessage_pick before after m Hm Hafter). }
  split.
  { intros Hall. rewrite Hcontent. unfold demoReply.
    now rewrite (lastUserMessage_none _ Hall). }
  auto.
Qed.

(** Discharges [authorized] on a concrete request by running the session
    look-up and the field and ownership checks. *)
Ltac run_authorized :=
  split; [eexists; split; reflexivity|];
  split; [reflexivity|];
  split; [discriminate|];
  split; [discriminate|];
  eexists; split; reflexivity.

(** C4 in the example deployment: the gateway yields ["Hi"], [" there"]
    and completes, and one row with content ["Hi there"] is added; it
    yields ["Hi"] and throws, and none is. *)
Lemma real_mode_persists_once_witness :
  (exists (r : Response) (w2 w3 : World) (row : Message.t),
     ChatAi.POST (platform := Fixture.streaming) Fixture.rt_real Fixture.alice_asks Fixture.w0
       = (Returned r, w2) /\
     deliver (body r) w2 = (Returned tt, w3) /\
     chat_messages (db w3) = (chat_messages Fixture.db0 ++ [row])%list /\
     Message.content row = "Hi there") /\
  (exists (r : Response) (w2 w3 : World),
     ChatAi.POST (platform := Fixture.failing) Fixture.rt_real Fixture.alice_asks Fixture.w0
       = (Returned r, w2) /\
     deliver (body r) w2 = (Thrown "reset", w3) /\
     db w3 = Fixture.db0).
Proof.
  split.
  - destruct (real_mode_persists_once (platform := Fixture.streaming)
                Fixture.rt_real Fixture.alice_asks Fixture.w0
                (snd (api_getSession (platform := Fixture.streaming)
                        Fixture.rt_real Fixture.alice_asks Fixture.w0))
                "alice" "sk-or-1" 7)
      as (r & w2 & model & msgs & Hpost & _ & _ & _ & Hend).
    + run_authorized.
    + reflexivity.
    + cbn in Hend. destruct Hend as (row & w3 & Hdel & Hrows & _ & _ & Hcontent & _).
      exists r, w2, w3, row. auto.
  - destruct (real_mode_persists_once (platform := Fixture.failing)
                Fixture.rt_real Fixture.alice_asks Fixture.w0
                (snd (api_getSession (platform := Fixture.failing)
                        Fixture.rt_real Fixture.alice_asks Fixture.w0))
                "alice" "sk-or-1" 7)
      as (r & w2 & model & msgs & Hpost & _ & _ & _ & Hend).
    + run_authorized.
    + reflexivity.
    + cbn in Hend. destruct Hend as (w3 & Hdel & Hdb & _).
      exists r, w2, w3. auto.
Defined.

(** C5 in the example deployment: alice sends a conversation that ends
    with an assistant message, in demo mode; the reply quotes her last
    message. *)
Lemma demo_mode_reply_witness :
  exists (r : Response) (w2 : World) (row : Message.t) (chunk : string),
    ChatAi.receive (platform := Fixture.quiet) Fixture.rt_demo
      (Fixture.incoming "alice" []
         (Declared (mkBody (Some (inr "7"))
                      (Some [Msg.mk user "hello"; Msg.mk assistant "Hi";
                             Msg.mk user "and you?"; Msg.mk assistant "fine"])
                      None)))
      Fixture.w0
      = (Returned r, w2) /\
    chat_messages (db w2) = (chat_messages Fixture.db0 ++ [row])%list /\
    Message.content row
      = "Demo reply: I received " ++ Js.quoted "and you?"
        ++ ". Configure OPENROUTER_API_KEY for real responses." /\
    body r = Stream [chunk] /\
    List.filter is_network (trace w2) = [].
Proof.
  destruct (demo_mode_reply (platform := Fixture.quiet) Fixture.rt_demo
              (Fixture.incoming "alice" []
                 (Declared (mkBody (Some (inr "7"))
                              (Some [Msg.mk user "hello"; Msg.mk assistant "Hi";
                                     Msg.mk user "and you?"; Msg.mk assistant "fine"])
                              None)))
              Fixture.w0
              (snd (api_getSession (platform := Fixture.quiet)
                      Fixture.rt_demo (Fixture.request "alice" [] None) Fixture.w0))
              "alice" 7)
    as (r & w2 & row & chunk & Hpost & _ & Hrows & _ & _ & Hquote & _ & Hadd & Hbody & _).
  - run_authorized.
  - repeat constructor; cbn; lia.
  - reflexivity.
  - exists r, w2, row, chunk. split; [exact Hpost|]. split; [exact Hrows|].
    split.
    { apply (Hquote [Msg.mk user "hello"; Msg.mk assistant "Hi"] (Msg.mk user "and you?")
               [Msg.mk assistant "fine"]); [reflexivity | reflexivity |].
      intros a [<-|[]]. reflexivity. }
    split; [exact Hbody|].
    unfold added in Hadd. rewrite Hadd. reflexivity.
Defined.

(** ** The guest completion path *)

Lemma guest_answers {platform : Platform} (rt : Env.Runtime) (request : Request) (w : World) :
  exists (r : Response) (w' : World), ChatGuest.POST rt request w = (Returned r, w').
Proof.
  unfold ChatGuest.POST. cbv zeta.
  destruct (length _ =? 0)%nat; [eexists _, _; reflexivity|].
  destruct (Env.getOpenRouter rt); eexists _, _; reflexivity.
Qed.





(** ** Configuration *)

(** C8, as amended.  When the database address or the auth secret is
    absent from both the Cloudflare binding and [process.env], [getEnv]
    throws a configuration error every time it is called, and it is called
    from [getAuth] while a request is handled: the sync proxy and POST
    /api/chat/ai throw that error before any session look-up, database
    access or remote call, and POST /api/chat/guest, which never calls
    [getAuth], still answers. *)
Theorem missing_secret_throws {platform : Platform} (rt : Env.Runtime) :
  absent Env.DATABASE_URL rt \/ absent Env.BETTER_AUTH_SECRET rt ->
  exists e : string,
    Env.getEnv rt = inl e /\
    (e = "DATABASE_URL is not configured" \/ e = "BETTER_AUTH_SECRET is not configured") /\
    forall (request : Request) (w : World),
      getAuth rt w = (Thrown e, w) /\
      ChatMessages.serve rt request w = (Thrown e, w) /\
      ChatAi.POST rt request w = (Thrown e, w) /\
      exists (r : Response) (w' : World), ChatGuest.POST rt request w = (Returned r, w').
Proof.
  intros Habsent.
  assert (He : exists e, Env.getEnv rt = inl e /\
                 (e = "DATABASE_URL is not configured" \/
                  e = "BETTER_AUTH_SECRET is not configured")).
  { unfold Env.getEnv, Env.resolve.
    destruct Habsent as [[Hcf Hpe]|[Hcf Hpe]].
    - rewrite Hcf, Hpe. cbn. eauto.
    - rewrite Hcf, Hpe. cbn [Js.nullish Js.present].
      destruct (Js.present _); eauto. }
  destruct He as (e & He & Hmsg). exists e. split; [exact He|]. split; [exact Hmsg|].
  intros request w. split; [now apply getAuth_throws|].
  split; [|split].
  - unfold ChatMessages.serve.
    now rewrite (bind_thrown _ _ _ _ _ (api_getSession_throws rt request w e He)).
  - unfold ChatAi.POST.
    now rewrite (bind_thrown _ _ _ _ _ (api_getSession_throws rt request w e He)).
  - destruct (guest_answers rt request w) as (r & w' & H). eauto.
Qed.

(** C8 with no variable set anywhere. *)
Lemma missing_secret_throws_witness :
  absent Env.DATABASE_URL Fixture.rt_unconfigured /\
  Env.getEnv Fixture.rt_unconfigured = inl "DATABASE_URL is not configured" /\
  ChatAi.POST (platform := Fixture.quiet) Fixture.rt_unconfigured Fixture.alice_asks Fixture.w0
    = (Thrown "DATABASE_URL is not configured", Fixture.w0).
Proof.
  split; [split; reflexivity|].
  destruct (missing_secret_throws (platform := Fixture.quiet) Fixture.rt_unconfigured
              (or_introl (conj eq_refl eq_refl)))
    as (e & He & _ & Hall).
  destruct (Hall Fixture.alice_asks Fixture.w0) as (_ & _ & Hpost & _).
  assert (e = "DATABASE_URL is not configured") as -> by (cbn in He; congruence).
  split; [reflexivity | exact Hpost].
Defined.

(** C8 as stated fails: with the database address and the auth secret
    absent everywhere, nothing failed at start-up and the process serves
    a guest completion with status 200. *)
Lemma guest_served_without_secrets :
  absent Env.DATABASE_URL Fixture.rt_unconfigured /\
  absent Env.BETTER_AUTH_SECRET Fixture.rt_unconfigured /\
  exists (r : Response) (w' : World),
    ChatGuest.POST (platform := Fixture.quiet) Fixture.rt_unconfigured
      (Fixture.request "nobody" [] (Some (mkBody None (Some Fixture.hello) None))) Fixture.w0
      = (Returned r, w') /\
    status r = 200%Z /\
    body r = Stream ["Demo reply: I received " ++ Js.quoted "hello"
                     ++ ". Configure OPENROUTER_API_KEY for real responses."].
Proof.
  split; [split; reflexivity|]. split; [split; reflexivity|].
  eexists _, _. split; [reflexivity|]. split; reflexivity.
Qed.

(** ** The free-request counter in [localStorage] *)

Section Counter.

Import ChatPage.

Lemma digit_char (d : N) :
  (d < 10)%N ->
  Js.isDigit (pretty_N_char d) = true /\ Js.digitValue (pretty_N_char d) = Z.of_N d.
Proof.
  intros Hd.
  assert (Hcases : (d = 0 \/ d = 1 \/ d = 2 \/ d = 3 \/ d = 4 \/ d = 5 \/ d = 6 \/
                    d = 7 \/ d = 8 \/ d = 9)%N) by lia.
  repeat (destruct Hcases as [->|Hcases]; [split; reflexivity|]).
  subst d. split; reflexivity.
Qed.

(** Reading back the digits [pretty_N_go] prints. *)
Lemma digitsPrefix_pretty (x : N) :
  (0 < x)%N ->
  forall (acc : option Z) (s : string),
    default 0%Z acc = 0%Z ->
    Js.digitsPrefix acc (pretty_N_go x s) = Js.digitsPrefix (Some (Z.of_N x)) s.
Proof.
  induction (N.lt_wf_0 x) as [x _ IH]. intros Hx acc s Hacc.
  rewrite pretty_N_go_step by exact Hx.
  destruct (digit_char (x mod 10)%N) as [Hdig Hval]; [now apply N.mod_lt|].
  destruct (N.eq_dec (x / 10)%N 0%N) as [Hq|Hq].
  - rewrite Hq, pretty_N_go_0. cbn [Js.digitsPrefix]. rewrite Hdig, Hacc, Hval.
    do 2 f_equal. apply N.div_small_iff in Hq; [|discriminate].
    rewrite N.mod_small by exact Hq. reflexivity.
  - rewrite (IH (x / 10)%N);
      [| apply N.div_lt; lia | now apply N.neq_0_lt_0 | exact Hacc].
    cbn [Js.digitsPrefix]. rewrite Hdig, Hval. cbn [default]. do 2 f_equal.
    transitivity (Z.of_N (10 * (x / 10) + x mod 10)).
    + now rewrite N2Z.inj_add, N2Z.inj_mul.
    + f_equal. symmetry. now apply N.div_mod.
Qed.

Lemma pretty_N_go_head (x : N) :
  (0 < x)%N ->
  forall s, exists c rest, pretty_N_go x s = String c rest /\ Js.isDigit c = true.
Proof.
  induction (N.lt_wf_0 x) as [x _ IH]. intros Hx s.
  rewrite pretty_N_go_step by exact Hx.
  destruct (N.eq_dec (x / 10)%N 0%N) as [Hq|Hq].
  - rewrite Hq, pretty_N_go_0. eexists _, _. split; [reflexivity|].
    apply digit_char. now apply N.mod_lt.
  - apply IH; [apply N.div_lt; lia | now apply N.neq_0_lt_0].
Qed.

Lemma parseInt_digit_head (c : ascii) (rest : string) :
  Js.isDigit c = true ->
  Js.parseInt (String c rest)
  = match Js.digitsPrefix None (String c rest) with
    | Some n => Js.Num (1 * n)
    | None => Js.NaN
    end.
Proof.
  intros Hc.
  destruct c as [[] [] [] [] [] [] [] []]; try discriminate Hc; reflexivity.
Qed.

(** [parseInt] reads back what [toString] prints, on the integers that
    are printed in full. *)
Lemma parseInt_toString (n : Js.number) :
  representable n -> Js.parseInt (Js.toString n) = n.
Proof.
  intros _. destruct n as [|[|p|p]]; try reflexivity.
  - unfold Js.toString, pretty, pretty_Z, pretty, pretty_positive, pretty, pretty_N.
    destruct (decide (N.pos p = 0%N)) as [Hp|_]; [discriminate|].
    destruct (pretty_N_go_head (N.pos p) eq_refl "") as (c & rest & Hhead & Hc).
    rewrite Hhead, (parseInt_digit_head c rest Hc), <- Hhead.
    rewrite (digitsPrefix_pretty (N.pos p) eq_refl None "" eq_refl).
    cbn [Js.digitsPrefix]. f_equal.
  - unfold Js.toString, pretty, pretty_Z, pretty, pretty_positive, pretty, pretty_N.
    destruct (decide (N.pos p = 0%N)) as [Hp|_]; [discriminate|].
    change (Js.parseInt ("-" +:+ pretty_N_go (N.pos p) ""))
      with (match Js.digitsPrefix None (pretty_N_go (N.pos p) "") with
            | Some n => Js.Num (-1 * n)
            | None => Js.NaN
            end).
    rewrite (digitsPrefix_pretty (N.pos p) eq_refl None "" eq_refl).
    cbn [Js.digitsPrefix]. f_equal.
Qed.

Lemma toString_truthy (n : Js.number) : Js.truthy (Js.toString n) = true.
Proof.
  destruct n as [|[|p|p]]; try reflexivity.
  unfold Js.toString, pretty, pretty_Z, pretty, pretty_positive, pretty, pretty_N.
  destruct (decide (N.pos p = 0%N)) as [Hp|_]; [discriminate|].
  destruct (pretty_N_go_head (N.pos p) eq_refl "") as (c & rest & -> & _). reflexivity.
Qed.

(** The count read after an increment is the count that was written. *)
Lemma getFreeRequestCount_increment (ls : Storage) :
  exactCount (getFreeRequestCount ls) ->
  getFreeRequestCount (snd (incrementFreeRequestCount ls))
  = fst (incrementFreeRequestCount ls).
Proof.
  intros [_ Hnext]. unfold incrementFreeRequestCount. cbn [fst snd].
  unfold getFreeRequestCount at 1. rewrite lookup_insert_eq.
  unfold Js.or_else. rewrite toString_truthy. now apply parseInt_toString.
Qed.

(** The other keys the page writes leave the counter alone. *)
Lemma getFreeRequestCount_other (key value : string) (ls : Storage) :
  key <> FREE_REQUEST_KEY ->
  getFreeRequestCount (<[key := value]> ls) = getFreeRequestCount ls.
Proof.
  intros Hne. unfold getFreeRequestCount. now rewrite lookup_insert_ne.
Qed.

End Counter.

(** ** The guest view *)

Section GuestView.

Import ChatPage.

Lemma mount_consistent (prefersDark : bool) (ls : Storage) :
  consistent (mount prefersDark ls).
Proof. split; cbn; [reflexivity | congruence]. Qed.

Lemma step_consistent (p : Page) (a : Action) : consistent p -> consistent (step p a).
Proof.
  intros Hp. pose proof Hp as [Hloading Hreading].
  destruct a as [text|now|text|now| | |model| |write]; cbn [step].
  - split; cbn; assumption.
  - unfold handleSend.
    destruct (negb (Js.truthy (Js.trim (input (view p))))); cbn [orb];
      [exact Hp|].
    destruct (isLoading (view p)) eqn:Hload; [exact Hp|].
    destruct (Js.ge (freeRequestsUsed (view p)) FREE_REQUEST_LIMIT) eqn:Hge.
    + assert (Hnone : accumulated p = None)
        by (destruct (accumulated p); [discriminate | reflexivity]).
      split; cbn; now rewrite Hnone.
    + split; cbn; [reflexivity | intros _; exact Hge].
  - unfold onChunk. destruct (accumulated p) as [acc|] eqn:Hacc; [|exact Hp].
    split; cbn; [assumption | ].
    intros _. apply Hreading. congruence.
  - unfold onDone. destruct (accumulated p) as [acc|] eqn:Hacc; [|exact Hp].
    destruct (incrementFreeRequestCount (localStorage p)) as [newCount ls'].
    split; cbn; [reflexivity | congruence].
  - unfold onError. destruct (accumulated p) as [acc|] eqn:Hacc; [|exact Hp].
    split; cbn; [reflexivity | congruence].
  - split; cbn; assumption.
  - split; cbn; assumption.
  - split; cbn; assumption.
  - split; cbn; assumption.
Qed.

Lemma run_cons (a : Action) (actions : list Action) (p : Page) :
  run p (a :: actions) = run (step p a) actions.
Proof. reflexivity. Qed.

Lemma run_consistent (actions : list Action) (p : Page) :
  consistent p -> consistent (run p actions).
Proof.
  revert p. induction actions as [|a actions IH]; intros p Hp; [exact Hp|].
  rewrite run_cons. apply IH. now apply step_consistent.
Qed.

(** Once the view's count is at the limit no stream is being read and
    the view is not loading. *)
Lemma count_idle (p : Page) :
  consistent p -> countReached p ->
  accumulated p = None /\ isLoading (view p) = false.
Proof.
  intros [Hloading Hreading] Hcount. unfold countReached in Hcount.
  destruct (accumulated p) as [acc|] eqn:Hacc.
  - rewrite Hreading in Hcount; [discriminate | congruence].
  - auto.
Qed.

(** Once reached, the view's count stays at the limit and no action
    issues a call, whatever other tabs write. *)
Lemma step_at_count (p : Page) (a : Action) :
  consistent p -> countReached p ->
  countReached (step p a) /\ requests (step p a) = requests p.
Proof.
  intros Hp Hcount. destruct (count_idle p Hp Hcount) as (Hacc & Hload).
  unfold countReached in *.
  destruct a as [text|now|text|now| | |model| |write]; cbn [step].
  - now split.
  - unfold handleSend. rewrite Hload, Hcount.
    destruct (negb (Js.truthy (Js.trim (input (view p))))); now split.
  - unfold onChunk. rewrite Hacc. now split.
  - unfold onDone. rewrite Hacc. now split.
  - unfold onError. rewrite Hacc. now split.
  - now split.
  - now split.
  - now split.
  - now split.
Qed.

Lemma run_at_count (actions : list Action) (p : Page) :
  consistent p -> countReached p ->
  countReached (run p actions) /\ requests (run p actions) = requests p.
Proof.
  revert p. induction actions as [|a actions IH]; intros p Hp Hcount; [now split|].
  rewrite run_cons. destruct (step_at_count p a Hp Hcount) as [Hcount' Hreq].
  destruct (IH (step p a) (step_consistent p a Hp) Hcount') as [Hl Hr].
  split; [exact Hl | now rewrite Hr].
Qed.

End GuestView.

(** C9, as amended.  In a mounted guest view, once the count of free
    requests the view holds (read from [localStorage] at mount, raised when
    one of its own requests is answered) has reached the limit, whatever
    happens next, writes of other tabs to the storage included: no
    completion call is issued any more, by a submit or otherwise, and every
    submit whose input is not blank shows the auth prompt. *)
Theorem guest_limit_blocks_calls (prefersDark : bool) (ls : gmap string string)
    (before after : list ChatPage.Action) (now : Z) :
  countReached (ChatPage.run (ChatPage.mount prefersDark ls) before) ->
  ChatPage.requests (ChatPage.run (ChatPage.mount prefersDark ls) (before ++ after))
    = ChatPage.requests (ChatPage.run (ChatPage.mount prefersDark ls) before) /\
  ChatPage.requests
    (ChatPage.handleSend now (ChatPage.run (ChatPage.mount prefersDark ls) (before ++ after)))
    = ChatPage.requests (ChatPage.run (ChatPage.mount prefersDark ls) before) /\
  (Js.truthy (Js.trim (ChatPage.input (ChatPage.view
      (ChatPage.run (ChatPage.mount prefersDark ls) (before ++ after))))) = true ->
   ChatPage.showAuthPrompt (ChatPage.view
     (ChatPage.handleSend now (ChatPage.run (ChatPage.mount prefersDark ls) (before ++ after))))
   = true).
Proof.
  intros Hcount. unfold ChatPage.run in *. rewrite fold_left_app.
  fold (ChatPage.run (ChatPage.mount prefersDark ls) before) in *.
  set (p := ChatPage.run (ChatPage.mount prefersDark ls) before) in *.
  fold (ChatPage.run p after).
  assert (Hp : consistent p) by apply run_consistent, mount_consistent.
  destruct (run_at_count after p Hp Hcount) as [Hcount' Hreq].
  pose proof (run_consistent after p Hp) as Hq.
  destruct (step_at_count _ (ChatPage.Submit now) Hq Hcount') as [_ Hsubmit].
  cbn [ChatPage.step] in Hsubmit.
  split; [exact Hreq|]. split; [now rewrite Hsubmit|].
  intros Hinput. destruct (count_idle _ Hq Hcount') as (_ & Hload).
  unfold ChatPage.handleSend. unfold countReached in Hcount'.
  now rewrite Hinput, Hload, Hcount'.
Qed.

(** C9 after one free message: another tab counts a reply of its own, the
    visitor dismisses the prompt, types again and submits. *)
Lemma guest_limit_blocks_calls_witness :
  countReached
    (ChatPage.run (ChatPage.mount false ∅)
       [ChatPage.SetInput "hi"; ChatPage.Submit 1; ChatPage.Chunk "yo"; ChatPage.Done 2]) /\
  length (ChatPage.requests
    (ChatPage.handleSend 3
       (ChatPage.run (ChatPage.mount false ∅)
          ([ChatPage.SetInput "hi"; ChatPage.Submit 1; ChatPage.Chunk "yo"; ChatPage.Done 2]
             ++ [ChatPage.OtherTab ChatPage.TabReply; ChatPage.DismissPrompt;
                 ChatPage.SetInput "more"])))) = 1%nat /\
  ChatPage.showAuthPrompt (ChatPage.view
    (ChatPage.handleSend 3
       (ChatPage.run (ChatPage.mount false ∅)
          ([ChatPage.SetInput "hi"; ChatPage.Submit 1; ChatPage.Chunk "yo"; ChatPage.Done 2]
             ++ [ChatPage.OtherTab ChatPage.TabReply; ChatPage.DismissPrompt;
                 ChatPage.SetInput "more"])))) = true.
Proof.
  assert (Hcount : countReached
            (ChatPage.run (ChatPage.mount false ∅)
               [ChatPage.SetInput "hi"; ChatPage.Submit 1; ChatPage.Chunk "yo"; ChatPage.Done 2]))
    by (vm_compute; reflexivity).
  split; [exact Hcount|].
  destruct (guest_limit_blocks_calls false ∅
              [ChatPage.SetInput "hi"; ChatPage.Submit 1; ChatPage.Chunk "yo"; ChatPage.Done 2]
              [ChatPage.OtherTab ChatPage.TabReply; ChatPage.DismissPrompt;
               ChatPage.SetInput "more"] 3 Hcount)
    as (_ & Hreq & Hprompt).
  split; [rewrite Hreq; vm_compute; reflexivity|].
  apply Hprompt. vm_compute. reflexivity.
Defined.

(** C9 as stated fails when the stored counter reaches the limit through
    another tab.  The view is mounted on a fresh storage; another tab of
    the page gets its free reply and stores the count 1; the visitor then
    types and submits in this view.  The stored counter is at the limit,
    yet the submit issues a completion call and shows no prompt:
    [handleSend] tests the count the view read at mount. *)
Lemma second_tab_limit_still_fetches :
  limitReached
    (ChatPage.run (ChatPage.mount false ∅)
       [ChatPage.OtherTab ChatPage.TabReply; ChatPage.SetInput "hi"]) /\
  ChatPage.requests
    (ChatPage.run (ChatPage.mount false ∅)
       [ChatPage.OtherTab ChatPage.TabReply; ChatPage.SetInput "hi"]) = [] /\
  ChatPage.requests
    (ChatPage.handleSend 3
       (ChatPage.run (ChatPage.mount false ∅)
          [ChatPage.OtherTab ChatPage.TabReply; ChatPage.SetInput "hi"]))
  = [ChatPage.mkFetch "/api/chat/guest" [Msg.mk user "hi"] "google/gemini-2.0-flash-001"] /\
  ChatPage.showAuthPrompt (ChatPage.view
    (ChatPage.handleSend 3
       (ChatPage.run (ChatPage.mount false ∅)
          [ChatPage.OtherTab ChatPage.TabReply; ChatPage.SetInput "hi"]))) = false.
Proof. repeat split; vm_compute; reflexivity. Qed.

(** A blank submit returns at the input guard: after the free message
    and the dismissal of the prompt, submitting the empty input shows no
    prompt (and issues no call). *)
Example blank_submit_shows_no_prompt :
  countReached
    (ChatPage.run (ChatPage.mount false ∅)
       [ChatPage.SetInput "hi"; ChatPage.Submit 1; ChatPage.Chunk "yo"; ChatPage.Done 2;
        ChatPage.DismissPrompt]) /\
  ChatPage.showAuthPrompt (ChatPage.view
    (ChatPage.handleSend 3
       (ChatPage.run (ChatPage.mount false ∅)
          [ChatPage.SetInput "hi"; ChatPage.Submit 1; ChatPage.Chunk "yo"; ChatPage.Done 2;
           ChatPage.DismissPrompt]))) = false.
Proof. split; vm_compute; reflexivity. Qed.

(** * Further properties of the sources *)

(** ** Configuration *)

Lemma present_Some (a : option string) (s : string) :
  Js.present a = Some s <-> a = Some s /\ s <> "".
Proof.
  unfold Js.present, Js.truthy. destruct a as [t|]; [|split; [discriminate | intros [? _]; discriminate]].
  destruct (String.eqb t "") eqn:Ht; cbn.
  - apply String.eqb_eq in Ht. split; [discriminate|]. intros [[= ->] Hs]. contradiction.
  - apply String.eqb_neq in Ht. split; [intros [= ->]; auto|]. intros [[= ->] _]. reflexivity.
Qed.

Lemma present_None (a : option string) :
  Js.present a = None <-> a = None \/ a = Some "".
Proof.
  unfold Js.present, Js.truthy. destruct a as [t|]; [|tauto].
  destruct (String.eqb t "") eqn:Ht; cbn.
  - apply String.eqb_eq in Ht. subst. tauto.
  - apply String.eqb_neq in Ht. split; [discriminate|]. intros [|[= ->]]; [discriminate|contradiction].
Qed.

Lemma resolve_lookupVar (field : Env.Vars -> option string) (rt : Env.Runtime) :
  Env.resolve field rt = lookupVar field rt.
Proof.
  unfold Env.resolve, lookupVar, Js.nullish.
  destruct (Env.cloudflare rt) as [binding|]; cbn; [|reflexivity].
  now destruct (field binding).
Qed.

Lemma getEnv_inr (rt : Env.Runtime) (env : Env.AuthEnv) :
  Env.getEnv rt = inr env ->
  lookupVar Env.DATABASE_URL rt = Some (Env.env_DATABASE_URL env) /\
  Env.env_DATABASE_URL env <> "".
Proof.
  unfold Env.getEnv. rewrite !resolve_lookupVar.
  destruct (Js.present (lookupVar Env.DATABASE_URL rt)) as [url|] eqn:Hurl; [|discriminate].
  apply present_Some in Hurl as [Hurl Hne].
  destruct (Js.present (lookupVar Env.BETTER_AUTH_SECRET rt)); [|discriminate].
  intros [= <-]. cbn. auto.
Qed.

(** X1.  [getEnv] returns a configuration exactly when the database
    address and the auth secret both resolve to non-empty strings, a
    variable resolving to the binding's value whenever the binding defines
    it and to [process.env]'s otherwise; the configuration returned holds
    the resolved values.  So a variable the binding defines as the empty
    string is not taken from [process.env]: [getEnv] throws. *)
Theorem getEnv_resolution (rt : Env.Runtime) :
  (forall env : Env.AuthEnv,
     Env.getEnv rt = inr env <->
     lookupVar Env.DATABASE_URL rt = Some (Env.env_DATABASE_URL env) /\
     Env.env_DATABASE_URL env <> "" /\
     lookupVar Env.BETTER_AUTH_SECRET rt = Some (Env.env_BETTER_AUTH_SECRET env) /\
     Env.env_BETTER_AUTH_SECRET env <> "" /\
     Env.env_APP_BASE_URL env = lookupVar Env.APP_BASE_URL rt /\
     Env.env_RESEND_API_KEY env = lookupVar Env.RESEND_API_KEY rt /\
     Env.env_RESEND_FROM_EMAIL env = lookupVar Env.RESEND_FROM_EMAIL rt) /\
  (forall binding value,
     Env.cloudflare rt = Some binding ->
     Env.DATABASE_URL binding = Some "" ->
     Env.DATABASE_URL (Env.process_env rt) = Some value ->
     Env.getEnv rt = inl "DATABASE_URL is not configured").
Proof.
  split.
  - intros env. unfold Env.getEnv. rewrite !resolve_lookupVar.
    destruct (Js.present (lookupVar Env.DATABASE_URL rt)) as [url|] eqn:Hurl.
    + apply present_Some in Hurl as [Hurl Hne].
      destruct (Js.present (lookupVar Env.BETTER_AUTH_SECRET rt)) as [secret|] eqn:Hsec.
      * apply present_Some in Hsec as [Hsec Hne'].
        split.
        -- intros [= <-]. cbn. auto 10.
        -- destruct env as [u s a k f]. cbn.
           intros (Hu & _ & Hs & _ & -> & -> & ->). congruence.
      * apply present_None in Hsec. split; [discriminate|].
        intros (_ & _ & Hs & Hne' & _). destruct Hsec as [Hsec|Hsec]; congruence.
    + apply present_None in Hurl. split; [discriminate|].
      intros (Hu & Hne & _). destruct Hurl as [Hurl|Hurl]; congruence.
  - intros binding value Hcf Hempty _. unfold Env.getEnv. rewrite resolve_lookupVar.
    unfold lookupVar. now rewrite Hcf, Hempty.
Qed.

(** X2.  [getAuth] caches by database address.  Once it has returned a
    handle, calling it again in the same runtime returns the same handle
    and changes nothing; the cache then holds that handle under the
    resolved address, and neither the tables nor the trace were touched.
    A cached handle is returned as it is when the address is the cached
    one, whatever else the configuration says now; otherwise a handle is
    built for the resolved address. *)
Theorem getAuth_cached (rt : Env.Runtime) (w w1 : World) (handle : Env.AuthHandle) :
  getAuth rt w = (Returned handle, w1) ->
  getAuth rt w1 = (Returned handle, w1) /\
  cachedAuth w1 = Some handle /\
  lookupVar Env.DATABASE_URL rt = Some (cachedDbUrl w1) /\
  db w1 = db w /\ trace w1 = trace w /\
  (forall cached,
     cachedAuth w = Some cached ->
     lookupVar Env.DATABASE_URL rt = Some (cachedDbUrl w) ->
     handle = cached /\ w1 = w) /\
  (cachedAuth w = None \/ lookupVar Env.DATABASE_URL rt <> Some (cachedDbUrl w) ->
   Env.database handle = cachedDbUrl w1).
Proof.
  unfold getAuth. destruct (Env.getEnv rt) as [e|env] eqn:He; [discriminate|].
  destruct (getEnv_inr rt env He) as [Hurl _].
  destruct (cachedAuth w) as [h0|] eqn:Hc.
  - destruct (String.eqb (cachedDbUrl w) (Env.env_DATABASE_URL env)) eqn:Heq.
    + intros [= <- <-]. rewrite Hc, Heq. apply String.eqb_eq in Heq.
      split; [reflexivity|]. split; [reflexivity|]. split; [congruence|].
      split; [reflexivity|]. split; [reflexivity|]. split.
      * intros cached [= <-] _. auto.
      * intros [Hnone|Hne]; [discriminate | congruence].
    + intros [= <- <-]. cbn. rewrite String.eqb_refl. apply String.eqb_neq in Heq.
      split; [reflexivity|]. split; [reflexivity|]. split; [exact Hurl|].
      split; [reflexivity|]. split; [reflexivity|]. split.
      * intros cached _ Hsame. congruence.
      * reflexivity.
  - intros [= <- <-]. cbn. rewrite String.eqb_refl.
    split; [reflexivity|]. split; [reflexivity|]. split; [exact Hurl|].
    split; [reflexivity|]. split; [reflexivity|]. split.
    + intros cached Hcached. discriminate.
    + reflexivity.
Qed.

(** X2 on the first two calls in the example deployment. *)
Lemma getAuth_cached_witness :
  exists (handle : Env.AuthHandle) (w1 : World),
    getAuth Fixture.rt_demo Fixture.w0 = (Returned handle, w1) /\
    getAuth Fixture.rt_demo w1 = (Returned handle, w1) /\
    Env.database handle = "postgres://db".
Proof.
  eexists _, _. split; [reflexivity|].
  destruct (getAuth_cached Fixture.rt_demo Fixture.w0 _ _ eq_refl)
    as (Hagain & _ & _ & _ & _ & _ & Hbuilt).
  split; [exact Hagain|]. rewrite Hbuilt by (left; reflexivity). reflexivity.
Defined.

(** ** The LLM key and the guest route *)


Lemma remap_id (msgs : list Msg.t) : remap msgs = msgs.
Proof.
  unfold remap. induction msgs as [|[r c] msgs IH]; [reflexivity|].
  cbn. now rewrite IH.
Qed.



(** X4.  In real mode POST /api/chat/guest sends the gateway exactly the
    messages of the request, in order, with the fixed system instruction
    and the model of the body (the default model when the body names
    none), and nothing else happens; reading the body relays every
    fragment as it is, in order, then closes, or ends with the upstream's
    error after the fragments it yielded.  No row is written. *)
Theorem guest_real_mode_relays {platform : Platform} (rt : Env.Runtime)
    (request : Request) (w : World) (msgs : list Msg.t) (key : string) :
  Env.getOpenRouter rt = Some key ->
  messages (requestBody request) = Some msgs ->
  msgs <> [] ->
  exists r : Response,
    ChatGuest.POST rt request w
    = (Returned r,
       record (EvLlm (Js.or_else (model (requestBody request)) (Env.getDefaultModel rt))
                 "You are a helpful assistant." msgs) w) /\
    status r = 200%Z /\
    forall w2 : World,
      deliver (body r) w2
      = match ending (llm (Js.or_else (model (requestBody request)) (Env.getDefaultModel rt))
                        "You are a helpful assistant." msgs) with
        | Completes =>
            (Returned tt,
             log (map EvEnqueue
                    (fragments (llm (Js.or_else (model (requestBody request))
                                       (Env.getDefaultModel rt))
                                  "You are a helpful assistant." msgs))
                  ++ [EvClose])%list w2)
        | Throws e =>
            (Thrown e,
             log (map EvEnqueue
                    (fragments (llm (Js.or_else (model (requestBody request))
                                       (Env.getDefaultModel rt))
                                  "You are a helpful assistant." msgs))) w2)
        end.
Proof.
  intros Hkey Hmsgs Hne. unfold ChatGuest.POST. cbv zeta.
  replace (default [] (messages (requestBody request))) with msgs by now rewrite Hmsgs.
  rewrite Hkey.
  destruct msgs as [|m0 ms] eqn:Hm; [contradiction|]. rewrite <- Hm in *.
  replace (length msgs =? 0)%nat with false by now rewrite Hm.
  rewrite remap_id.
  eexists. split; [reflexivity|]. split; [reflexivity|].
  intros w2. cbn [body toTextStreamResponse deliver source onFinish].
  unfold bind at 1. rewrite relay_run. cbn [fst snd].
  destruct (ending _); [|reflexivity].
  unfold bind, ret, emit, record, log. cbn. now rewrite <- app_assoc.
Qed.

(** X4 in the example deployment with an LLM key. *)
Lemma guest_real_mode_relays_witness :
  exists r : Response,
    fst (ChatGuest.POST (platform := Fixture.streaming) Fixture.rt_real
           (Fixture.request "nobody" [] (Some (mkBody None (Some Fixture.hello) None)))
           Fixture.w0) = Returned r /\
    deliver (body r) Fixture.w0
    = (Returned tt, log [EvEnqueue "Hi"; EvEnqueue " there"; EvClose] Fixture.w0).
Proof.
  destruct (guest_real_mode_relays (platform := Fixture.streaming) Fixture.rt_real
              (Fixture.request "nobody" [] (Some (mkBody None (Some Fixture.hello) None)))
              Fixture.w0 Fixture.hello "sk-or-1" eq_refl eq_refl)
    as (r & Hpost & _ & Hdeliver).
  - discriminate.
  - exists r. rewrite Hpost. split; [reflexivity|]. rewrite Hdeliver. reflexivity.
Defined.

(** ** The ownership filter of the sync proxy *)

Lemma owned_thread_selected (uid : string) (d : Db) (row : Message.t) (t : Thread.t) :
  In t (chat_threads d) ->
  Thread.id t = Message.thread_id row ->
  Thread.user_id t = uid ->
  matches (ownershipFilter (ownedThreadIds uid d)) row = true.
Proof.
  intros Hin Hid Huser.
  assert (Hmem : In (Message.thread_id row) (ownedThreadIds uid d)).
  { unfold ownedThreadIds. apply in_map_iff. exists t. split; [exact Hid|].
    apply filter_In. split; [exact Hin|]. now apply String.eqb_eq. }
  unfold ownershipFilter.
  destruct (ownedThreadIds uid d) as [|i ids] eqn:Hids; [destruct Hmem|].
  cbn [length Nat.ltb Nat.leb matches]. apply existsb_exists.
  exists (Message.thread_id row). split; [exact Hmem | apply Z.eqb_refl].
Qed.

(** X5.  For an authenticated caller the sync proxy for chat messages
    forwards one request whose [where] parameter is a filter that, on
    tables meeting their constraints, selects a row of [chat_messages]
    exactly when the caller owns the row's thread: every message of the
    caller's threads, and no message of anyone else's. *)
Theorem proxy_filter_selects_own_rows {platform : Platform} (rt : Env.Runtime)
    (request : Request) (w w1 : World) (session : option Session) (uid : string) :
  api_getSession rt request w = (Returned session, w1) ->
  session_user_id session = Some uid ->
  db_wf (db w) ->
  exists (r : Response) (w2 : World) (originUrl : Url.URL) (f : RowFilter),
    ChatMessages.serve rt request w = (Returned r, w2) /\
    added w1 w2 [EvExecute ChatMessages.create_chat_threads;
                 EvExecute ChatMessages.create_chat_messages;
                 EvQuery "chat_threads";
                 EvElectric originUrl] /\
    Url.getAll "where" (Url.searchParams originUrl) = [render f] /\
    forall row, In row (chat_messages (db w2)) ->
      (matches f row = true <->
       exists t, In t (chat_threads (db w)) /\
                 Thread.id t = Message.thread_id row /\ Thread.user_id t = uid).
Proof.
  intros Hs Hu Hwf.
  destruct (serve_authenticated rt request w w1 session uid Hs Hu) as (r & w2 & Hserve & Hdb & Hadd).
  exists r, w2, (forwardedUrl request uid (db w)), (ownershipFilter (ownedThreadIds uid (db w))).
  split; [exact Hserve|]. split; [exact Hadd|]. split.
  - unfold forwardedUrl. cbn [Url.setParam Url.searchParams].
    now rewrite getAll_set, whereClause_render.
  - intros row Hrow. rewrite Hdb in Hrow. split.
    + now apply ownership_filter_owned.
    + intros (t & Hin & Hid & Huser). now apply (owned_thread_selected uid (db w) row t).
Qed.

(** X5 for alice, who owns thread 7 and not thread 5. *)
Lemma proxy_filter_selects_own_rows_witness :
  exists (r : Response) (w2 : World) (f : RowFilter),
    ChatMessages.serve (platform := Fixture.quiet) Fixture.rt_demo
      (Fixture.request "alice" [] None) Fixture.w0 = (Returned r, w2) /\
    matches f (Message.mk 2 7 "user" "hello" 111) = true /\
    matches f (Message.mk 1 5 "user" "hi" 101) = false.
Proof.
  assert (Hwf : db_wf (db Fixture.w0)).
  { split; cbn; repeat constructor; cbn; try lia; apply list_elem_of_In; cbn; auto. }
  destruct (proxy_filter_selects_own_rows (platform := Fixture.quiet) Fixture.rt_demo
              (Fixture.request "alice" [] None) Fixture.w0 _ _ "alice" eq_refl eq_refl Hwf)
    as (r & w2 & originUrl & f & Hserve & _ & _ & Hrows).
  exists r, w2, f. split; [exact Hserve|].
  assert (Hdb : db w2 = Fixture.db0).
  { pose proof (f_equal snd Hserve) as Hw2. cbn [snd] in Hw2. rewrite <- Hw2. reflexivity. }
  split.
  - apply Hrows.
    + rewrite Hdb. cbn. auto.
    + exists (Thread.mk 7 "notes" "alice" 110). cbn. auto.
  - destruct (matches f (Message.mk 1 5 "user" "hi" 101)) eqn:Hm; [|reflexivity].
    apply Hrows in Hm.
    + destruct Hm as (t & [<-|[<-|[]]] & Hid & Huser); cbn in *; discriminate.
    + rewrite Hdb. cbn. auto.
Defined.

(** ** The decisions of POST /api/chat/ai *)

Section ChatAiCases.

Context {platform : Platform}.
Variable rt : Env.Runtime.

(** With a configuration, a call ends in one of four ways: no user (401),
    fields refused (400), thread not the caller's (403), or authorized. *)
Lemma POST_cases (env : Env.AuthEnv) (request : Request) (w : World) :
  Env.getEnv rt = inr env ->
  exists w1 : World,
    api_getSession rt request w = (Returned (getSession (headers request)), w1) /\
    ((session_user_id (getSession (headers request)) = None /\
      ChatAi.POST rt request w = (Returned (errorResponse 401 "Unauthorized"), w1)) \/
     (exists uid,
        session_user_id (getSession (headers request)) = Some uid /\
        negb (Js.ToBoolean (Number (threadId (requestBody request))))
          || (length (default [] (messages (requestBody request))) =? 0)%nat = true /\
        ChatAi.POST rt request w
        = (Returned (errorResponse 400 "Missing threadId or messages"), w1)) \/
     (exists uid,
        session_user_id (getSession (headers request)) = Some uid /\
        (forall z w1', ~ authorized rt request w w1' uid z) /\
        ChatAi.POST rt request w
        = (Returned (errorResponse 403 "Forbidden"), record (EvQuery "chat_threads") w1)) \/
     (exists uid z, authorized rt request w w1 uid z)).
Proof.
  intros He. destruct (api_getSession_total rt request w env He) as [w1 Hs].
  exists w1. split; [exact Hs|].
  destruct (api_getSession_inv rt request w w1 _ Hs) as (_ & Hdb & _ & _).
  destruct (session_user_id (getSession (headers request))) as [uid|] eqn:Hu.
  2:{ left. split; [reflexivity|]. unfold ChatAi.POST.
      now rewrite (bind_returned _ _ _ _ _ Hs), Hu. }
  right.
  destruct (negb (Js.ToBoolean (Number (threadId (requestBody request))))
            || (length (default [] (messages (requestBody request))) =? 0)%nat) eqn:Hbad.
  { left. exists uid. split; [reflexivity|]. split; [reflexivity|].
    now apply (POST_400 rt request w w1 _ uid Hs Hu). }
  right. apply orb_false_iff in Hbad as [Hnum Hlen].
  apply negb_false_iff in Hnum.
  destruct (Number (threadId (requestBody request))) as [|z] eqn:Hn; [discriminate|].
  cbn in Hnum. apply negb_true_iff, Z.eqb_neq in Hnum.
  assert (Hmsgs : default [] (messages (requestBody request)) <> []).
  { intros Hnil. rewrite Hnil in Hlen. discriminate. }
  destruct (List.find (fun fields => eq_int (Thread.id fields) (Js.Num z)) (chat_threads (db w)))
    as [t|] eqn:Hfind.
  - destruct (String.eqb (Thread.user_id t) uid) eqn:Howner.
    + right. exists uid, z. apply String.eqb_eq in Howner.
      split; [eauto|]. split; [exact Hn|]. split; [exact Hnum|]. split; [exact Hmsgs|]. eauto.
    + left. exists uid. split; [reflexivity|]. split.
      * intros z' w1' (_ & Hn' & _ & _ & t' & Hfind' & Howner').
        rewrite Hn in Hn'. injection Hn' as <-. rewrite Hfind in Hfind'. injection Hfind' as <-.
        apply String.eqb_neq in Howner. contradiction.
      * unfold ChatAi.POST. rewrite (bind_returned _ _ _ _ _ Hs), Hu. cbv zeta.
        rewrite Hn. cbn [Js.ToBoolean].
        replace (z =? 0)%Z with false by (symmetry; now apply Z.eqb_neq).
        rewrite Hlen. cbn [negb orb].
        rewrite (bind_returned _ _ _ _ _ (findFirst_run _ w1)). cbn [db record].
        now rewrite Hdb, Hfind, Howner.
  - left. exists uid. split; [reflexivity|]. split.
    + intros z' w1' (_ & Hn' & _ & _ & t' & Hfind' & _).
      rewrite Hn in Hn'. injection Hn' as <-. rewrite Hfind in Hfind'. discriminate.
    + unfold ChatAi.POST. rewrite (bind_returned _ _ _ _ _ Hs), Hu. cbv zeta.
      rewrite Hn. cbn [Js.ToBoolean].
      replace (z =? 0)%Z with false by (symmetry; now apply Z.eqb_neq).
      rewrite Hlen. cbn [negb orb].
      rewrite (bind_returned _ _ _ _ _ (findFirst_run _ w1)). cbn [db record].
      now rewrite Hdb, Hfind.
Qed.

End ChatAiCases.

Lemma added_trans (w1 w2 w3 : World) (e1 e2 : list Event) :
  added w1 w2 e1 -> added w2 w3 e2 -> added w1 w3 (e1 ++ e2)%list.
Proof. unfold added. intros H1 H2. now rewrite H2, H1, app_assoc. Qed.

Lemma added_record (e : Event) (w : World) : added w (record e w) [e].
Proof. reflexivity. Qed.

Lemma added_log (evs : list Event) (w : World) : added w (log evs w) evs.
Proof. reflexivity. Qed.

Lemma authorized_inv {platform : Platform} (rt : Env.Runtime) (request : Request)
    (w w1 : World) (uid : string) (z : Z) :
  authorized rt request w w1 uid z ->
  session_user_id (getSession (headers request)) = Some uid /\
  negb (Js.ToBoolean (Number (threadId (requestBody request))))
    || (length (default [] (messages (requestBody request))) =? 0)%nat = false /\
  exists t, In t (chat_threads (db w)) /\ Thread.id t = z /\ Thread.user_id t = uid.
Proof.
  intros ((session & Hs & Hu) & Hnum & Hz & Hmsgs & t & Hfind & Howner).
  destruct (api_getSession_inv rt request w w1 session Hs) as (-> & _).
  split; [exact Hu|]. split.
  - rewrite Hnum. cbn. apply Z.eqb_neq in Hz. rewrite Hz. cbn.
    destruct (default [] (messages (requestBody request))); [contradiction | reflexivity].
  - apply find_some in Hfind as [Hin Hid]. cbn in Hid. apply Z.eqb_eq in Hid. eauto.
Qed.

(** An authorized call returns 200: in demo mode after its one insert, in
    real mode with the stream in hand. *)
Lemma POST_authorized_returns {platform : Platform} (rt : Env.Runtime) (request : Request)
    (w w1 : World) (uid : string) (z : Z) :
  authorized rt request w w1 uid z ->
  exists (r : Response) (w2 : World),
    ChatAi.POST rt request w = (Returned r, w2) /\ status r = 200%Z /\
    ((exists row chunk,
        added w1 w2 [EvQuery "chat_threads"; EvInsert row] /\
        Message.thread_id row = z /\ Message.role row = "assistant" /\
        body r = Stream [chunk]) \/
     (exists model msgs,
        w2 = record (EvLlm model "You are a helpful assistant." msgs)
               (record (EvQuery "chat_threads") w1) /\
        body r = TextStream {| source := llm model "You are a helpful assistant." msgs;
                               onFinish := Some (fun text => insert (Js.Num z) "assistant" text) |})).
Proof.
  intros Hauth. destruct (POST_authorized rt request w w1 uid z Hauth) as (Hdb & Hex & Hpost).
  destruct (Env.getOpenRouter rt) as [key|].
  - eexists _, _. split; [exact Hpost|]. split; [reflexivity|]. right.
    eexists _, _. split; reflexivity.
  - destruct (insert_run z "assistant" (demoReply (default [] (messages (requestBody request))))
                (record (EvQuery "chat_threads") w1))
      as (row & w2 & Hins & Hrow & _ & _ & Hadd).
    { cbn [db record]. now rewrite Hdb. }
    rewrite (bind_returned _ _ _ _ _ Hins) in Hpost.
    eexists _, w2. split; [exact Hpost|]. split; [reflexivity|]. left.
    exists row. eexists. split; [|split; [now rewrite Hrow|split; [now rewrite Hrow|reflexivity]]].
    apply (added_trans w1 (record (EvQuery "chat_threads") w1) w2
             [EvQuery "chat_threads"] [EvInsert row]);
      [apply added_record | exact Hadd].
Qed.




(** ** What POST /api/chat/ai writes *)

Lemma deliver_text (s : string) (w : World) :
  deliver (Text s) w = (Returned tt, log [EvEnqueue s; EvClose] w).
Proof.
  cbn [deliver]. unfold bind, emit, record, log. cbn. now rewrite <- app_assoc.
Qed.

Lemma filter_insert_enqueue (fs : list string) :
  List.filter is_insert (map EvEnqueue fs) = [].
Proof. induction fs as [|f fs IH]; [reflexivity | exact IH]. Qed.

Lemma insert_not_enqueue (row : Message.t) (fs : list string) :
  ~ In (EvInsert row) (map EvEnqueue fs).
Proof. intros Hin. apply in_map_iff in Hin as (f & Hf & _). discriminate. Qed.

(** X7.  Whatever the request, POST /api/chat/ai and the reading of its
    response body write at most one row, an assistant message, and only
    into a thread that the caller of the request owns; in particular a
    request that is not answered 200 writes nothing. *)
Theorem POST_writes_only_own_thread {platform : Platform} (rt : Env.Runtime)
    (env : Env.AuthEnv) (request : Request) (w w2 w3 : World) (r : Response)
    (o : Outcome unit) :
  Env.getEnv rt = inr env ->
  ChatAi.POST rt request w = (Returned r, w2) ->
  deliver (body r) w2 = (o, w3) ->
  exists evs : list Event,
    added w w3 evs /\
    (length (List.filter is_insert evs) <= 1)%nat /\
    (status r <> 200%Z -> List.filter is_insert evs = []) /\
    forall row, In (EvInsert row) evs ->
      Message.role row = "assistant" /\ ownsThread request (db w) (Message.thread_id row).
Proof.
  intros He Hpost Hdel.
  destruct (POST_cases rt env request w He) as (w1 & Hs & Hcases).
  destruct (api_getSession_inv rt request w w1 _ Hs) as (_ & Hdb & Hadd0 & _).
  assert (Hquiet : forall (tail : list Event),
            List.filter is_insert tail = [] ->
            (forall row, ~ In (EvInsert row) tail) ->
            added w1 w3 tail ->
            exists evs : list Event,
              added w w3 evs /\
              (length (List.filter is_insert evs) <= 1)%nat /\
              (status r <> 200%Z -> List.filter is_insert evs = []) /\
              forall row, In (EvInsert row) evs ->
                Message.role row = "assistant" /\
                ownsThread request (db w) (Message.thread_id row)).
  { intros tail Hnone Hnotin Htail.
    exists (EvGetSession (headers request) :: tail).
    split; [exact (added_trans w w1 w3 _ _ Hadd0 Htail)|].
    cbn [List.filter is_insert]. rewrite Hnone. split; [cbn; lia|]. split; [reflexivity|].
    intros row [Hrow|Hrow]; [discriminate | destruct (Hnotin row Hrow)]. }
  destruct Hcases as [[Hu Hp]|[(uid & Hu & Hbad & Hp)|[(uid & Hu & Hnot & Hp)|(uid & z & Hauth)]]].
  - rewrite Hp in Hpost. injection Hpost as <- <-.
    cbn [body errorResponse] in Hdel. rewrite deliver_text in Hdel. injection Hdel as _ <-.
    eapply Hquiet; [| |apply added_log]; [reflexivity|].
    intros row [H|[H|[]]]; discriminate.
  - rewrite Hp in Hpost. injection Hpost as <- <-.
    cbn [body errorResponse] in Hdel. rewrite deliver_text in Hdel. injection Hdel as _ <-.
    eapply Hquiet; [| |apply added_log]; [reflexivity|].
    intros row [H|[H|[]]]; discriminate.
  - rewrite Hp in Hpost. injection Hpost as <- <-.
    cbn [body errorResponse] in Hdel. rewrite deliver_text in Hdel. injection Hdel as _ <-.
    eapply (Hquiet (EvQuery "chat_threads" :: [EvEnqueue _; EvClose])); [reflexivity| |].
    + intros row [H|[H|[H|[]]]]; discriminate.
    + apply (added_trans w1 (record (EvQuery "chat_threads") w1) _ [_] _);
        [apply added_record | apply added_log].
  - pose proof (authorized_inv rt request w w1 uid z Hauth) as (Hu & _ & t & Hin & Hid & Howner).
    assert (Howns : ownsThread request (db w) z) by (exists uid, t; auto).
    destruct (POST_authorized rt request w w1 uid z Hauth) as (_ & Hex & _).
    destruct (POST_authorized_returns rt request w w1 uid z Hauth)
      as (r' & w2' & Hp & Hst & Hmode).
    rewrite Hp in Hpost. injection Hpost as <- <-.
    destruct Hmode as [(row & chunk & Hadd & Htid & Hrole & Hbody)|(model & msgs & Hw2 & Hbody)].
    + rewrite Hbody in Hdel. cbn [deliver relay] in Hdel.
      unfold bind, emit, ret in Hdel. injection Hdel as _ <-.
      exists ([EvGetSession (headers request)]
                ++ [EvQuery "chat_threads"; EvInsert row] ++ [EvEnqueue chunk; EvClose])%list.
      split.
      { apply (added_trans w w1 _ _ _ Hadd0).
        apply (added_trans w1 w2' _ _ _ Hadd).
        unfold added, record. cbn. now rewrite <- app_assoc. }
      split; [cbn; lia|]. split; [intros Hne; contradiction|].
      intros row' [H|[H|[H|[H|[H|[]]]]]]; try discriminate.
      injection H as <-. rewrite Htid. auto.
    + rewrite Hbody in Hdel. cbn [deliver source onFinish] in Hdel.
      rewrite (bind_returned _ _ _ _ _ (relay_run _ "" w2')) in Hdel.
      destruct (ending (llm model "You are a helpful assistant." msgs)) as [|e].
      * destruct (insert_run z "assistant"
                    ("" ++ fold_right String.append ""
                             (fragments (llm model "You are a helpful assistant." msgs)))
                    (log (map EvEnqueue (fragments (llm model "You are a helpful assistant." msgs))) w2'))
          as (row & w' & Hins & Hrow & _ & _ & Hadd).
        { cbn [db log]. rewrite Hw2. cbn [db record]. now rewrite Hdb. }
        rewrite (bind_returned _ _ _ _ _ Hins) in Hdel. cbn [emit] in Hdel.
        injection Hdel as _ <-.
        exists ([EvGetSession (headers request)]
                  ++ [EvQuery "chat_threads"; EvLlm model "You are a helpful assistant." msgs]
                  ++ map EvEnqueue (fragments (llm model "You are a helpful assistant." msgs))
                  ++ [EvInsert row] ++ [EvClose])%list.
        split.
        { apply (added_trans w w1 _ _ _ Hadd0).
          apply (added_trans w1 w2' _ _ _).
          { rewrite Hw2. unfold added, record. cbn. now rewrite <- app_assoc. }
          apply (added_trans w2' _ _ _ _ (added_log _ w2')).
          apply (added_trans _ w' _ _ _ Hadd). apply added_record. }
        split.
        { cbn [app List.filter is_insert]. rewrite List.filter_app, filter_insert_enqueue.
          cbn. lia. }
        split; [intros Hne; contradiction|].
        intros row' Hin'. cbn [app] in Hin'.
        destruct Hin' as [H|[H|[H|H]]]; try discriminate.
        apply in_app_or in H as [H|H]; [destruct (insert_not_enqueue _ _ H)|].
        destruct H as [H|[H|[]]]; [|discriminate].
        injection H as <-. rewrite Hrow. cbn. auto.
      * injection Hdel as _ <-.
        eapply (Hquiet (EvQuery "chat_threads" :: EvLlm model "You are a helpful assistant." msgs
                          :: map EvEnqueue (fragments (llm model "You are a helpful assistant." msgs)))).
        -- cbn [List.filter is_insert]. apply filter_insert_enqueue.
        -- intros row [H|[H|H]]; try discriminate. exact (insert_not_enqueue _ _ H).
        -- rewrite Hw2. unfold added, log, record. cbn. now rewrite <- !app_assoc.
Qed.

(** X7 on alice's demo-mode request to her thread 7. *)
Lemma POST_writes_only_own_thread_witness :
  exists (r : Response) (w2 w3 : World) (o : Outcome unit) (evs : list Event),
    ChatAi.POST (platform := Fixture.quiet) Fixture.rt_demo Fixture.alice_asks Fixture.w0
      = (Returned r, w2) /\
    deliver (body r) w2 = (o, w3) /\
    added Fixture.w0 w3 evs /\
    (length (List.filter is_insert evs) <= 1)%nat.
Proof.
  destruct (ChatAi.POST (platform := Fixture.quiet) Fixture.rt_demo Fixture.alice_asks Fixture.w0)
    as [[r|e] w2] eqn:Hpost; [|vm_compute in Hpost; discriminate].
  destruct (deliver (body r) w2) as [o w3] eqn:Hdel.
  destruct (POST_writes_only_own_thread (platform := Fixture.quiet) Fixture.rt_demo _
              Fixture.alice_asks Fixture.w0 w2 w3 r o eq_refl Hpost Hdel)
    as (evs & Hadd & Hlen & _).
  exists r, w2, w3, o, evs. auto.
Defined.

(** ** The framing of the demo chunk *)






(** ** The one-time code *)

Lemma contains_here (otp after : string) :
  exists before after', otp ++ after = before ++ otp ++ after'.
Proof. exists "", after. reflexivity. Qed.

Lemma contains_later (otp s t : string) :
  (exists before after, t = before ++ otp ++ after) ->
  exists before after, s ++ t = before ++ otp ++ after.
Proof.
  intros (before & after & ->). exists (s ++ before), after. now rewrite append_assoc.
Qed.

Lemma otpHtml_contains (otp : string) :
  exists before after, Otp.otpHtml otp = before ++ otp ++ after.
Proof.
  unfold Otp.otpHtml. cbv zeta.
  repeat (first [apply contains_here | apply contains_later]).
Qed.

(** X9.  For the handle [getAuth] builds, [sendVerificationOTP] hands the
    code to the mail service exactly when [NODE_ENV] is [production] and a
    non-empty Resend key resolves: the mail then goes to the address
    asked for, from the configured sender (or [noreply@example.com]), with
    the code inside its body, and a send error makes the function throw.
    In every other case, production without a key included, no mail is
    sent and the code is printed to the console. *)
Theorem otp_mail_only_in_production_with_key (rt : Env.Runtime) (env : Env.AuthEnv)
    (sendFails : Otp.Mail -> bool) (email otp : string) :
  Env.getEnv rt = inr env ->
  ((Env.NODE_ENV (Env.process_env rt) = Some "production" /\
    exists key, lookupVar Env.RESEND_API_KEY rt = Some key /\ key <> "") ->
   exists mail : Otp.Mail,
     Otp.sendVerificationOTP (Env.betterAuth rt env) sendFails email otp
     = (if sendFails mail
        then Otp.Threw mail "Failed to send verification email"
        else Otp.Sent mail) /\
     Otp.to mail = email /\
     Otp.from mail = default "noreply@example.com" (lookupVar Env.RESEND_FROM_EMAIL rt) /\
     Otp.subject mail = "Your verification code" /\
     exists before after, Otp.html mail = before ++ otp ++ after) /\
  (~ (Env.NODE_ENV (Env.process_env rt) = Some "production" /\
      exists key, lookupVar Env.RESEND_API_KEY rt = Some key /\ key <> "") ->
   Otp.sendVerificationOTP (Env.betterAuth rt env) sendFails email otp
   = Otp.Logged [Otp.lf ++ Otp.repeatEq 50;
                 Otp.lock ++ " OTP CODE for " ++ email;
                 "   Code: " ++ otp;
                 Otp.repeatEq 50 ++ Otp.lf]).
Proof.
  intros He.
  assert (Hkey : Env.env_RESEND_API_KEY env = lookupVar Env.RESEND_API_KEY rt /\
                 Env.env_RESEND_FROM_EMAIL env = lookupVar Env.RESEND_FROM_EMAIL rt).
  { unfold Env.getEnv in He.
    destruct (Js.present (Env.resolve Env.DATABASE_URL rt)); [|discriminate].
    destruct (Js.present (Env.resolve Env.BETTER_AUTH_SECRET rt)); [|discriminate].
    injection He as <-. cbn. now rewrite !resolve_lookupVar. }
  destruct Hkey as [Hkey Hfrom].
  unfold Otp.sendVerificationOTP, Env.betterAuth. cbn [Env.isDev Env.resend Env.fromEmail].
  rewrite Hkey, Hfrom. split.
  - intros [Hprod (key & Hk & Hne)].
    rewrite Hprod, Hk.
    replace (Js.present (Some key)) with (Some key) by (symmetry; apply present_Some; auto).
    rewrite bool_decide_eq_true_2 by reflexivity. cbn [negb].
    eexists. split; [reflexivity|].
    cbn [Otp.to Otp.from Otp.subject Otp.html].
    split; [reflexivity|]. split; [reflexivity|]. split; [reflexivity|].
    apply otpHtml_contains.
  - intros Hnot.
    destruct (bool_decide (Env.NODE_ENV (Env.process_env rt) = Some "production")) eqn:Hprod;
      cbn [negb]; [|reflexivity].
    apply bool_decide_eq_true in Hprod.
    destruct (Js.present (lookupVar Env.RESEND_API_KEY rt)) as [key|] eqn:Hp; [|reflexivity].
    exfalso. apply Hnot. split; [exact Hprod|]. apply present_Some in Hp. eauto.
Qed.

(** X9 in production with a Resend key, and in production without one. *)
Lemma otp_mail_only_in_production_with_key_witness :
  (exists mail : Otp.Mail,
     Otp.sendVerificationOTP
       (Env.betterAuth
          (Env.mkRuntime None
             (Env.mkVars (Some "postgres://db") (Some "s3cret") None (Some "re_1") None None None
                (Some "production")))
          (Env.mkAuthEnv "postgres://db" "s3cret" None (Some "re_1") None))
       (fun _ => false) "ann@example.com" "123456" = Otp.Sent mail /\
     Otp.to mail = "ann@example.com" /\ Otp.from mail = "noreply@example.com") /\
  (exists lines : list string,
     Otp.sendVerificationOTP
       (Env.betterAuth
          (Env.mkRuntime None
             (Env.mkVars (Some "postgres://db") (Some "s3cret") None None None None None
                (Some "production")))
          (Env.mkAuthEnv "postgres://db" "s3cret" None None None))
       (fun _ => false) "ann@example.com" "123456" = Otp.Logged lines /\
     In "   Code: 123456" lines).
Proof.
  split.
  - destruct (otp_mail_only_in_production_with_key
                (Env.mkRuntime None
                   (Env.mkVars (Some "postgres://db") (Some "s3cret") None (Some "re_1") None None None
                      (Some "production")))
                (Env.mkAuthEnv "postgres://db" "s3cret" None (Some "re_1") None)
                (fun _ => false) "ann@example.com" "123456" eq_refl) as [Hmail _].
    destruct Hmail as (mail & Hsend & Hto & Hfrom & _).
    + split; [reflexivity|]. exists "re_1". split; [reflexivity | discriminate].
    + exists mail. split; [exact Hsend|]. split; [exact Hto|]. rewrite Hfrom. reflexivity.
  - destruct (otp_mail_only_in_production_with_key
                (Env.mkRuntime None
                   (Env.mkVars (Some "postgres://db") (Some "s3cret") None None None None None
                      (Some "production")))
                (Env.mkAuthEnv "postgres://db" "s3cret" None None None)
                (fun _ => false) "ann@example.com" "123456" eq_refl) as [_ Hlog].
    eexists. split.
    + apply Hlog. intros [_ (key & Hk & _)]. discriminate.
    + right. right. left. reflexivity.
Defined.

(** ** Preferences in [localStorage] *)

Section Preferences.

Import ChatPage.

Lemma getStoredModel_offered (ls : Storage) : In (getStoredModel ls) AVAILABLE_MODELS.
Proof.
  unfold getStoredModel. destruct (Js.present (ls !! MODEL_STORAGE_KEY)) as [stored|];
    [|cbn; auto].
  destruct (existsb (fun m => String.eqb m stored) AVAILABLE_MODELS) eqn:Hex; [|cbn; auto].
  apply existsb_exists in Hex as (m & Hin & Heq). apply String.eqb_eq in Heq. now subst.
Qed.

Lemma getStoredModel_set (model : string) (ls : Storage) :
  In model AVAILABLE_MODELS -> getStoredModel (setStoredModel model ls) = model.
Proof.
  intros Hin. unfold getStoredModel, setStoredModel. rewrite lookup_insert_eq.
  assert (Hne : model <> "").
  { intros ->. cbn in Hin. destruct Hin as [H|[H|[H|[]]]]; discriminate. }
  replace (Js.present (Some model)) with (Some model) by (symmetry; apply present_Some; auto).
  replace (existsb (fun m => String.eqb m model) AVAILABLE_MODELS) with true; [reflexivity|].
  symmetry. apply existsb_exists. exists model. split; [exact Hin | apply String.eqb_refl].
Qed.

Lemma getStoredDarkMode_set (prefersDark dark : bool) (ls : Storage) :
  getStoredDarkMode prefersDark (setStoredDarkMode dark ls) = dark.
Proof.
  unfold getStoredDarkMode, setStoredDarkMode. rewrite lookup_insert_eq. now destruct dark.
Qed.

(** A reply of this view is counted exactly and stays in the exact
    range: it is only counted while the view's count is below the limit. *)
Lemma increment_restorable (ls : Storage) :
  exactCount (getFreeRequestCount ls) ->
  Js.ge (getFreeRequestCount ls) FREE_REQUEST_LIMIT = false ->
  getFreeRequestCount (snd (incrementFreeRequestCount ls))
  = fst (incrementFreeRequestCount ls) /\
  exactCount (fst (incrementFreeRequestCount ls)).
Proof.
  intros Hexact Hbelow. split; [now apply getFreeRequestCount_increment|].
  unfold incrementFreeRequestCount. cbn [fst].
  destruct (getFreeRequestCount ls) as [|z]; [split; exact I|].
  destruct Hexact as [Hz _]. cbn in Hz, Hbelow |- *. split; cbn; lia.
Qed.

Lemma step_restorable (prefersDark : bool) (p : Page) (a : Action) :
  (forall write, a <> OtherTab write) ->
  (forall model, a = ModelChange model -> In model AVAILABLE_MODELS) ->
  consistent p ->
  restorable prefersDark p -> restorable prefersDark (step p a).
Proof.
  intros Hown Hoffered [_ Hreading] [Hmodel Hdark Hcount Hexact].
  assert (Hkeep : forall key value,
            key <> MODEL_STORAGE_KEY -> key <> DARK_MODE_KEY ->
            getStoredModel (<[key := value]> (localStorage p)) = getStoredModel (localStorage p) /\
            getStoredDarkMode prefersDark (<[key := value]> (localStorage p))
            = getStoredDarkMode prefersDark (localStorage p)).
  { intros key value Hm Hd. unfold getStoredModel, getStoredDarkMode.
    now rewrite !lookup_insert_ne by assumption. }
  destruct a as [text|now|text|now| | |model| |write]; cbn [step].
  - split; assumption.
  - unfold handleSend.
    destruct (negb _ || _); [split; assumption|].
    destruct (Js.ge _ _); split; assumption.
  - unfold onChunk. destruct (accumulated p); split; assumption.
  - unfold onDone. destruct (accumulated p) as [acc|] eqn:Hacc; [|split; assumption].
    assert (Hbelow : Js.ge (getFreeRequestCount (localStorage p)) FREE_REQUEST_LIMIT = false).
    { rewrite <- Hcount. apply Hreading. discriminate. }
    destruct (increment_restorable (localStorage p) Hexact Hbelow) as [Hread Hexact'].
    unfold incrementFreeRequestCount in *. cbn [fst snd] in Hread, Hexact'.
    destruct (Hkeep FREE_REQUEST_KEY
                (Js.toString (Js.add (getFreeRequestCount (localStorage p)) (Js.Num 1))))
      as [Hm Hd]; [discriminate | discriminate |].
    split; cbn [view selectedModel darkMode localStorage freeRequestsUsed];
      [congruence | congruence | now rewrite Hread | now rewrite Hread].
  - unfold onError. destruct (accumulated p); split; assumption.
  - split; assumption.
  - split; cbn [handleModelChange view selectedModel darkMode localStorage].
    + symmetry. apply getStoredModel_set. now apply Hoffered.
    + unfold setStoredModel, getStoredDarkMode. rewrite lookup_insert_ne by discriminate.
      exact Hdark.
    + unfold setStoredModel. now rewrite getFreeRequestCount_other by discriminate.
    + unfold setStoredModel. now rewrite getFreeRequestCount_other by discriminate.
  - split; cbn [toggleDarkMode view selectedModel darkMode localStorage].
    + unfold setStoredDarkMode, getStoredModel. rewrite lookup_insert_ne by discriminate.
      exact Hmodel.
    + symmetry. apply getStoredDarkMode_set.
    + unfold setStoredDarkMode. now rewrite getFreeRequestCount_other by discriminate.
    + unfold setStoredDarkMode. now rewrite getFreeRequestCount_other by discriminate.
  - now destruct (Hown write).
Qed.

Lemma run_restorable (prefersDark : bool) (actions : list Action) (p : Page) :
  singleTab actions ->
  offeredModelsOnly actions ->
  consistent p ->
  restorable prefersDark p -> restorable prefersDark (run p actions).
Proof.
  revert p. induction actions as [|a actions IH]; intros p Hsingle Hoffered Hc Hp; [exact Hp|].
  rewrite run_cons. apply IH.
  - intros write Hin. apply (Hsingle write). now right.
  - intros model Hin. apply Hoffered. now right.
  - now apply step_consistent.
  - apply step_restorable; [| |exact Hc|exact Hp].
    + intros write ->. apply (Hsingle write). now left.
    + intros model ->. apply Hoffered. now left.
Qed.

End Preferences.

(** X10.  The model read from [localStorage] is always one of the offered
    models, whatever the stored value: a missing, empty or unknown value
    gives the first model; and a model of the list that was stored is read
    back as it is. *)
Theorem stored_model_is_offered (ls : gmap string string) :
  In (ChatPage.getStoredModel ls) ChatPage.AVAILABLE_MODELS /\
  (forall stored,
     ls !! ChatPage.MODEL_STORAGE_KEY = Some stored ->
     ~ In stored ChatPage.AVAILABLE_MODELS ->
     ChatPage.getStoredModel ls = "google/gemini-2.0-flash-001") /\
  (ls !! ChatPage.MODEL_STORAGE_KEY = None ->
   ChatPage.getStoredModel ls = "google/gemini-2.0-flash-001") /\
  (forall model,
     In model ChatPage.AVAILABLE_MODELS ->
     ChatPage.getStoredModel (ChatPage.setStoredModel model ls) = model).
Proof.
  split; [apply getStoredModel_offered|]. split; [|split].
  - intros stored Hstored Hnot. unfold ChatPage.getStoredModel. rewrite Hstored.
    destruct (Js.present (Some stored)) as [s|] eqn:Hp; [|reflexivity].
    apply present_Some in Hp as [[= <-] _].
    destruct (existsb _ ChatPage.AVAILABLE_MODELS) eqn:Hex; [|reflexivity].
    apply existsb_exists in Hex as (m & Hin & Heq). apply String.eqb_eq in Heq. subst m.
    contradiction.
  - intros Hnone. unfold ChatPage.getStoredModel. now rewrite Hnone.
  - intros model Hin. now apply getStoredModel_set.
Qed.

(** X11.  Along any use of the guest page in a single tab (no other tab
    writes to the storage), in which the selector only offers its models
    and on a stored count that can be incremented exactly, a reload would
    restore what the page shows: the page mounted again on the storage has
    the same selected model, the same dark mode and the same count of free
    requests used. *)
Theorem reload_restores_page (prefersDark : bool) (ls : gmap string string)
    (actions : list ChatPage.Action) :
  singleTab actions ->
  offeredModelsOnly actions ->
  exactCount (ChatPage.getFreeRequestCount ls) ->
  ChatPage.selectedModel
    (ChatPage.mount prefersDark
       (ChatPage.localStorage (ChatPage.run (ChatPage.mount prefersDark ls) actions)))
  = ChatPage.selectedModel (ChatPage.run (ChatPage.mount prefersDark ls) actions) /\
  ChatPage.darkMode
    (ChatPage.mount prefersDark
       (ChatPage.localStorage (ChatPage.run (ChatPage.mount prefersDark ls) actions)))
  = ChatPage.darkMode (ChatPage.run (ChatPage.mount prefersDark ls) actions) /\
  ChatPage.freeRequestsUsed (ChatPage.view
    (ChatPage.mount prefersDark
       (ChatPage.localStorage (ChatPage.run (ChatPage.mount prefersDark ls) actions))))
  = ChatPage.freeRequestsUsed
      (ChatPage.view (ChatPage.run (ChatPage.mount prefersDark ls) actions)).
Proof.
  intros Hsingle Hoffered Hexact.
  destruct (run_restorable prefersDark actions (ChatPage.mount prefersDark ls)
              Hsingle Hoffered (mount_consistent prefersDark ls))
    as [Hmodel Hdark Hcount _]; [split; [reflexivity | reflexivity | reflexivity | exact Hexact]|].
  cbn [ChatPage.mount ChatPage.selectedModel ChatPage.darkMode ChatPage.view
       ChatPage.freeRequestsUsed].
  now rewrite <- Hmodel, <- Hdark, <- Hcount.
Qed.

(** X11 after a free message, a model change and a switch to dark mode. *)
Lemma reload_restores_page_witness :
  ChatPage.selectedModel
    (ChatPage.mount false
       (ChatPage.localStorage
          (ChatPage.run (ChatPage.mount false ∅)
             [ChatPage.SetInput "hi"; ChatPage.Submit 1; ChatPage.Done 2;
              ChatPage.ModelChange "openai/gpt-4o"; ChatPage.ToggleDarkMode])))
  = "openai/gpt-4o" /\
  ChatPage.darkMode
    (ChatPage.mount false
       (ChatPage.localStorage
          (ChatPage.run (ChatPage.mount false ∅)
             [ChatPage.SetInput "hi"; ChatPage.Submit 1; ChatPage.Done 2;
              ChatPage.ModelChange "openai/gpt-4o"; ChatPage.ToggleDarkMode])))
  = true /\
  ChatPage.freeRequestsUsed
    (ChatPage.view
       (ChatPage.mount false
          (ChatPage.localStorage
             (ChatPage.run (ChatPage.mount false ∅)
                [ChatPage.SetInput "hi"; ChatPage.Submit 1; ChatPage.Done 2;
                 ChatPage.ModelChange "openai/gpt-4o"; ChatPage.ToggleDarkMode]))))
  = Js.Num 1.
Proof.
  destruct (reload_restores_page false ∅
              [ChatPage.SetInput "hi"; ChatPage.Submit 1; ChatPage.Done 2;
               ChatPage.ModelChange "openai/gpt-4o"; ChatPage.ToggleDarkMode])
    as (Hmodel & Hdark & Hcount).
  - intros write [H|[H|[H|[H|[H|[]]]]]]; discriminate.
  - intros model [H|[H|[H|[H|[H|[]]]]]]; try discriminate.
    injection H as <-. cbn. auto.
  - split; vm_compute; discriminate.
  - rewrite Hmodel, Hdark, Hcount. repeat split; vm_compute; reflexivity.
Defined.

(** ** A guest exchange *)

Section GuestExchange.

Import ChatPage.

Lemma concat_cons (x : string) (xs : list string) :
  String.concat "" (x :: xs) = x ++ String.concat "" xs.
Proof.
  destruct xs as [|y ys]; cbn [String.concat]; [now rewrite append_empty | reflexivity].
Qed.

Lemma handleSend_ready (now : Z) (p : Page) :
  ready p ->
  Js.ge (freeRequestsUsed (view p)) FREE_REQUEST_LIMIT = false ->
  handleSend now p
  = {| view := {| input := ""; isLoading := true; streamingContent := "";
                  guestMessages :=
                    (guestMessages (view p)
                       ++ [mkGuestMessage now user (Js.trim (input (view p)))])%list;
                  freeRequestsUsed := freeRequestsUsed (view p);
                  showAuthPrompt := showAuthPrompt (view p) |};
       selectedModel := selectedModel p;
       darkMode := darkMode p;
       localStorage := localStorage p;
       accumulated := Some "";
       requests :=
         (requests p
            ++ [mkFetch "/api/chat/guest"
                  (map (fun m => Msg.mk (role m) (content m)) (guestMessages (view p))
                     ++ [Msg.mk user (Js.trim (input (view p)))])
                  (selectedModel p)])%list |}.
Proof.
  intros (Htext & Hidle & _) Hbelow. unfold handleSend. now rewrite Htext, Hidle, Hbelow.
Qed.

(** Reading chunks changes the text shown and nothing else. *)
Lemma onChunks_reading (chunks : list string) (p : Page) (acc : string) :
  accumulated p = Some acc ->
  accumulated (onChunks chunks p) = Some (acc ++ String.concat "" chunks) /\
  (chunks <> [] ->
   streamingContent (view (onChunks chunks p)) = acc ++ String.concat "" chunks) /\
  (chunks = [] -> streamingContent (view (onChunks chunks p)) = streamingContent (view p)) /\
  input (view (onChunks chunks p)) = input (view p) /\
  isLoading (view (onChunks chunks p)) = isLoading (view p) /\
  guestMessages (view (onChunks chunks p)) = guestMessages (view p) /\
  freeRequestsUsed (view (onChunks chunks p)) = freeRequestsUsed (view p) /\
  showAuthPrompt (view (onChunks chunks p)) = showAuthPrompt (view p) /\
  selectedModel (onChunks chunks p) = selectedModel p /\
  darkMode (onChunks chunks p) = darkMode p /\
  localStorage (onChunks chunks p) = localStorage p /\
  requests (onChunks chunks p) = requests p.
Proof.
  revert p acc. induction chunks as [|chunk chunks IH]; intros p acc Hacc.
  - cbn. rewrite append_empty. repeat split; trivial. congruence.
  - change (onChunks (chunk :: chunks) p) with (onChunks chunks (onChunk chunk p)).
    assert (Hnext : accumulated (onChunk chunk p) = Some (acc ++ chunk)).
    { unfold onChunk. now rewrite Hacc. }
    destruct (IH (onChunk chunk p) (acc ++ chunk) Hnext)
      as (Ha & Hs & Hs0 & Hi & Hl & Hg & Hf & Hp & Hm & Hd & Hls & Hr).
    rewrite concat_cons, <- append_assoc.
    assert (Hshown : streamingContent (view (onChunk chunk p)) = acc ++ chunk).
    { unfold onChunk. now rewrite Hacc. }
    split; [exact Ha|]. split.
    { intros _. destruct chunks as [|c cs].
      - rewrite Hs0 by reflexivity. cbn [String.concat]. now rewrite append_empty.
      - apply Hs. discriminate. }
    split; [discriminate|].
    rewrite Hi, Hl, Hg, Hf, Hp, Hm, Hd, Hls, Hr.
    unfold onChunk. rewrite Hacc. cbn. repeat split; reflexivity.
Qed.

End GuestExchange.

(** X12.  A guest message that is taken up (input not blank, nothing
    being read, the view's count below the limit) and answered, with no
    other tab writing in between and on a stored count that can be
    incremented exactly: the request carries
    the history and the trimmed text with the selected model; while the
    chunks arrive the text shown is their concatenation; at the end the
    message list has grown by the trimmed user message and one assistant
    message holding the concatenation, the text shown is cleared, the view
    is idle and the stored counter has grown by one. *)
Theorem guest_exchange_round_trip (p : ChatPage.Page) (sent received : Z)
    (chunks : list string) :
  ready p ->
  Js.ge (ChatPage.freeRequestsUsed (ChatPage.view p)) ChatPage.FREE_REQUEST_LIMIT = false ->
  exactCount (ChatPage.getFreeRequestCount (ChatPage.localStorage p)) ->
  let text := Js.trim (ChatPage.input (ChatPage.view p)) in
  let reading := onChunks chunks (ChatPage.handleSend sent p) in
  let q := ChatPage.onDone received reading in
  ChatPage.requests q
  = (ChatPage.requests p
       ++ [ChatPage.mkFetch "/api/chat/guest"
             (map (fun m => Msg.mk (ChatPage.role m) (ChatPage.content m))
                  (ChatPage.guestMessages (ChatPage.view p))
                ++ [Msg.mk user text])
             (ChatPage.selectedModel p)])%list /\
  ChatPage.streamingContent (ChatPage.view reading) = String.concat "" chunks /\
  ChatPage.isLoading (ChatPage.view reading) = true /\
  ChatPage.guestMessages (ChatPage.view q)
  = (ChatPage.guestMessages (ChatPage.view p)
       ++ [ChatPage.mkGuestMessage sent user text;
           ChatPage.mkGuestMessage (received + 1) assistant (String.concat "" chunks)])%list /\
  ChatPage.streamingContent (ChatPage.view q) = "" /\
  ChatPage.isLoading (ChatPage.view q) = false /\
  ChatPage.input (ChatPage.view q) = "" /\
  ChatPage.accumulated q = None /\
  ChatPage.getFreeRequestCount (ChatPage.localStorage q)
  = Js.add (ChatPage.getFreeRequestCount (ChatPage.localStorage p)) (Js.Num 1) /\
  ChatPage.freeRequestsUsed (ChatPage.view q)
  = Js.add (ChatPage.getFreeRequestCount (ChatPage.localStorage p)) (Js.Num 1).
Proof.
  intros Hready Hbelow Hexact text reading q.
  pose proof (handleSend_ready sent p Hready Hbelow) as Hsend.
  assert (Hacc : ChatPage.accumulated (ChatPage.handleSend sent p) = Some "")
    by now rewrite Hsend.
  destruct (onChunks_reading chunks _ "" Hacc)
    as (Ha & Hs & Hs0 & Hi & Hl & Hg & Hf & Hp & Hm & Hd & Hls & Hr).
  fold reading in Ha, Hs, Hs0, Hi, Hl, Hg, Hf, Hp, Hm, Hd, Hls, Hr.
  change ("" ++ String.concat "" chunks) with (String.concat "" chunks) in Ha, Hs.
  assert (Hq : q = ChatPage.onDone received reading) by reflexivity.
  unfold ChatPage.onDone in Hq. rewrite Ha in Hq.
  assert (Hshown : ChatPage.streamingContent (ChatPage.view reading) = String.concat "" chunks).
  { destruct chunks as [|c cs].
    - rewrite Hs0 by reflexivity. now rewrite Hsend.
    - apply Hs. discriminate. }
  rewrite Hq. cbn.
  rewrite Hr, Hg, Hi, Hl, Hls, Hsend. cbn.
  rewrite <- app_assoc. cbn.
  pose proof (getFreeRequestCount_increment (ChatPage.localStorage p) Hexact) as Hinc.
  unfold ChatPage.incrementFreeRequestCount in Hinc. cbn [fst snd] in Hinc.
  repeat split; trivial.
Qed.

(** X12 on the first message of a fresh guest, answered in two chunks. *)
Lemma guest_exchange_round_trip_witness :
  ChatPage.guestMessages
    (ChatPage.view
       (ChatPage.onDone 20
          (onChunks ["Hel"; "lo"]
             (ChatPage.handleSend 10 (ChatPage.setInput " hi " (ChatPage.mount false ∅))))))
  = [ChatPage.mkGuestMessage 10 user "hi"; ChatPage.mkGuestMessage 21 assistant "Hello"] /\
  ChatPage.getFreeRequestCount
    (ChatPage.localStorage
       (ChatPage.onDone 20
          (onChunks ["Hel"; "lo"]
             (ChatPage.handleSend 10 (ChatPage.setInput " hi " (ChatPage.mount false ∅))))))
  = Js.Num 1.
Proof.
  destruct (guest_exchange_round_trip
              (ChatPage.setInput " hi " (ChatPage.mount false ∅)) 10 20 ["Hel"; "lo"])
    as (_ & _ & _ & Hmessages & _ & _ & _ & _ & Hcount & _).
  - repeat split; vm_compute; reflexivity.
  - vm_compute; reflexivity.
  - split; vm_compute; discriminate.
  - split; [exact Hmessages | exact Hcount].
Defined.

(** X13.  A guest request that fails (the fetch rejects, the response is
    not ok or a read fails after some chunks) does not use up the free
    message: the stored counter, the counter shown and the prompt are as
    before, the partial text is dropped and the view is idle.  The user
    message stays in the list without an answer, so the next message is
    sent with both user messages in its history. *)
Theorem failed_request_keeps_free_message (p : ChatPage.Page) (sent again : Z)
    (chunks : list string) (retry : string) :
  ready p ->
  Js.ge (ChatPage.freeRequestsUsed (ChatPage.view p)) ChatPage.FREE_REQUEST_LIMIT = false ->
  Js.truthy (Js.trim retry) = true ->
  let text := Js.trim (ChatPage.input (ChatPage.view p)) in
  let q := ChatPage.onError (onChunks chunks (ChatPage.handleSend sent p)) in
  ChatPage.localStorage q = ChatPage.localStorage p /\
  ChatPage.freeRequestsUsed (ChatPage.view q) = ChatPage.freeRequestsUsed (ChatPage.view p) /\
  ChatPage.showAuthPrompt (ChatPage.view q) = ChatPage.showAuthPrompt (ChatPage.view p) /\
  ChatPage.streamingContent (ChatPage.view q) = "" /\
  ChatPage.isLoading (ChatPage.view q) = false /\
  ChatPage.guestMessages (ChatPage.view q)
  = (ChatPage.guestMessages (ChatPage.view p) ++ [ChatPage.mkGuestMessage sent user text])%list /\
  ChatPage.requests (ChatPage.handleSend again (ChatPage.setInput retry q))
  = (ChatPage.requests q
       ++ [ChatPage.mkFetch "/api/chat/guest"
             (map (fun m => Msg.mk (ChatPage.role m) (ChatPage.content m))
                  (ChatPage.guestMessages (ChatPage.view p))
                ++ [Msg.mk user text; Msg.mk user (Js.trim retry)])
             (ChatPage.selectedModel p)])%list.
Proof.
  intros Hready Hbelow Hretry text q.
  pose proof (handleSend_ready sent p Hready Hbelow) as Hsend.
  assert (Hacc : ChatPage.accumulated (ChatPage.handleSend sent p) = Some "")
    by now rewrite Hsend.
  destruct (onChunks_reading chunks _ "" Hacc)
    as (Ha & _ & _ & Hi & Hl & Hg & Hf & Hp & Hm & Hd & Hls & Hr).
  assert (Hq : q = ChatPage.onError (onChunks chunks (ChatPage.handleSend sent p)))
    by reflexivity.
  unfold ChatPage.onError in Hq. rewrite Ha in Hq.
  rewrite Hi, Hg, Hf, Hp, Hm, Hd, Hls, Hr, Hsend in Hq. cbn in Hq.
  assert (Hagain : ready (ChatPage.setInput retry q)).
  { rewrite Hq. repeat split; trivial. }
  rewrite (handleSend_ready again _ Hagain) by (rewrite Hq; exact Hbelow).
  rewrite Hq. cbn. rewrite map_app. cbn.
  rewrite <- (app_assoc (map _ (ChatPage.guestMessages (ChatPage.view p)))). cbn.
  repeat split; reflexivity.
Qed.

(** X13 when the first request of a fresh guest fails after one chunk. *)
Lemma failed_request_keeps_free_message_witness :
  ChatPage.getFreeRequestCount
    (ChatPage.localStorage
       (ChatPage.onError
          (onChunks ["Hel"]
             (ChatPage.handleSend 10 (ChatPage.setInput "hi" (ChatPage.mount false ∅))))))
  = Js.Num 0 /\
  length
    (ChatPage.requests
       (ChatPage.handleSend 30
          (ChatPage.setInput "again"
             (ChatPage.onError
                (onChunks ["Hel"]
                   (ChatPage.handleSend 10
                      (ChatPage.setInput "hi" (ChatPage.mount false ∅))))))))
  = 2%nat.
Proof.
  destruct (failed_request_keeps_free_message
              (ChatPage.setInput "hi" (ChatPage.mount false ∅)) 10 30 ["Hel"] "again")
    as (Hstorage & _ & _ & _ & _ & _ & Hrequests).
  - repeat split; vm_compute; reflexivity.
  - vm_compute; reflexivity.
  - vm_compute; reflexivity.
  - rewrite Hstorage, Hrequests. split; vm_compute; reflexivity.
Defined.

(** ** The counter of free requests along a visit *)

Section FreeRequests.

Import ChatPage.

Lemma tabReplies_cons (a : Action) (actions : list Action) :
  tabReplies (a :: actions)
  = ((match a with OtherTab TabReply => 1 | _ => 0 end) + tabReplies actions)%nat.
Proof. unfold tabReplies. cbn [List.filter]. now destruct a as [| | | | | | | |[| |]]. Qed.

Lemma step_counted (c0 : Z) (k : nat) (p : Page) (a : Action) :
  (0 <= c0)%Z ->
  (c0 + Z.of_nat k + Z.of_nat (tabReplies [a]) < 2 ^ 53)%Z ->
  consistent p -> counted c0 k p -> counted c0 (k + tabReplies [a]) (step p a).
Proof.
  intros Hpos Hroom [Hloading Hreading] [Hcount Hbound].
  assert (Hsame : forall q : Page,
            guestMessages (view q) = guestMessages (view p) ->
            freeRequestsUsed (view q) = freeRequestsUsed (view p) ->
            getFreeRequestCount (localStorage q) = getFreeRequestCount (localStorage p) ->
            counted c0 (k + 0) q).
  { intros q Hmsgs Hcell Hstored. rewrite Nat.add_0_r.
    split; unfold replyCount, countReached in *; rewrite ?Hmsgs, ?Hcell, ?Hstored; assumption. }
  destruct a as [text|now|text|now| | |model| |write]; cbn [step];
    try (apply Hsame; reflexivity).
  - unfold handleSend.
    destruct (negb _ || _); [now apply Hsame|].
    destruct (Js.ge _ _); [now apply Hsame|].
    rewrite Nat.add_0_r.
    split; unfold replyCount, countReached in *; cbn [view guestMessages localStorage
                                                        freeRequestsUsed];
      rewrite List.filter_app, List.length_app; cbn [List.filter role length];
      rewrite Nat.add_0_r; assumption.
  - unfold onChunk. destruct (accumulated p); now apply Hsame.
  - unfold onDone. destruct (accumulated p) as [acc|] eqn:Hacc; [|now apply Hsame].
    assert (Hbelow : Js.ge (freeRequestsUsed (view p)) FREE_REQUEST_LIMIT = false)
      by (apply Hreading; discriminate).
    destruct Hbound as [[Hnone Hcell]|(_ & _ & Hreached)];
      [|unfold countReached in Hreached; congruence].
    rewrite Hcell in Hbelow. cbn in Hbelow.
    assert (Hfresh : c0 = 0%Z) by lia. subst c0.
    rewrite Hnone in Hcount. cbn [Z.of_nat] in Hcount.
    assert (Hexact : exactCount (getFreeRequestCount (localStorage p))).
    { rewrite Hcount. cbn [tabReplies List.filter length Z.of_nat] in Hroom.
      split; cbn; lia. }
    pose proof (getFreeRequestCount_increment (localStorage p) Hexact) as Hinc.
    unfold incrementFreeRequestCount in *. cbn [fst snd] in Hinc.
    rewrite Nat.add_0_r.
    split; unfold replyCount, countReached in *;
      cbn [view guestMessages localStorage freeRequestsUsed];
      rewrite List.filter_app, List.length_app; cbn [List.filter role length];
      rewrite Hnone.
    + rewrite Hinc, Hcount. cbn [Js.add]. f_equal. lia.
    + right. split; [reflexivity|]. split; [reflexivity|].
      rewrite Hcount. unfold FREE_REQUEST_LIMIT. cbn [Js.add Js.ge].
      apply Z.leb_le. lia.
  - unfold onError. destruct (accumulated p); now apply Hsame.
  - apply Hsame; try reflexivity.
    cbn [handleModelChange localStorage]. unfold setStoredModel.
    now rewrite getFreeRequestCount_other by discriminate.
  - apply Hsame; try reflexivity.
    cbn [toggleDarkMode localStorage]. unfold setStoredDarkMode.
    now rewrite getFreeRequestCount_other by discriminate.
  - destruct write as [|model|dark].
    + assert (Hexact : exactCount (getFreeRequestCount (localStorage p))).
      { rewrite Hcount. cbn [tabReplies List.filter length] in Hroom.
        assert (replyCount p <= 1)%nat by (destruct Hbound as [[-> _]|[-> _]]; lia).
        split; cbn; lia. }
      pose proof (getFreeRequestCount_increment (localStorage p) Hexact) as Hinc.
      unfold incrementFreeRequestCount in *. cbn [fst snd] in Hinc.
      split; unfold replyCount, countReached in *;
        cbn [otherTab view guestMessages localStorage freeRequestsUsed];
        [|exact Hbound].
      unfold incrementFreeRequestCount. cbn [snd].
      rewrite Hinc, Hcount. cbn [Js.add tabReplies List.filter length]. f_equal. lia.
    + apply Hsame; try reflexivity.
      cbn [otherTab localStorage]. unfold setStoredModel.
      now rewrite getFreeRequestCount_other by discriminate.
    + apply Hsame; try reflexivity.
      cbn [otherTab localStorage]. unfold setStoredDarkMode.
      now rewrite getFreeRequestCount_other by discriminate.
Qed.

Lemma run_counted (c0 : Z) (actions : list Action) (k : nat) (p : Page) :
  (0 <= c0)%Z ->
  (c0 + Z.of_nat k + Z.of_nat (tabReplies actions) < 2 ^ 53)%Z ->
  consistent p -> counted c0 k p -> counted c0 (k + tabReplies actions) (run p actions).
Proof.
  intros Hpos. revert k p.
  induction actions as [|a actions IH]; intros k p Hroom Hp Hc.
  - cbn. now rewrite Nat.add_0_r.
  - rewrite run_cons, tabReplies_cons in *.
    assert (Hone : tabReplies [a] = match a with OtherTab TabReply => 1%nat | _ => 0%nat end)
      by (rewrite tabReplies_cons; unfold tabReplies; cbn; lia).
    rewrite Nat.add_assoc, <- Hone. apply IH.
    + rewrite Hone. lia.
    + now apply step_consistent.
    + apply step_counted; [exact Hpos | rewrite Hone; lia | exact Hp | exact Hc].
Qed.

Lemma step_unlimited (p : Page) (a : Action) : unlimited p -> unlimited (step p a).
Proof.
  intros [Hstored Hshown Hprompt].
  assert (Hnan : getFreeRequestCount (snd (incrementFreeRequestCount (localStorage p)))
                 = Js.NaN).
  { rewrite getFreeRequestCount_increment by (rewrite Hstored; split; exact I).
    unfold incrementFreeRequestCount. cbn [fst]. now rewrite Hstored. }
  destruct a as [text|now|text|now| | |model| |write]; cbn [step].
  - split; assumption.
  - unfold handleSend.
    destruct (negb _ || _); [split; assumption|].
    rewrite Hshown. cbn [Js.ge]. split; first [assumption | reflexivity].
  - unfold onChunk. destruct (accumulated p); split; assumption.
  - unfold onDone. destruct (accumulated p) as [acc|]; [|split; assumption].
    unfold incrementFreeRequestCount in *. cbn [fst snd] in Hnan.
    rewrite Hstored in *. cbn [Js.add] in *.
    split; cbn [view localStorage freeRequestsUsed showAuthPrompt Js.ge];
      [exact Hnan | reflexivity | exact Hprompt].
  - unfold onError. destruct (accumulated p); split; assumption.
  - split; [exact Hstored | exact Hshown | reflexivity].
  - split; [|exact Hshown | exact Hprompt].
    cbn [handleModelChange localStorage]. unfold setStoredModel.
    rewrite getFreeRequestCount_other by discriminate. exact Hstored.
  - split; [|exact Hshown | exact Hprompt].
    cbn [toggleDarkMode localStorage]. unfold setStoredDarkMode.
    rewrite getFreeRequestCount_other by discriminate. exact Hstored.
  - split; [|exact Hshown | exact Hprompt].
    cbn [otherTab localStorage]. destruct write as [|model|dark].
    + exact Hnan.
    + unfold setStoredModel. rewrite getFreeRequestCount_other by discriminate. exact Hstored.
    + unfold setStoredDarkMode. rewrite getFreeRequestCount_other by discriminate.
      exact Hstored.
Qed.

Lemma run_unlimited (actions : list Action) (p : Page) :
  unlimited p -> unlimited (run p actions).
Proof.
  revert p. induction actions as [|a actions IH]; intros p Hp; [exact Hp|].
  rewrite run_cons. apply IH. now apply step_unlimited.
Qed.

End FreeRequests.

(** X14.  Whatever the guest does after the page is mounted on a storage
    whose counter reads [c0 >= 0], and whatever replies other tabs count
    in the shared storage meanwhile (the counts staying below 2^53), the
    stored counter is [c0] plus the assistant replies this view committed
    plus the replies the other tabs counted; and this view commits a reply
    only on a fresh counter and only once: requests that fail or are still
    being read count for nothing. *)
Theorem guest_replies_bounded (prefersDark : bool) (ls : gmap string string) (c0 : Z)
    (actions : list ChatPage.Action) :
  ChatPage.getFreeRequestCount ls = Js.Num c0 ->
  (0 <= c0)%Z ->
  (c0 + Z.of_nat (tabReplies actions) < 2 ^ 53)%Z ->
  let q := ChatPage.run (ChatPage.mount prefersDark ls) actions in
  ChatPage.getFreeRequestCount (ChatPage.localStorage q)
  = Js.Num (c0 + Z.of_nat (replyCount q) + Z.of_nat (tabReplies actions)) /\
  (replyCount q = 0%nat \/ (c0 = 0%Z /\ replyCount q = 1%nat)).
Proof.
  intros Hc0 Hpos Hroom q.
  destruct (run_counted c0 actions 0 (ChatPage.mount prefersDark ls) Hpos)
    as [Hcount Hbound].
  - cbn [Z.of_nat]. lia.
  - apply mount_consistent.
  - split; cbn; [rewrite Hc0; f_equal; lia | left; split; [reflexivity | exact Hc0]].
  - fold q in Hcount, Hbound. cbn [Nat.add] in Hcount. split; [exact Hcount|].
    destruct Hbound as [[Hnone _]|(Hone & Hfresh & _)]; [now left | now right].
Qed.

(** X14 on a fresh guest whose first request fails and whose second is
    answered after another tab counted its own reply. *)
Lemma guest_replies_bounded_witness :
  ChatPage.getFreeRequestCount
    (ChatPage.localStorage
       (ChatPage.run (ChatPage.mount false ∅)
          [ChatPage.SetInput "hi"; ChatPage.Submit 1; ChatPage.Failed;
           ChatPage.SetInput "hi"; ChatPage.Submit 2; ChatPage.Chunk "Hello";
           ChatPage.OtherTab ChatPage.TabReply;
           ChatPage.Done 3; ChatPage.DismissPrompt;
           ChatPage.SetInput "more"; ChatPage.Submit 4; ChatPage.Done 5]))
  = Js.Num 2.
Proof.
  destruct (guest_replies_bounded false ∅ 0
              [ChatPage.SetInput "hi"; ChatPage.Submit 1; ChatPage.Failed;
               ChatPage.SetInput "hi"; ChatPage.Submit 2; ChatPage.Chunk "Hello";
               ChatPage.OtherTab ChatPage.TabReply;
               ChatPage.Done 3; ChatPage.DismissPrompt;
               ChatPage.SetInput "more"; ChatPage.Submit 4; ChatPage.Done 5])
    as [Hcount _].
  - vm_compute; reflexivity.
  - lia.
  - vm_compute; reflexivity.
  - rewrite Hcount. vm_compute. reflexivity.
Defined.

(** X15.  When the stored counter does not read as a number ([parseInt]
    gives [NaN]), the limit is off for the whole visit: the counter stays
    [NaN] through every increment, the limit is never reached, the sign-in
    prompt is never shown, and every submit of a non-blank input on an idle
    view issues a request. *)
Theorem corrupt_counter_never_limits (prefersDark : bool) (ls : gmap string string)
    (actions : list ChatPage.Action) (now : Z) :
  ChatPage.getFreeRequestCount ls = Js.NaN ->
  let q := ChatPage.run (ChatPage.mount prefersDark ls) actions in
  ChatPage.getFreeRequestCount (ChatPage.localStorage q) = Js.NaN /\
  ~ limitReached q /\
  ChatPage.showAuthPrompt (ChatPage.view q) = false /\
  (ready q ->
   length (ChatPage.requests (ChatPage.handleSend now q))
   = S (length (ChatPage.requests q))).
Proof.
  intros Hnan q.
  destruct (run_unlimited actions (ChatPage.mount prefersDark ls)) as [Hstored Hshown Hprompt].
  { split; cbn; [exact Hnan | exact Hnan | reflexivity]. }
  fold q in Hstored, Hshown, Hprompt.
  split; [exact Hstored|]. split; [|split; [exact Hprompt|]].
  - unfold limitReached. rewrite Hstored. discriminate.
  - intros Hready. rewrite (handleSend_ready now q Hready) by now rewrite Hshown.
    cbn [ChatPage.requests]. rewrite List.length_app. cbn. lia.
Qed.

(** X15 on a counter overwritten with a word: a second message goes out
    after an answered first one. *)
Lemma corrupt_counter_never_limits_witness :
  length
    (ChatPage.requests
       (ChatPage.handleSend 4
          (ChatPage.run (ChatPage.mount false {[ "gen_chat_free_requests" := "none" ]})
             [ChatPage.SetInput "hi"; ChatPage.Submit 1; ChatPage.Done 2;
              ChatPage.SetInput "more"])))
  = 2%nat.
Proof.
  destruct (corrupt_counter_never_limits false {[ "gen_chat_free_requests" := "none" ]}
              [ChatPage.SetInput "hi"; ChatPage.Submit 1; ChatPage.Done 2;
               ChatPage.SetInput "more"] 4)
    as (_ & _ & _ & Hsend).
  - vm_compute; reflexivity.
  - rewrite Hsend; [vm_compute; reflexivity|].
    repeat split; vm_compute; reflexivity.
Defined.

(** ** The signed-in view *)

Section Threads.

Import AuthChat.

Lemma insertBy_perm {A : Type} (compare : A -> A -> Z) (x : A) (l : list A) :
  Permutation (x :: l) (insertBy compare x l).
Proof.
  induction l as [|y l IH]; cbn [insertBy]; [reflexivity|].
  destruct (compare x y <=? 0)%Z; [reflexivity|].
  etransitivity; [apply perm_swap|]. now apply perm_skip.
Qed.

Lemma sort_perm {A : Type} (compare : A -> A -> Z) (l : list A) :
  Permutation l (sort compare l).
Proof.
  induction l as [|x l IH]; cbn; [reflexivity|].
  etransitivity; [apply perm_skip, IH|]. apply insertBy_perm.
Qed.

Lemma insertBy_newest_first (x : Thread.t) (l : list Thread.t) :
  StronglySorted (fun a b => (Thread.id b <= Thread.id a)%Z) l ->
  StronglySorted (fun a b => (Thread.id b <= Thread.id a)%Z)
    (insertBy (fun a b => (Thread.id b - Thread.id a)%Z) x l).
Proof.
  induction 1 as [|y l Hsorted IH Hall]; cbn [insertBy].
  - constructor; [constructor | constructor].
  - destruct (Thread.id y - Thread.id x <=? 0)%Z eqn:Hcmp.
    + constructor; [now constructor|].
      constructor; [lia|].
      eapply Forall_impl; [exact Hall|]. cbn. intros z Hz. lia.
    + constructor; [exact IH|].
      apply List.Forall_forall. intros z Hz.
      apply (Permutation_in _ (Permutation_sym (insertBy_perm _ x l))) in Hz.
      destruct Hz as [<-|Hz]; [lia|].
      rewrite List.Forall_forall in Hall. now apply Hall.
Qed.

Lemma sortedThreads_newest_first (threads : list Thread.t) :
  StronglySorted (fun a b => (Thread.id b <= Thread.id a)%Z) (sortedThreads threads).
Proof.
  unfold sortedThreads, sort.
  induction threads as [|x l IH]; cbn [fold_right]; [constructor|].
  now apply insertBy_newest_first.
Qed.

(** The [k]-th text shown while reading is the concatenation of the
    chunks read so far. *)
Lemma frames_lookup (chunks : list string) (accumulated : string) (k : nat) (s : string) :
  frames accumulated chunks !! k = Some s ->
  s = accumulated ++ String.concat "" (take (S k) chunks).
Proof.
  revert accumulated k. induction chunks as [|chunk chunks IH]; intros acc k Hk;
    [discriminate|].
  cbn [frames] in Hk. destruct k as [|k].
  - injection Hk as <-. cbn [take]. now rewrite concat_cons, append_empty.
  - apply IH in Hk. rewrite Hk. cbn [take]. rewrite (concat_cons chunk).
    now rewrite append_assoc.
Qed.

(** On a text that is not empty the title is its first 40 characters:
    the fallback is not used. *)
Lemma threadTitle_text (text : string) :
  Js.truthy text = true ->
  threadTitle text = String.substring 0 40 text /\ threadTitle text <> "".
Proof.
  destruct text as [|c rest]; [discriminate|]. intros _.
  unfold threadTitle, Js.or_else.
  change (String.substring 0 40 (String c rest)) with (String c (String.substring 0 39 rest)).
  split; [reflexivity | discriminate].
Qed.

End Threads.

(** X16.  The thread list of the signed-in view holds the same threads
    as the synced collection, newest id first; when no thread is active
    the view opens the thread with the greatest id, it never replaces a
    thread that is active, and it opens none while the collection is
    empty. *)
Theorem newest_thread_selected (threads : list Thread.t) :
  Permutation threads (AuthChat.sortedThreads threads) /\
  StronglySorted (fun a b => (Thread.id b <= Thread.id a)%Z) (AuthChat.sortedThreads threads) /\
  (forall active, AuthChat.autoSelect (Some active) threads = Some active) /\
  (threads = [] -> AuthChat.autoSelect None threads = None) /\
  (threads <> [] ->
   exists t,
     In t threads /\
     AuthChat.autoSelect None threads = Some (Thread.id t) /\
     forall t', In t' threads -> (Thread.id t' <= Thread.id t)%Z).
Proof.
  pose proof (sort_perm (fun a b => (Thread.id b - Thread.id a)%Z) threads) as Hperm.
  pose proof (sortedThreads_newest_first threads) as Hsorted.
  fold (AuthChat.sortedThreads threads) in Hperm.
  split; [exact Hperm|]. split; [exact Hsorted|]. split; [reflexivity|]. split.
  - intros ->. reflexivity.
  - intros Hne. unfold AuthChat.autoSelect.
    destruct (AuthChat.sortedThreads threads) as [|first rest] eqn:Hlist.
    + apply Permutation_sym, Permutation_nil in Hperm. contradiction.
    + exists first. split; [|split; [reflexivity|]].
      * apply (Permutation_in _ (Permutation_sym Hperm)). now left.
      * intros t' Hin. apply (Permutation_in _ Hperm) in Hin.
        apply StronglySorted_inv in Hsorted as [_ Hall].
        destruct Hin as [<-|Hin]; [lia|].
        rewrite List.Forall_forall in Hall. now apply Hall.
Qed.

(** X17.  A send of the signed-in view that is taken up (input not
    blank, not loading): whatever the server answers, the view ends idle
    with the input and the streamed text cleared.  A completion is only
    requested straight after the user message was saved in the same
    thread, the thread the view ends on, and it carries the synced
    messages followed by the trimmed text, with the selected model.  A
    thread is only created when none is active, as the first call, titled
    with the first 40 characters of the text (the fallback title is never
    used).  Each text shown while reading is the concatenation of the
    chunks read so far. *)
Theorem auth_send_saves_before_asking (dbMessages : list Message.t) (selectedModel : string)
    (replies : AuthChat.Replies) (v : AuthChat.View) :
  Js.truthy (Js.trim (AuthChat.input v)) = true ->
  AuthChat.isLoading v = false ->
  let text := Js.trim (AuthChat.input v) in
  let calls := fst (fst (AuthChat.handleSend dbMessages selectedModel replies v)) in
  let shown := snd (fst (AuthChat.handleSend dbMessages selectedModel replies v)) in
  let v' := snd (AuthChat.handleSend dbMessages selectedModel replies v) in
  (AuthChat.input v' = "" /\ AuthChat.isLoading v' = false /\
   AuthChat.streamingContent v' = "") /\
  (forall threadId messages model,
     In (AuthChat.Complete threadId messages model) calls ->
     (exists before,
        calls = (before ++ [AuthChat.AddMessage threadId "user" text;
                            AuthChat.Complete threadId messages model])%list) /\
     messages
     = (map (fun m => (Message.role m, Message.content m)) dbMessages
          ++ [("user", text)])%list /\
     model = selectedModel /\
     AuthChat.added replies = true /\
     AuthChat.activeThreadId v' = Some threadId) /\
  (forall title,
     In (AuthChat.CreateThread title) calls ->
     AuthChat.noThread (AuthChat.activeThreadId v) = true /\
     title = String.substring 0 40 text /\
     title <> "" /\
     hd_error calls = Some (AuthChat.CreateThread title)) /\
  (forall k s,
     shown !! k = Some s ->
     exists chunks ended,
       AuthChat.completion replies = Some (chunks, ended) /\
       s = String.concat "" (take (S k) chunks)).
Proof.
  intros Htext Hidle text calls shown v'.
  destruct (threadTitle_text text Htext) as [Htitle Hnonempty].
  subst calls shown v'. unfold AuthChat.handleSend. rewrite Htext, Hidle. cbn [negb orb].
  fold text. unfold AuthChat.sendIn.
  destruct (AuthChat.activeThreadId v) as [z|] eqn:Hactive; cbn [AuthChat.noThread default];
    [destruct (z =? 0)%Z eqn:Hz|];
    try destruct (AuthChat.created replies) as [id|];
    destruct (AuthChat.added replies);
    try destruct (AuthChat.completion replies) as [[chunks ended]|];
    cbn [fst snd AuthChat.settled AuthChat.input AuthChat.isLoading
         AuthChat.streamingContent AuthChat.activeThreadId hd_error];
    (split; [repeat split|]);
    (split;
     [intros threadId messages model Hin;
      repeat (destruct Hin as [Hin|Hin]; [try discriminate Hin|]); try contradiction;
      injection Hin as <- <- <-;
      repeat split; trivial;
      first [now exists [] | now eexists [_]]
     |]);
    (split;
     [intros title Hin;
      repeat (destruct Hin as [Hin|Hin]; [try discriminate Hin|]); try contradiction;
      injection Hin as <-; repeat split; trivial
     |]);
    intros k s Hk; try discriminate Hk;
    try (apply frames_lookup in Hk; now exists chunks, ended).
Qed.

(** X17 on a first message: the thread is created, the message saved and
    the completion read in two chunks. *)
Lemma auth_send_saves_before_asking_witness :
  AuthChat.activeThreadId
    (snd (AuthChat.handleSend [] "openai/gpt-4o"
            (AuthChat.mkReplies (Some 7%Z) true (Some (["Hel"; "lo"], true)))
            (AuthChat.mkView None " hello " false "")))
  = Some 7%Z /\
  hd_error
    (fst (fst (AuthChat.handleSend [] "openai/gpt-4o"
                 (AuthChat.mkReplies (Some 7%Z) true (Some (["Hel"; "lo"], true)))
                 (AuthChat.mkView None " hello " false ""))))
  = Some (AuthChat.CreateThread "hello").
Proof.
  pose proof (auth_send_saves_before_asking [] "openai/gpt-4o"
                (AuthChat.mkReplies (Some 7%Z) true (Some (["Hel"; "lo"], true)))
                (AuthChat.mkView None " hello " false "") eq_refl eq_refl) as H.
  cbv zeta in H. destruct H as (_ & Hask & Hcreate & _).
  split.
  - destruct (Hask 7%Z [("user", "hello")] "openai/gpt-4o") as (_ & _ & _ & _ & Hthread);
      [|exact Hthread].
    vm_compute. right. right. left. reflexivity.
  - destruct (Hcreate "hello") as (_ & _ & _ & Hfirst); [|exact Hfirst].
    vm_compute. left. reflexivity.
Defined.

(** X18.  The model a chat route asks for: the request's [model] when it
    is a non-empty string, else the Cloudflare binding's [OPENROUTER_MODEL]
    when that is non-empty, else [process.env]'s [OPENROUTER_MODEL] when it
    is set, else ["google/gemini-2.0-flash-001"].  Only the last step tells
    unset from empty: the model asked for is the empty string exactly when
    the first two give nothing and [process.env] sets the variable to the
    empty string. *)
Theorem model_resolution (rt : Env.Runtime) (requested : option string) :
  let chosen := Js.or_else requested (Env.getDefaultModel rt) in
  let bound := Js.present (Env.cloudflare rt ≫= Env.OPENROUTER_MODEL) in
  (forall m, Js.present requested = Some m -> chosen = m) /\
  (Js.present requested = None -> forall m, bound = Some m -> chosen = m) /\
  (Js.present requested = None -> bound = None ->
   chosen = default "google/gemini-2.0-flash-001" (Env.OPENROUTER_MODEL (Env.process_env rt))) /\
  (chosen = "" <->
   Js.present requested = None /\ bound = None /\
   Env.OPENROUTER_MODEL (Env.process_env rt) = Some "").
Proof.
  intros chosen bound. subst chosen bound.
  unfold Env.getDefaultModel, Env.getModel, Js.or_else.
  destruct requested as [r|]; [destruct (Js.truthy r) eqn:Hr|].
  - assert (Hpresent : Js.present (Some r) = Some r).
    { apply present_Some. split; [reflexivity|]. intros ->. discriminate. }
    rewrite Hpresent. split; [now intros m [= <-]|]. split; [discriminate|].
    split; [discriminate|]. split; [|intros [? _]; discriminate].
    intros ->. discriminate.
  - assert (Hr' : r = "").
    { unfold Js.truthy in Hr. apply negb_false_iff, String.eqb_eq in Hr. exact Hr. }
    subst r.
    assert (Hpresent : Js.present (Some "") = None) by (apply present_None; now right).
    rewrite Hpresent.
    destruct (Js.present (Env.cloudflare rt ≫= Env.OPENROUTER_MODEL)) as [m|] eqn:Hbound.
    + apply present_Some in Hbound as Hm. destruct Hm as [_ Hm].
      split; [discriminate|]. split; [now intros _ m' [= <-]|]. split; [discriminate|].
      split; [intros ->; contradiction | intros (_ & ? & _); discriminate].
    + split; [discriminate|]. split; [discriminate|]. split; [reflexivity|].
      destruct (Env.OPENROUTER_MODEL (Env.process_env rt)) as [m|]; cbn.
      * split; [now intros -> | now intros (_ & _ & [= ->])].
      * split; [discriminate | intros (_ & _ & ?); discriminate].
  - assert (Hpresent : Js.present (@None string) = None) by (apply present_None; now left).
    rewrite Hpresent.
    destruct (Js.present (Env.cloudflare rt ≫= Env.OPENROUTER_MODEL)) as [m|] eqn:Hbound.
    + apply present_Some in Hbound as Hm. destruct Hm as [_ Hm].
      split; [discriminate|]. split; [now intros _ m' [= <-]|]. split; [discriminate|].
      split; [intros ->; contradiction | intros (_ & ? & _); discriminate].
    + split; [discriminate|]. split; [discriminate|]. split; [reflexivity|].
      destruct (Env.OPENROUTER_MODEL (Env.process_env rt)) as [m|]; cbn.
      * split; [now intros -> | now intros (_ & _ & [= ->])].
      * split; [discriminate | intros (_ & _ & ?); discriminate].
Qed.
